(** * Imara widgets: attribute / state synchronisation

    A shallow embedding of the four custom elements of the repository
    (button, single-line input, multi-line text area, layout container)
    and the properties their specification states about them.

    Each widget is a record holding the host element's attribute set, the
    fields of the class and the part of the shadow tree the methods touch.
    Methods are functions on that record, named after the source.  The
    host platform (attribute reflection, Web IDL conversions, the regular
    expression engine) is modelled where a method depends on it, and the
    place is marked as such. *)

From Stdlib Require Import ZArith Ascii String List Bool Lia DecimalString Floats.
From stdpp Require Import base decidable option strings gmap.

Local Open Scope string_scope.
#[local] Set Warnings "-clear-no-such-hyp".

(* ===================================================================== *)
(** * JavaScript values used by the widgets                               *)
(* ===================================================================== *)

Module JS.

(** A JavaScript string is a sequence of code units; the embedding uses
    Rocq strings, one character per code unit (code units 0..255). *)

(** [x || d] for [x : string | null]: the empty string and [null] are
    both falsy. *)
Definition or_else (x : option string) (d : string) : string :=
  match x with
  | Some s => if decide (s = "") then d else s
  | None => d
  end.

(** Truthiness of a [string | null]. *)
Definition truthy (x : option string) : bool :=
  match x with
  | Some s => negb (bool_decide (s = ""))
  | None => false
  end.

(** [\d] without the unicode flag: the ten ASCII digits. *)
Definition is_digit (c : ascii) : bool :=
  let n := N_of_ascii c in ((48 <=? n) && (n <=? 57))%N.

Fixpoint all_digits (s : string) : bool :=
  match s with
  | EmptyString => true
  | String c r => is_digit c && all_digits r
  end.

(** [/^\d+$/.test(s)]: no flags, so [^] and [$] are the two ends of the
    input and the whole string is one or more digits. *)
Definition digits_only (s : string) : bool :=
  match s with
  | EmptyString => false
  | _ => all_digits s
  end.

(** White space and line terminators among the code units 0..255
    (TAB, LF, VT, FF, CR, SP, NBSP): what [trim] strips and [parseInt]
    skips. *)
Definition is_white_space (c : ascii) : bool :=
  let n := N_of_ascii c in
  (((9 <=? n) && (n <=? 13)) || (n =? 32) || (n =? 160))%N.

Fixpoint trim_start (s : string) : string :=
  match s with
  | EmptyString => EmptyString
  | String c r => if is_white_space c then trim_start r else s
  end.

(** Strips trailing white space: a character is dropped when it and
    everything after it is white space. *)
Fixpoint trim_end (s : string) : string :=
  match s with
  | EmptyString => EmptyString
  | String c r =>
      match trim_end r with
      | EmptyString => if is_white_space c then EmptyString else String c EmptyString
      | r' => String c r'
      end
  end.

(** [s.trim()] *)
Definition trim (s : string) : string := trim_end (trim_start s).

(** A JavaScript number as far as the widgets produce one: [NaN], an
    infinity, or an integer that a double holds exactly. *)
Inductive number := NaN | Int (z : Z) | Infinity (negative : bool).

Definition digit_value (c : ascii) : Z := Z.of_N (N_of_ascii c) - 48.

(** Reads the longest prefix of decimal digits; [None] when there is
    none. *)
Fixpoint parse_digits (acc : option Z) (s : string) : option Z :=
  match s with
  | String c r =>
      if is_digit c
      then parse_digits (Some (10 * default 0 acc + digit_value c)%Z) r
      else acc
  | EmptyString => acc
  end.

(** The Number value for an integer: the nearest double, a tie going to
    the even significand, and an infinity from 2^1024 - 2^970 on.  Up to
    2^53 every integer is a double; from there on a double is a 53-bit
    significand [q] times [2^e]. *)
Definition round_double (z : Z) : number :=
  let a := Z.abs z in
  if (a <? 2 ^ 53)%Z then Int z
  else
    let e := (Z.log2 a - 52)%Z in
    let q := Z.shiftr a e in
    let r := Z.land a (Z.ones e) in
    let half := Z.shiftl 1 (e - 1) in
    let q :=
      if (half <? r)%Z || ((r =? half)%Z && Z.odd q) then (q + 1)%Z else q in
    let m := Z.shiftl q e in
    if (2 ^ 1024 <=? m)%Z then Infinity (z <? 0)%Z else Int (Z.sgn z * m).

(** [parseInt(s, 10)]: skip leading white space, read an optional sign,
    then the longest prefix of digits; [NaN] when no digit follows.  The
    result is the Number value for the integer the digits denote.  (The
    language lets an engine read the digits after the twentieth as
    zeros; the embedding follows the engines, which do not.) *)
Definition parseInt (s : string) : number :=
  let s := trim_start s in
  let '(sign, s) :=
    match s with
    | String "-" r => ((-1)%Z, r)
    | String "+" r => (1%Z, r)
    | _ => (1%Z, s)
    end in
  match parse_digits None s with
  | Some n => round_double (sign * n)
  | None => NaN
  end.

(** Web IDL conversion to [unsigned long]: [NaN] and the infinities are
    0, an integer is taken modulo 2^32. *)
Definition ToUint32 (x : number) : Z :=
  match x with
  | NaN => 0
  | Infinity _ => 0
  | Int z => z mod 2 ^ 32
  end%Z.

(** Web IDL conversion to [long]: modulo 2^32, then read as a signed
    32-bit value. *)
Definition ToInt32 (x : number) : Z :=
  let u := ToUint32 x in
  (if u <? 2 ^ 31 then u else u - 2 ^ 32)%Z.

(** [`${n}`] for a non-negative integer. *)
Definition show (n : N) : string := NilZero.string_of_uint (N.to_uint n).

(** [b.toString()] for a boolean. *)
Definition show_bool (b : bool) : string := if b then "true" else "false".

End JS.

(* ===================================================================== *)
(** * Layout container ([imara-container])                                *)
(* ===================================================================== *)

Module Container.

(** The DOM mutation calls the methods issue. *)
Inductive DomOp :=
| RemoveAttribute (name : string)         (* this.removeAttribute(name) *)
| StyleAssign (prop value : string)       (* container.style.prop = value *)
| SetProperty (name value : string)       (* container.style.setProperty *)
| RemoveProperty (name : string).         (* container.style.removeProperty *)

(** The element: its attributes, the inline style of the [.container]
    div of the shadow tree ([None] when [render] found no shadow root),
    and the calls made so far, latest first.  The style map holds each
    declaration as the style object keeps it. *)
Record State := mkState {
  attrs : gmap string string;
  container : option (gmap string string);
  ops : list DomOp
}.

(** The host, where the methods depend on it.  [css_parse p v] is what
    the style object's parser makes of the text [v] for the property
    [p]: the value the declaration block then holds for [p], or [None]
    when the parser refuses the text.  [object_member k] is the text of
    [Object.prototype[k]] for the names [Object.prototype] has
    ([constructor], [toString], ...), which a lookup in an object
    literal finds as well as the literal's own. *)
Class Host := {
  css_parse : string → string → option string;
  object_member : string → option string
}.

Definition observedAttributes : list string :=
  [ "layout"; "direction"; "align"; "justify"; "gap"; "columns";
    "min-column-width"; "padding"; "margin"; "width"; "height";
    "max-width"; "center"; "full-height"; "scroll" ].

Definition getAttribute (s : State) (name : string) : option string :=
  attrs s !! name.

(** State after the constructor: [attachShadow] then [render]. *)
Definition constructed : State :=
  {| attrs := ∅; container := Some ∅; ops := [] |}.

Definition log (o : DomOp) (s : State) : State :=
  {| attrs := attrs s; container := container s; ops := o :: ops s |}.

Definition mapAlign (value : option string) : string :=
  match value with
  | Some "start" => "flex-start"
  | Some "end" => "flex-end"
  | Some v =>
      if bool_decide (v = "center") || bool_decide (v = "stretch")
         || bool_decide (v = "baseline")
      then v else "stretch"
  | None => "stretch"
  end.

Definition mapJustify (value : option string) : string :=
  match value with
  | Some "start" => "flex-start"
  | Some "end" => "flex-end"
  | Some v =>
      if bool_decide (v = "center") || bool_decide (v = "space-between")
         || bool_decide (v = "space-around") || bool_decide (v = "space-evenly")
      then v else "flex-start"
  | None => "flex-start"
  end.

Definition normalizeUnit (value : option string) : string :=
  match value with
  | None => "auto"
  | Some v =>
      if decide (v = "") then "auto"
      else if JS.digits_only v then v +:+ "px" else v
  end.

(** The own properties of the [PADDING_SCALE] literal. *)
Definition PADDING_SCALE (key : string) : option string :=
  if decide (key = "xs") then Some "0.25rem"
  else if decide (key = "sm") then Some "0.5rem"
  else if decide (key = "md") then Some "1rem"
  else if decide (key = "lg") then Some "1.5rem"
  else if decide (key = "xl") then Some "2rem"
  else None.

(** What [resolvePadding] returns: a string, or the member of
    [Object.prototype] that [PADDING_SCALE[value]] found (a function or
    an object, truthy), given by its text. *)
Inductive Padding :=
| PaddingText (value : string)
| PaddingMember (text : string).

Section WithHost.
Context `{Host}.

(** The style object takes a declaration: an empty text removes the
    property, a text the parser refuses is ignored, and any other text
    is stored as the parser read it. *)
Definition declare (prop value : string)
    (st : gmap string string) : gmap string string :=
  if decide (value = "") then delete prop st
  else match css_parse prop value with
       | Some v => <[prop := v]> st
       | None => st
       end.

(** [this.container.style.prop = value] *)
Definition styleAssign (prop value : string) (s : State) : State :=
  log (StyleAssign prop value)
    {| attrs := attrs s;
       container := declare prop value <$> container s;
       ops := ops s |}.

(** [this.container.style.setProperty(name, value)] *)
Definition setProperty (name value : string) (s : State) : State :=
  log (SetProperty name value)
    {| attrs := attrs s;
       container := declare name value <$> container s;
       ops := ops s |}.

(** [this.container.style.removeProperty(name)] *)
Definition removeProperty (name : string) (s : State) : State :=
  log (RemoveProperty name)
    {| attrs := attrs s;
       container := (λ st, delete name st) <$> container s;
       ops := ops s |}.

Definition resolvePadding (value : option string) : Padding :=
  match value with
  | None => PaddingText "0"
  | Some v =>
      if decide (v = "") then PaddingText "0"
      else match PADDING_SCALE v with
           | Some p => PaddingText p
           | None =>
               match object_member v with
               | Some text => PaddingMember text
               | None => PaddingText (normalizeUnit (Some v))
               end
           end
  end.

Definition setVar (name value : string) (s : State) : State :=
  if decide (value = "auto") then removeProperty name s
  else setProperty name value s.

(** [setVar] on what [resolvePadding] returned: a member of
    [Object.prototype] is not the string ['auto'], and [setProperty]
    takes it as its text. *)
Definition setVar_padding (name : string) (value : Padding) (s : State) : State :=
  match value with
  | PaddingText v => setVar name v s
  | PaddingMember text => setProperty name text s
  end.

Definition applyFlex (s : State) : State :=
  if decide (getAttribute s "layout" = Some "flex") then
    let s := styleAssign "flex-direction"
               (JS.or_else (getAttribute s "direction") "row") s in
    let s := styleAssign "align-items" (mapAlign (getAttribute s "align")) s in
    styleAssign "justify-content" (mapJustify (getAttribute s "justify")) s
  else s.

Definition applyGrid (s : State) : State :=
  if decide (getAttribute s "layout" = Some "grid") then
    let columns := getAttribute s "columns" in
    let minWidth :=
      normalizeUnit
        (Some (JS.or_else (getAttribute s "min-column-width") "250px")) in
    if JS.truthy columns && JS.digits_only (default "" columns) then
      setProperty "--grid-template-columns"
        ("repeat(" +:+ default "" columns +:+ ", 1fr)") s
    else
      setProperty "--grid-template-columns"
        ("repeat(auto-fit, minmax(" +:+ minWidth +:+ ", 1fr))") s
  else removeProperty "--grid-template-columns" s.

Definition applySpacing (s : State) : State :=
  let s := setVar "--gap" (normalizeUnit (getAttribute s "gap")) s in
  let s := setVar_padding "--padding"
             (resolvePadding (getAttribute s "padding")) s in
  setVar "--margin" (normalizeUnit (getAttribute s "margin")) s.

Definition applySizing (s : State) : State :=
  let s := setVar "--width" (normalizeUnit (getAttribute s "width")) s in
  let s := setVar "--height" (normalizeUnit (getAttribute s "height")) s in
  setVar "--max-width" (normalizeUnit (getAttribute s "max-width")) s.

(** [!layout || (layout !== 'block' && layout !== 'flex' && layout !== 'grid')] *)
Definition layout_rejected (layout : option string) : bool :=
  negb (JS.truthy layout)
  || (negb (bool_decide (layout = Some "block"))
      && negb (bool_decide (layout = Some "flex"))
      && negb (bool_decide (layout = Some "grid"))).

(** The part of [sync] after [applyLayout]. *)
Definition sync_rest (s : State) : State :=
  applySizing (applySpacing (applyGrid (applyFlex s))).

(** [applyLayout] removes a rejected [layout] attribute.  Removing an
    attribute that is present runs [attributeChangedCallback], hence a
    nested [sync], before [removeAttribute] returns; in that nested run
    the attribute is absent, its own [removeAttribute] finds nothing to
    remove and calls nothing back, and the rest of [sync] follows. *)
Definition applyLayout (s : State) : State :=
  if layout_rejected (getAttribute s "layout") then
    let s := log (RemoveAttribute "layout") s in
    match getAttribute s "layout" with
    | Some _ =>
        let s := {| attrs := delete "layout" (attrs s);
                    container := container s; ops := ops s |} in
        sync_rest (log (RemoveAttribute "layout") s)
    | None => s
    end
  else s.

Definition sync (s : State) : State :=
  match container s with
  | None => s
  | Some _ => sync_rest (applyLayout s)
  end.

Definition connectedCallback (s : State) : State := sync s.

(** The callback takes no argument: it ignores the attribute's name and
    its old and new values. *)
Definition attributeChangedCallback
    (s : State) (name : string) (oldValue newValue : option string) : State :=
  sync s.

(** Host: [el.setAttribute(name, value)] on the element.  The platform
    stores the value and, for an observed attribute, calls
    [attributeChangedCallback] before returning, also when the value is
    the one already there. *)
Definition setAttribute (name value : string) (s : State) : State :=
  let old := getAttribute s name in
  let s := {| attrs := <[name := value]> (attrs s);
              container := container s; ops := ops s |} in
  if bool_decide (name ∈ observedAttributes)
  then attributeChangedCallback s name old (Some value)
  else s.

End WithHost.

(** The value of the custom property the style sheet reads the grid
    template from. *)
Definition gridTemplate (s : State) : option string :=
  container s ≫= (λ st, st !! "--grid-template-columns").

End Container.

(* ===================================================================== *)
(** * Button ([imara-btn])                                                *)
(* ===================================================================== *)

Module Button.

(** [CustomEvent('button-click', { bubbles, composed, detail })] *)
Record CustomEvent := mkEvent {
  ev_type : string;
  bubbles : bool;
  composed : bool;
  detail_variant : string;
  detail_type : string
}.

(** The native event handed to a listener, as far as the handler acts
    on it. *)
Record NativeEvent := mkNative {
  defaultPrevented : bool;
  propagationStopped : bool
}.

Definition fresh_event : NativeEvent :=
  {| defaultPrevented := false; propagationStopped := false |}.

(** Calls the public methods forward to the inner [<button>]. *)
Inductive NativeCall := NativeClick | NativeFocus | NativeBlur.

(** The [<button>] of the shadow tree: its content attributes and
    whether [handleClick] is registered on it.  (Registering the same
    listener twice registers it once.) *)
Record InnerButton := mkInner {
  b_attrs : gmap string string;
  b_listening : bool
}.

(** The button the template creates:
    [<button class="app-button" part="button">]. *)
Definition template_button : InnerButton :=
  {| b_attrs := {[ "class" := "app-button"; "part" := "button" ]};
     b_listening := false |}.

Record State := mkState {
  attrs : gmap string string;
  button : option InnerButton;       (* this.button *)
  pending_renders : nat;             (* render() calls suspended at an await *)
  events : list CustomEvent;         (* dispatched on the host, oldest first *)
  calls : list NativeCall            (* forwarded to this.button, oldest first *)
}.

Definition observedAttributes : list string :=
  [ "variant"; "disabled"; "loading"; "type" ].

Definition constructed : State :=
  {| attrs := ∅; button := None; pending_renders := 0;
     events := []; calls := [] |}.

Definition getAttribute (s : State) (name : string) : option string :=
  attrs s !! name.

Definition hasAttribute (s : State) (name : string) : bool :=
  bool_decide (is_Some (attrs s !! name)).

Definition with_button (b : option InnerButton) (s : State) : State :=
  {| attrs := attrs s; button := b; pending_renders := pending_renders s;
     events := events s; calls := calls s |}.

Definition dispatchEvent (e : CustomEvent) (s : State) : State :=
  {| attrs := attrs s; button := button s;
     pending_renders := pending_renders s;
     events := events s ++ [e]; calls := calls s |}.

Definition record_call (c : NativeCall) (s : State) : State :=
  {| attrs := attrs s; button := button s;
     pending_renders := pending_renders s;
     events := events s; calls := calls s ++ [c] |}.

Definition preventDefault (e : NativeEvent) : NativeEvent :=
  {| defaultPrevented := true; propagationStopped := propagationStopped e |}.

Definition stopPropagation (e : NativeEvent) : NativeEvent :=
  {| defaultPrevented := defaultPrevented e; propagationStopped := true |}.

Definition handleClick (s : State) (event : NativeEvent) : State * NativeEvent :=
  if hasAttribute s "disabled" || hasAttribute s "loading" then
    (s, stopPropagation (preventDefault event))
  else
    (dispatchEvent
       {| ev_type := "button-click"; bubbles := true; composed := true;
          detail_variant := JS.or_else (getAttribute s "variant") "primary";
          detail_type := JS.or_else (getAttribute s "type") "button" |} s,
     event).

Definition b_setAttribute (name value : string) (b : InnerButton) : InnerButton :=
  {| b_attrs := <[name := value]> (b_attrs b); b_listening := b_listening b |}.

Definition b_removeAttribute (name : string) (b : InnerButton) : InnerButton :=
  {| b_attrs := delete name (b_attrs b); b_listening := b_listening b |}.

Definition updateButton (s : State) : State :=
  match button s with
  | None => s
  | Some b =>
      let type := JS.or_else (getAttribute s "type") "button" in
      let b := b_setAttribute "type" type b in
      let isDisabled := hasAttribute s "disabled" in
      let isLoading := hasAttribute s "loading" in
      let b :=
        if isDisabled || isLoading then
          b_setAttribute "aria-disabled" "true" (b_setAttribute "disabled" "" b)
        else
          b_setAttribute "aria-disabled" "false" (b_removeAttribute "disabled" b) in
      let b :=
        if isLoading then b_setAttribute "aria-busy" "true" b
        else b_setAttribute "aria-busy" "false" b in
      let variant := JS.or_else (getAttribute s "variant") "primary" in
      let b :=
        b_setAttribute "aria-label"
          (variant +:+ " button" +:+ (if isLoading then ", loading" else "")) b in
      with_button (Some b) s
  end.

(** [render] is an [async] method: the call runs up to its first
    [await] and returns; the rest runs later, as [render_resume].  (The
    shadow root exists from the constructor on, so the guard at the top
    of [render] never returns.) *)
Definition render (s : State) : State :=
  {| attrs := attrs s; button := button s;
     pending_renders := S (pending_renders s);
     events := events s; calls := calls s |}.

(** The continuation of a suspended [render]: the shadow tree is
    rebuilt from the template, [this.button] is the new [<button>], and
    [updateButton] initialises it. *)
Definition render_resume (s : State) : State :=
  match pending_renders s with
  | O => s
  | S n =>
      updateButton
        {| attrs := attrs s; button := Some template_button;
           pending_renders := n; events := events s; calls := calls s |}
  end.

Definition attachEventListeners (s : State) : State :=
  match button s with
  | Some b =>
      with_button (Some {| b_attrs := b_attrs b; b_listening := true |}) s
  | None => s
  end.

Definition removeEventListeners (s : State) : State :=
  match button s with
  | Some b =>
      with_button (Some {| b_attrs := b_attrs b; b_listening := false |}) s
  | None => s
  end.

Definition connectedCallback (s : State) : State :=
  attachEventListeners (render s).

Definition disconnectedCallback (s : State) : State :=
  removeEventListeners s.

Definition attributeChangedCallback
    (s : State) (name : string) (oldValue newValue : option string) : State :=
  if decide (oldValue ≠ newValue) then updateButton s else s.

(** Host: a click event fired at the inner button runs [handleClick]
    when it is registered there. *)
Definition fire_click (s : State) : State :=
  match button s with
  | Some b => if b_listening b then fst (handleClick s fresh_event) else s
  | None => s
  end.

(** Host: [button.click()] on the inner button does nothing on a
    disabled button and fires a click event at it otherwise. *)
Definition native_click (s : State) : State :=
  match button s with
  | Some b =>
      let s := record_call NativeClick s in
      if bool_decide (is_Some (b_attrs b !! "disabled")) then s
      else fire_click s
  | None => s
  end.

(** Public API: [click()] *)
Definition click (s : State) : State :=
  match button s with
  | Some _ =>
      if negb (hasAttribute s "disabled") && negb (hasAttribute s "loading")
      then native_click s else s
  | None => s
  end.

(** Public API: [focus()] *)
Definition focus (s : State) : State :=
  match button s with
  | Some _ => record_call NativeFocus s
  | None => s
  end.

(** Public API: [blur()] *)
Definition blur (s : State) : State :=
  match button s with
  | Some _ => record_call NativeBlur s
  | None => s
  end.

(** Host: [el.setAttribute(name, value)] and [el.removeAttribute(name)]
    on the element; an observed attribute calls back before the call
    returns. *)
Definition setAttribute (name value : string) (s : State) : State :=
  let old := getAttribute s name in
  let s := {| attrs := <[name := value]> (attrs s); button := button s;
              pending_renders := pending_renders s;
              events := events s; calls := calls s |} in
  if bool_decide (name ∈ observedAttributes)
  then attributeChangedCallback s name old (Some value)
  else s.

End Button.

(* ===================================================================== *)
(** * Single-line input ([imara-input])                                   *)
(* ===================================================================== *)

Module Input.

(** [CustomEvent(type, { bubbles, composed, detail })]; only the input
    event carries an [inputType]. *)
Record CustomEvent := mkEvent {
  ev_type : string;
  bubbles : bool;
  composed : bool;
  detail_value : string;
  detail_inputType : option string
}.

Inductive NativeCall := NativeFocus | NativeBlur | NativeSelect.

(** The [<input>] of the shadow tree: the properties [updateInputState]
    assigns, as they read back ([i_type] is the type the control has
    taken, [i_value] its value), the attributes it sets, and whether
    the four handlers are registered on it. *)
Record NativeInput := mkInput {
  i_type : string;
  i_value : string;
  i_placeholder : string;
  i_name : string;
  i_disabled : bool;
  i_readOnly : bool;
  i_required : bool;
  i_attrs : gmap string string;
  i_listening : bool
}.

(** [<input class="input-field" part="input" autocomplete="off" />] *)
Definition template_input : NativeInput :=
  {| i_type := "text"; i_value := ""; i_placeholder := ""; i_name := "";
     i_disabled := false; i_readOnly := false; i_required := false;
     i_attrs := {[ "class" := "input-field"; "part" := "input";
                   "autocomplete" := "off" ]};
     i_listening := false |}.

(** [ElementInternals]: the submitted form value and the validity the
    element last set ([None]: valid). *)
Record Internals := mkInternals {
  formValue : string;
  validity : option string
}.

Record State := mkState {
  attrs : gmap string string;
  inputElement : option NativeInput;   (* this.inputElement *)
  labelElement : option string;        (* this.labelElement, as the text of its .label-text span *)
  internals : option Internals;        (* this.internals *)
  events : list CustomEvent;           (* dispatched on the host, oldest first *)
  calls : list NativeCall              (* forwarded to this.inputElement *)
}.

(** The host's constraint validation of the native input
    ([inputElement.validity.valid]). *)
Class Host := { validity_valid : NativeInput → bool }.

(** The host's native control, where the widget depends on it.
    - [type_keyword t] is the type the control takes when its [type] is
      set to the text [t]: the keyword of a type the host implements,
      and [text] for any other text.
    - [retype t t' v] is the value of a control holding [v] after its
      type changes from [t] to [t'].
    - [assign t v] is the value a control of type [t] reads after
      [control.value = v] (the type's value sanitization).  The
      embedding takes the assignment to return, which it does for
      every type but [file]: a file control answers a non-empty [v] by
      throwing InvalidStateError, and an element that asks for a file
      control with a [value] is outside the embedding.
    - [keystroke i c] is what the control [i] makes of the key [c]
      pressed in it: [None] when it refuses the key and fires nothing,
      otherwise the value it reads afterwards, with which it fires an
      input event. *)
Class Control := {
  type_keyword : string → string;
  retype : string → string → string → string;
  assign : string → string → string;
  keystroke : NativeInput → ascii → option string
}.

Definition observedAttributes : list string :=
  [ "type"; "value"; "placeholder"; "label";
    "disabled"; "readonly"; "required"; "error"; "name" ].

(** State after the constructor; [supported] says whether the host has
    [attachInternals]. *)
Definition constructed (supported : bool) : State :=
  {| attrs := ∅; inputElement := None; labelElement := None;
     internals :=
       if supported then Some {| formValue := ""; validity := None |} else None;
     events := []; calls := [] |}.

Definition getAttribute (s : State) (name : string) : option string :=
  attrs s !! name.

Definition hasAttribute (s : State) (name : string) : bool :=
  bool_decide (is_Some (attrs s !! name)).

Definition with_attrs (a : gmap string string) (s : State) : State :=
  {| attrs := a; inputElement := inputElement s;
     labelElement := labelElement s; internals := internals s;
     events := events s; calls := calls s |}.

Definition with_input (i : option NativeInput) (s : State) : State :=
  {| attrs := attrs s; inputElement := i;
     labelElement := labelElement s; internals := internals s;
     events := events s; calls := calls s |}.

Definition with_label (l : option string) (s : State) : State :=
  {| attrs := attrs s; inputElement := inputElement s;
     labelElement := l; internals := internals s;
     events := events s; calls := calls s |}.

Definition with_internals (n : option Internals) (s : State) : State :=
  {| attrs := attrs s; inputElement := inputElement s;
     labelElement := labelElement s; internals := n;
     events := events s; calls := calls s |}.

Definition dispatchEvent (e : CustomEvent) (s : State) : State :=
  {| attrs := attrs s; inputElement := inputElement s;
     labelElement := labelElement s; internals := internals s;
     events := events s ++ [e]; calls := calls s |}.

Definition record_call (c : NativeCall) (s : State) : State :=
  {| attrs := attrs s; inputElement := inputElement s;
     labelElement := labelElement s; internals := internals s;
     events := events s; calls := calls s ++ [c] |}.

(** [this.internals.setFormValue(v)], guarded by [if (this.internals)] *)
Definition setFormValue (v : string) (s : State) : State :=
  match internals s with
  | Some n => with_internals (Some {| formValue := v; validity := validity n |}) s
  | None => s
  end.

(** [this.toggleAttribute(name, force)]; [aria-disabled] is not an
    observed attribute, so nothing is called back. *)
Definition toggleAttribute (name : string) (force : bool) (s : State) : State :=
  if force then
    match attrs s !! name with
    | Some _ => s
    | None => with_attrs (<[name := ""]> (attrs s)) s
    end
  else with_attrs (delete name (attrs s)) s.

Section WithHost.
Context `{Host} `{Control}.

Definition updateInputState (s : State) : State :=
  match inputElement s, labelElement s with
  | Some i, Some _ =>
      let type := JS.or_else (getAttribute s "type") "text" in
      let value := JS.or_else (getAttribute s "value") "" in
      let placeholder := JS.or_else (getAttribute s "placeholder") "" in
      let label := JS.or_else (getAttribute s "label") "" in
      let name := JS.or_else (getAttribute s "name") "" in
      let isDisabled := hasAttribute s "disabled" in
      let isReadonly := hasAttribute s "readonly" in
      let isRequired := hasAttribute s "required" in
      let hasError := hasAttribute s "error" in
      let type := type_keyword type in
      let held :=
        if decide (i_type i = type) then i_value i
        else retype (i_type i) type (i_value i) in
      let i :=
        {| i_type := type;
           i_value := if decide (held ≠ value) then assign type value else held;
           i_placeholder := placeholder;
           i_name := if decide (name = "") then i_name i else name;
           i_disabled := isDisabled;
           i_readOnly := isReadonly;
           i_required := isRequired;
           i_attrs :=
             <["aria-invalid" := JS.show_bool hasError]>
               (<["aria-required" := JS.show_bool isRequired]> (i_attrs i));
           i_listening := i_listening i |} in
      let s := setFormValue value s in
      let s := with_label (Some label) s in
      let s := toggleAttribute "aria-disabled" isDisabled s in
      let s := with_input (Some i) s in
      match internals s with
      | Some n =>
          if hasError then
            with_internals
              (Some {| formValue := formValue n;
                       validity := Some "Invalid input" |}) s
          else if validity_valid i then
            with_internals
              (Some {| formValue := formValue n; validity := None |}) s
          else s
      | None => s
      end
  | _, _ => s
  end.

(** [render] is declared [async] but awaits nothing, so its body has
    run when the call returns: the shadow tree is rebuilt from the
    template and both references point into the new tree. *)
Definition render (s : State) : State :=
  with_label (Some "") (with_input (Some template_input) s).

Definition set_listening (b : bool) (i : NativeInput) : NativeInput :=
  {| i_type := i_type i; i_value := i_value i;
     i_placeholder := i_placeholder i; i_name := i_name i;
     i_disabled := i_disabled i; i_readOnly := i_readOnly i;
     i_required := i_required i; i_attrs := i_attrs i;
     i_listening := b |}.

Definition attachEventListeners (s : State) : State :=
  match inputElement s with
  | Some i => with_input (Some (set_listening true i)) s
  | None => s
  end.

Definition removeEventListeners (s : State) : State :=
  match inputElement s with
  | Some i => with_input (Some (set_listening false i)) s
  | None => s
  end.

Definition connectedCallback (s : State) : State :=
  updateInputState (attachEventListeners (render s)).

Definition disconnectedCallback (s : State) : State :=
  removeEventListeners s.

Definition attributeChangedCallback
    (s : State) (name : string) (oldValue newValue : option string) : State :=
  if decide (oldValue ≠ newValue) then updateInputState s else s.

(** Host: [el.setAttribute(name, value)]; an observed attribute calls
    back before the call returns. *)
Definition setAttribute (name value : string) (s : State) : State :=
  let old := getAttribute s name in
  let s := with_attrs (<[name := value]> (attrs s)) s in
  if bool_decide (name ∈ observedAttributes)
  then attributeChangedCallback s name old (Some value)
  else s.

(** [event.target.value]: the handlers are registered on
    [this.inputElement], which is the target of the events they
    receive. *)
Definition target_value (s : State) : string :=
  match inputElement s with
  | Some i => i_value i
  | None => ""
  end.

Definition handleInput (s : State) (inputType : string) : State :=
  let s := setAttribute "value" (target_value s) s in
  let s := setFormValue (target_value s) s in
  dispatchEvent
    {| ev_type := "input"; bubbles := true; composed := true;
       detail_value := target_value s;
       detail_inputType := Some inputType |} s.

Definition handleChange (s : State) : State :=
  dispatchEvent
    {| ev_type := "change"; bubbles := true; composed := true;
       detail_value := target_value s; detail_inputType := None |} s.

Definition handleFocus (s : State) : State :=
  dispatchEvent
    {| ev_type := "focus"; bubbles := true; composed := true;
       detail_value := target_value s; detail_inputType := None |} s.

Definition handleBlur (s : State) : State :=
  dispatchEvent
    {| ev_type := "blur"; bubbles := true; composed := true;
       detail_value := target_value s; detail_inputType := None |} s.

(** [get value()]: [this.inputElement?.value || ''] *)
Definition get_value (s : State) : string :=
  JS.or_else (i_value <$> inputElement s) "".

(** [set value(val)] *)
Definition set_value (val : string) (s : State) : State :=
  setAttribute "value" val s.

(** Public API: [focus()], [blur()], [select()].  Whether the focus
    moves is the host's: [inputElement.focus()] moves it to a control
    that can take it and does not have it (never to a disabled one),
    [inputElement.blur()] takes it from a control that has it.  When it
    moves, the host fires the focus (blur) event at the control before
    the call returns, which runs the handler when it is registered; a
    control that loses the focus holding text the user edited and that
    it has not yet committed is first sent a change event.  [moves]
    says whether the host finds the focus to move, [commits] whether it
    finds such text. *)
Definition focus (moves : bool) (s : State) : State :=
  match inputElement s with
  | Some i =>
      let s := record_call NativeFocus s in
      if moves && negb (i_disabled i) && i_listening i then handleFocus s else s
  | None => s
  end.

Definition blur (moves commits : bool) (s : State) : State :=
  match inputElement s with
  | Some i =>
      let s := record_call NativeBlur s in
      if moves && i_listening i
      then handleBlur (if commits then handleChange s else s)
      else s
  | None => s
  end.

Definition select (s : State) : State :=
  match inputElement s with
  | Some _ => record_call NativeSelect s
  | None => s
  end.

(** Host: the user presses the key [c] in the native input.  A
    disabled or read-only control takes no keystroke.  Another control
    refuses the key, or changes its text: then it reads the value the
    host gives it and an input event is fired at it, which runs
    [handleInput] when it is registered. *)
Definition user_type (c : ascii) (s : State) : State :=
  match inputElement s with
  | Some i =>
      if i_disabled i || i_readOnly i then s
      else
        match keystroke i c with
        | None => s
        | Some v =>
            let i' :=
              {| i_type := i_type i; i_value := v;
                 i_placeholder := i_placeholder i; i_name := i_name i;
                 i_disabled := i_disabled i; i_readOnly := i_readOnly i;
                 i_required := i_required i; i_attrs := i_attrs i;
                 i_listening := i_listening i |} in
            let s := with_input (Some i') s in
            if i_listening i then handleInput s "insertText" else s
        end
  | None => s
  end.

Fixpoint user_types (text : string) (s : State) : State :=
  match text with
  | EmptyString => s
  | String c r => user_types r (user_type c s)
  end.

End WithHost.

End Input.

(* ===================================================================== *)
(** * Multi-line text area ([text-eria])                                  *)
(* ===================================================================== *)

Module Texteria.

(** The two exceptions the host can raise under the widget's calls:
    [new RegExp] on a malformed pattern, and the [maxLength] /
    [minLength] setters on a number they refuse. *)
Inductive exn := SyntaxError | IndexSizeError.

(** The host's regular-expression engine: [RegExp_new p] is
    [new RegExp(p)], [None] when it throws [SyntaxError]; [RegExp_test]
    is [regex.test(text)]. *)
Class RegExpEngine := {
  regexp : Type;
  RegExp_new : string → option regexp;
  RegExp_test : regexp → string → bool
}.

(** [CustomEvent(type, { detail: getEventDetail(), bubbles, composed })] *)
Record CustomEvent := mkEvent {
  ev_type : string;
  bubbles : bool;
  composed : bool;
  detail_value : string;
  detail_characterCount : N
}.

Inductive NativeCall := NativeFocus | NativeBlur.

(** The native [<textarea>].  [t_maxLength] and [t_minLength] are the
    reflected properties, -1 when the content attribute is missing;
    [t_scrollHeight] is the content height as the host measures it. *)
Record TextArea := mkTextArea {
  t_value : string;
  t_placeholder : string;
  t_disabled : bool;
  t_rows : Z;
  t_cols : Z;
  t_maxLength : Z;
  t_minLength : Z;
  t_required : bool;
  t_name : string;
  t_classes : gset string;
  t_attrs : gmap string string;
  t_height : option string;
  t_scrollHeight : Z
}.

Record Counter := mkCounter {
  c_text : string;
  c_classes : gset string;
  c_display : option string
}.

Record Validation := mkValidation {
  v_text : string;
  v_classes : gset string;
  v_id : option string
}.

Record Label := mkLabel {
  l_text : string;
  l_classes : gset string
}.

Record State := mkState {
  attrs : gmap string string;
  _value : string;
  isUserTyping : bool;
  textarea : TextArea;
  container : gset string;            (* this.container.classList *)
  charCounter : Counter;
  validationMessage : Validation;
  label : option Label;
  events : list CustomEvent;          (* dispatched on the host, oldest first *)
  reported : list exn;                (* exceptions the host caught from a callback or listener *)
  calls : list NativeCall             (* forwarded to this.textarea *)
}.

Definition observedAttributes : list string :=
  [ "value"; "placeholder"; "disabled"; "rows"; "cols"; "maxlength";
    "minlength"; "required"; "auto-resize"; "pattern"; "label"; "name";
    "validation-message"; "show-counter" ].

(** State after the constructor. *)
Definition constructed (scrollHeight : Z) : State :=
  {| attrs := ∅; _value := ""; isUserTyping := false;
     textarea :=
       {| t_value := ""; t_placeholder := ""; t_disabled := false;
          t_rows := 2; t_cols := 20; t_maxLength := -1; t_minLength := -1;
          t_required := false; t_name := "";
          t_classes := {[ "texteria-input" ]};
          t_attrs := {[ "aria-label" := "Text input area" ]};
          t_height := None; t_scrollHeight := scrollHeight |};
     container := {[ "texteria-container" ]};
     charCounter :=
       {| c_text := ""; c_classes := {[ "texteria-counter" ]};
          c_display := None |};
     validationMessage :=
       {| v_text := ""; v_classes := {[ "texteria-validation" ]};
          v_id := None |};
     label := None; events := []; reported := []; calls := [] |}.

(** ** Field updates *)

Definition with_attrs (a : gmap string string) (s : State) : State :=
  {| attrs := a; _value := _value s; isUserTyping := isUserTyping s;
     textarea := textarea s; container := container s;
     charCounter := charCounter s; validationMessage := validationMessage s;
     label := label s; events := events s; reported := reported s;
     calls := calls s |}.

Definition with_value (v : string) (s : State) : State :=
  {| attrs := attrs s; _value := v; isUserTyping := isUserTyping s;
     textarea := textarea s; container := container s;
     charCounter := charCounter s; validationMessage := validationMessage s;
     label := label s; events := events s; reported := reported s;
     calls := calls s |}.

Definition with_typing (b : bool) (s : State) : State :=
  {| attrs := attrs s; _value := _value s; isUserTyping := b;
     textarea := textarea s; container := container s;
     charCounter := charCounter s; validationMessage := validationMessage s;
     label := label s; events := events s; reported := reported s;
     calls := calls s |}.

Definition with_textarea (t : TextArea) (s : State) : State :=
  {| attrs := attrs s; _value := _value s; isUserTyping := isUserTyping s;
     textarea := t; container := container s;
     charCounter := charCounter s; validationMessage := validationMessage s;
     label := label s; events := events s; reported := reported s;
     calls := calls s |}.

Definition with_container (c : gset string) (s : State) : State :=
  {| attrs := attrs s; _value := _value s; isUserTyping := isUserTyping s;
     textarea := textarea s; container := c;
     charCounter := charCounter s; validationMessage := validationMessage s;
     label := label s; events := events s; reported := reported s;
     calls := calls s |}.

Definition with_counter (c : Counter) (s : State) : State :=
  {| attrs := attrs s; _value := _value s; isUserTyping := isUserTyping s;
     textarea := textarea s; container := container s;
     charCounter := c; validationMessage := validationMessage s;
     label := label s; events := events s; reported := reported s;
     calls := calls s |}.

Definition with_validation (v : Validation) (s : State) : State :=
  {| attrs := attrs s; _value := _value s; isUserTyping := isUserTyping s;
     textarea := textarea s; container := container s;
     charCounter := charCounter s; validationMessage := v;
     label := label s; events := events s; reported := reported s;
     calls := calls s |}.

Definition with_label (l : option Label) (s : State) : State :=
  {| attrs := attrs s; _value := _value s; isUserTyping := isUserTyping s;
     textarea := textarea s; container := container s;
     charCounter := charCounter s; validationMessage := validationMessage s;
     label := l; events := events s; reported := reported s;
     calls := calls s |}.

Definition dispatchEvent (e : CustomEvent) (s : State) : State :=
  {| attrs := attrs s; _value := _value s; isUserTyping := isUserTyping s;
     textarea := textarea s; container := container s;
     charCounter := charCounter s; validationMessage := validationMessage s;
     label := label s; events := events s ++ [e]; reported := reported s;
     calls := calls s |}.

Definition report (e : exn) (s : State) : State :=
  {| attrs := attrs s; _value := _value s; isUserTyping := isUserTyping s;
     textarea := textarea s; container := container s;
     charCounter := charCounter s; validationMessage := validationMessage s;
     label := label s; events := events s; reported := reported s ++ [e];
     calls := calls s |}.

Definition record_call (c : NativeCall) (s : State) : State :=
  {| attrs := attrs s; _value := _value s; isUserTyping := isUserTyping s;
     textarea := textarea s; container := container s;
     charCounter := charCounter s; validationMessage := validationMessage s;
     label := label s; events := events s; reported := reported s;
     calls := calls s ++ [c] |}.

Definition getAttribute (s : State) (name : string) : option string :=
  attrs s !! name.

Definition hasAttribute (s : State) (name : string) : bool :=
  bool_decide (is_Some (attrs s !! name)).

(** [classList.toggle(name, force)] *)
Definition toggle (name : string) (force : bool) (cl : gset string) : gset string :=
  if force then {[ name ]} ∪ cl else cl ∖ {[ name ]}.

(** ** The native textarea (host) *)

(** The text a textarea reports through [value] has its line breaks
    normalised: CR LF and a lone CR read as LF. *)
Fixpoint normalize_newlines (s : string) : string :=
  match s with
  | EmptyString => EmptyString
  | String c r =>
      if Ascii.eqb c "013" then
        match r with
        | String c' r' =>
            if Ascii.eqb c' "010" then String "010" (normalize_newlines r')
            else String "010" (normalize_newlines r)
        | EmptyString => String "010" EmptyString
        end
      else String c (normalize_newlines r)
  end.

Definition t_with_value (v : string) (t : TextArea) : TextArea :=
  {| t_value := normalize_newlines v; t_placeholder := t_placeholder t;
     t_disabled := t_disabled t; t_rows := t_rows t; t_cols := t_cols t;
     t_maxLength := t_maxLength t; t_minLength := t_minLength t;
     t_required := t_required t; t_name := t_name t;
     t_classes := t_classes t; t_attrs := t_attrs t;
     t_height := t_height t; t_scrollHeight := t_scrollHeight t |}.

Definition t_with_placeholder (v : string) (t : TextArea) : TextArea :=
  {| t_value := t_value t; t_placeholder := v;
     t_disabled := t_disabled t; t_rows := t_rows t; t_cols := t_cols t;
     t_maxLength := t_maxLength t; t_minLength := t_minLength t;
     t_required := t_required t; t_name := t_name t;
     t_classes := t_classes t; t_attrs := t_attrs t;
     t_height := t_height t; t_scrollHeight := t_scrollHeight t |}.

Definition t_with_disabled (b : bool) (t : TextArea) : TextArea :=
  {| t_value := t_value t; t_placeholder := t_placeholder t;
     t_disabled := b; t_rows := t_rows t; t_cols := t_cols t;
     t_maxLength := t_maxLength t; t_minLength := t_minLength t;
     t_required := t_required t; t_name := t_name t;
     t_classes := t_classes t; t_attrs := t_attrs t;
     t_height := t_height t; t_scrollHeight := t_scrollHeight t |}.

(** A reflected [unsigned long] limited to positive numbers with
    fallback: a number outside 1 .. 2^31-1 is replaced by the
    property's default. *)
Definition positive_with_fallback (dflt : Z) (x : JS.number) : Z :=
  let u := JS.ToUint32 x in
  if (1 <=? u)%Z && (u <=? 2147483647)%Z then u else dflt.

(** [textarea.rows = x]; the property's default is 2. *)
Definition t_with_rows (x : JS.number) (t : TextArea) : TextArea :=
  {| t_value := t_value t; t_placeholder := t_placeholder t;
     t_disabled := t_disabled t;
     t_rows := positive_with_fallback 2 x; t_cols := t_cols t;
     t_maxLength := t_maxLength t; t_minLength := t_minLength t;
     t_required := t_required t; t_name := t_name t;
     t_classes := t_classes t; t_attrs := t_attrs t;
     t_height := t_height t; t_scrollHeight := t_scrollHeight t |}.

(** [textarea.cols = x]; the property's default is 20. *)
Definition t_with_cols (x : JS.number) (t : TextArea) : TextArea :=
  {| t_value := t_value t; t_placeholder := t_placeholder t;
     t_disabled := t_disabled t;
     t_rows := t_rows t; t_cols := positive_with_fallback 20 x;
     t_maxLength := t_maxLength t; t_minLength := t_minLength t;
     t_required := t_required t; t_name := t_name t;
     t_classes := t_classes t; t_attrs := t_attrs t;
     t_height := t_height t; t_scrollHeight := t_scrollHeight t |}.

Definition t_with_maxLength (n : Z) (t : TextArea) : TextArea :=
  {| t_value := t_value t; t_placeholder := t_placeholder t;
     t_disabled := t_disabled t; t_rows := t_rows t; t_cols := t_cols t;
     t_maxLength := n; t_minLength := t_minLength t;
     t_required := t_required t; t_name := t_name t;
     t_classes := t_classes t; t_attrs := t_attrs t;
     t_height := t_height t; t_scrollHeight := t_scrollHeight t |}.

Definition t_with_minLength (n : Z) (t : TextArea) : TextArea :=
  {| t_value := t_value t; t_placeholder := t_placeholder t;
     t_disabled := t_disabled t; t_rows := t_rows t; t_cols := t_cols t;
     t_maxLength := t_maxLength t; t_minLength := n;
     t_required := t_required t; t_name := t_name t;
     t_classes := t_classes t; t_attrs := t_attrs t;
     t_height := t_height t; t_scrollHeight := t_scrollHeight t |}.

Definition t_with_required (b : bool) (t : TextArea) : TextArea :=
  {| t_value := t_value t; t_placeholder := t_placeholder t;
     t_disabled := t_disabled t; t_rows := t_rows t; t_cols := t_cols t;
     t_maxLength := t_maxLength t; t_minLength := t_minLength t;
     t_required := b; t_name := t_name t;
     t_classes := t_classes t; t_attrs := t_attrs t;
     t_height := t_height t; t_scrollHeight := t_scrollHeight t |}.

Definition t_with_name (v : string) (t : TextArea) : TextArea :=
  {| t_value := t_value t; t_placeholder := t_placeholder t;
     t_disabled := t_disabled t; t_rows := t_rows t; t_cols := t_cols t;
     t_maxLength := t_maxLength t; t_minLength := t_minLength t;
     t_required := t_required t; t_name := v;
     t_classes := t_classes t; t_attrs := t_attrs t;
     t_height := t_height t; t_scrollHeight := t_scrollHeight t |}.

Definition t_with_classes (cl : gset string) (t : TextArea) : TextArea :=
  {| t_value := t_value t; t_placeholder := t_placeholder t;
     t_disabled := t_disabled t; t_rows := t_rows t; t_cols := t_cols t;
     t_maxLength := t_maxLength t; t_minLength := t_minLength t;
     t_required := t_required t; t_name := t_name t;
     t_classes := cl; t_attrs := t_attrs t;
     t_height := t_height t; t_scrollHeight := t_scrollHeight t |}.

Definition t_with_attrs (a : gmap string string) (t : TextArea) : TextArea :=
  {| t_value := t_value t; t_placeholder := t_placeholder t;
     t_disabled := t_disabled t; t_rows := t_rows t; t_cols := t_cols t;
     t_maxLength := t_maxLength t; t_minLength := t_minLength t;
     t_required := t_required t; t_name := t_name t;
     t_classes := t_classes t; t_attrs := a;
     t_height := t_height t; t_scrollHeight := t_scrollHeight t |}.

Definition t_with_height (h : option string) (t : TextArea) : TextArea :=
  {| t_value := t_value t; t_placeholder := t_placeholder t;
     t_disabled := t_disabled t; t_rows := t_rows t; t_cols := t_cols t;
     t_maxLength := t_maxLength t; t_minLength := t_minLength t;
     t_required := t_required t; t_name := t_name t;
     t_classes := t_classes t; t_attrs := t_attrs t;
     t_height := h; t_scrollHeight := t_scrollHeight t |}.

(** ** Computations that may throw *)

Inductive Result (A : Type) :=
| Ok (a : A) (s : State)
| Throw (e : exn) (s : State).
Arguments Ok {A} a s.
Arguments Throw {A} e s.

(** A method body: it runs on the element's state and either returns or
    throws, with the state as it is at that point. *)
Definition M (A : Type) : Type := State → Result A.

Definition ret {A} (a : A) : M A := λ s, Ok a s.

Definition bind {A B} (m : M A) (k : A → M B) : M B :=
  λ s, match m s with
       | Ok a s' => k a s'
       | Throw e s' => Throw e s'
       end.

Definition throw {A} (e : exn) : M A := λ s, Throw e s.

Definition modify (f : State → State) : M unit := λ s, Ok tt (f s).

Definition when (b : bool) (m : M unit) : M unit := if b then m else ret tt.

(** The state a run ends in, returned or thrown. *)
Definition final {A} (r : Result A) : State :=
  match r with
  | Ok _ s => s
  | Throw _ s => s
  end.

Definition returns {A} (r : Result A) : bool :=
  match r with
  | Ok _ _ => true
  | Throw _ _ => false
  end.

#[export] Instance M_ret : MRet M := @ret.
#[export] Instance M_bind : MBind M := λ A B k m, bind m k.

(** A step that reads the current state. *)
Definition reading {A} (f : State → M A) : M A := λ s, f s s.

(** ** Methods *)

Definition value_length (s : State) : Z := Z.of_nat (String.length (_value s)).

(** [new CustomEvent(type, { detail: this.getEventDetail(), ... })] *)
Definition custom_event (type : string) (s : State) : CustomEvent :=
  {| ev_type := type; bubbles := true; composed := true;
     detail_value := _value s;
     detail_characterCount := Z.to_N (value_length s) |}.

(** [(currentLength / maxLength) * 100 >= p] for [p] = 90 and 100.  The
    source computes the left side in double precision; for a length and
    a positive [maxLength] below 2^31 the quotient is at least
    1/(10 maxLength) away from 9/10 and from 1 unless it equals them,
    which is far more than the rounding of the two operations, so the
    comparison has the value of the exact one, written here without a
    division. *)
Definition percentage_at_least (p currentLength maxLength : Z) : bool :=
  (p * maxLength <=? currentLength * 100)%Z.

Definition updateCharCounter (s : State) : State :=
  let currentLength := value_length s in
  let maxLength := t_maxLength (textarea s) in
  let c := charCounter s in
  if (0 <? maxLength)%Z then
    let text := JS.show (Z.to_N currentLength) +:+ " / "
                +:+ JS.show (Z.to_N maxLength) in
    let cl := c_classes c ∖ {[ "warning" ]} ∖ {[ "error" ]} in
    let cl :=
      if percentage_at_least 100 currentLength maxLength
      then {[ "error" ]} ∪ cl
      else if percentage_at_least 90 currentLength maxLength
           then {[ "warning" ]} ∪ cl
           else cl in
    with_counter
      {| c_text := text; c_classes := cl; c_display := c_display c |} s
  else
    with_counter
      {| c_text := JS.show (Z.to_N currentLength);
         c_classes := c_classes c; c_display := c_display c |} s.

(** The "Update UI" and "Update ARIA" half of [updateValidation]. *)
Definition show_validity (isValid : bool) (message : string) (s : State) : State :=
  let t := textarea s in
  let v := validationMessage s in
  let t := t_with_classes (toggle "invalid" (negb isValid) (t_classes t)) t in
  let visible := negb isValid && (0 <? String.length message)%nat in
  let flagged := negb isValid && negb (bool_decide (message = "")) in
  let t :=
    if flagged then
      t_with_attrs
        (<["aria-describedby" := "validation-message"]>
           (<["aria-invalid" := "true"]> (t_attrs t))) t
    else
      t_with_attrs (delete "aria-describedby" (delete "aria-invalid" (t_attrs t))) t in
  let v :=
    {| v_text := message;
       v_classes := toggle "visible" visible (v_classes v);
       v_id := if flagged then Some "validation-message" else v_id v |} in
  with_validation v (with_textarea t s).

Definition autoResize (s : State) : State :=
  let s := with_container ({[ "auto-resize" ]} ∪ container s) s in
  let s := with_textarea (t_with_height (Some "auto") (textarea s)) s in
  let newHeight := Z.max (t_scrollHeight (textarea s)) 60 in
  with_textarea
    (t_with_height (Some (JS.show (Z.to_N newHeight) +:+ "px")) (textarea s)) s.

Definition updateLabel (text : option string) (s : State) : State :=
  if JS.truthy text then
    let l := match label s with
             | Some l => l
             | None => {| l_text := ""; l_classes := {[ "texteria-label" ]} |}
             end in
    with_label
      (Some {| l_text := default "" text;
               l_classes := toggle "required" (t_required (textarea s))
                              (l_classes l) |}) s
  else
    match label s with
    | Some _ => with_label None s
    | None => s
    end.

Definition updateAriaAttributes (s : State) : State :=
  let label := getAttribute s "label" in
  let t := textarea s in
  let t :=
    if JS.truthy label
    then t_with_attrs (<["aria-label" := default "" label]> (t_attrs t)) t
    else t in
  let t :=
    if t_required t
    then t_with_attrs (<["aria-required" := "true"]> (t_attrs t)) t
    else t_with_attrs (delete "aria-required" (t_attrs t)) t in
  with_textarea t s.

(** [textarea.maxLength = x] and [textarea.minLength = x]: a reflected
    [long] limited to non-negative numbers.  The setters throw on a
    negative number and, as the browsers implement them, on a maximum
    below the minimum in force and on a minimum above the maximum in
    force. *)
Definition set_maxLength (x : JS.number) : M unit := λ s,
  let n := JS.ToInt32 x in
  let min := t_minLength (textarea s) in
  if (n <? 0)%Z || ((0 <=? min)%Z && (n <? min)%Z) then Throw IndexSizeError s
  else Ok tt (with_textarea (t_with_maxLength n (textarea s)) s).

Definition set_minLength (x : JS.number) : M unit := λ s,
  let n := JS.ToInt32 x in
  let max := t_maxLength (textarea s) in
  if (n <? 0)%Z || ((0 <=? max)%Z && (max <? n)%Z) then Throw IndexSizeError s
  else Ok tt (with_textarea (t_with_minLength n (textarea s)) s).

Section WithEngine.
Context `{RegExpEngine}.

(** The three checks of [updateValidation], in the order of its
    [if] / [else if] chain: the outcome [(isValid, message)]. *)
Definition check : M (bool * string) := λ s,
  let pattern := getAttribute s "pattern" in
  let validationMsg := getAttribute s "validation-message" in
  let t := textarea s in
  if t_required t && bool_decide (JS.trim (_value s) = "") then
    Ok (false, JS.or_else validationMsg "This field is required") s
  else if (0 <? t_minLength t)%Z && (0 <? value_length s)%Z
          && (value_length s <? t_minLength t)%Z then
    Ok (false,
        JS.or_else validationMsg
          ("Minimum " +:+ JS.show (Z.to_N (t_minLength t))
           +:+ " characters required")) s
  else if JS.truthy pattern && (0 <? value_length s)%Z then
    match RegExp_new (default "" pattern) with
    | None => Throw SyntaxError s
    | Some regex =>
        if negb (RegExp_test regex (_value s))
        then Ok (false,
                 JS.or_else validationMsg "Please match the required format") s
        else Ok (true, "") s
    end
  else Ok (true, "") s.

Definition updateValidation : M unit :=
  r ← check;
  modify (show_validity (fst r) (snd r)).

Definition connectedCallback : M unit :=
  modify updateCharCounter ;;
  updateValidation ;;
  reading (λ s, when (hasAttribute s "auto-resize") (modify autoResize)) ;;
  modify updateAriaAttributes.

(** The [switch] of [attributeChangedCallback]. *)
Definition attribute_case (name : string) (newValue : option string) : M unit :=
  if decide (name = "value") then
    reading (λ s,
      if negb (isUserTyping s) then
        modify (λ s, with_value (JS.or_else newValue "") s) ;;
        modify (λ s, with_textarea (t_with_value (_value s) (textarea s)) s) ;;
        modify updateCharCounter ;;
        updateValidation ;;
        reading (λ s, when (hasAttribute s "auto-resize") (modify autoResize))
      else ret tt)
  else if decide (name = "placeholder") then
    modify (λ s, with_textarea
                   (t_with_placeholder (JS.or_else newValue "") (textarea s)) s)
  else if decide (name = "disabled") then
    modify (λ s,
      let on := bool_decide (newValue ≠ None) in
      with_container (toggle "disabled" on (container s))
        (with_textarea (t_with_disabled on (textarea s)) s))
  else if decide (name = "rows") then
    modify (λ s, with_textarea
                   (t_with_rows (JS.parseInt (JS.or_else newValue "3"))
                      (textarea s)) s)
  else if decide (name = "cols") then
    modify (λ s, with_textarea
                   (t_with_cols (JS.parseInt (JS.or_else newValue "50"))
                      (textarea s)) s)
  else if decide (name = "maxlength") then
    (if JS.truthy newValue
     then set_maxLength (JS.parseInt (default "" newValue))
     else modify (λ s, with_textarea (t_with_maxLength (-1) (textarea s)) s)) ;;
    modify updateCharCounter
  else if decide (name = "minlength") then
    (if JS.truthy newValue
     then set_minLength (JS.parseInt (default "" newValue))
     else modify (λ s, with_textarea (t_with_minLength (-1) (textarea s)) s))
  else if decide (name = "required") then
    modify (λ s, with_textarea
                   (t_with_required (bool_decide (newValue ≠ None))
                      (textarea s)) s) ;;
    updateValidation
  else if decide (name = "auto-resize") then
    when (bool_decide (newValue ≠ None)) (modify autoResize)
  else if decide (name = "pattern") then
    updateValidation
  else if decide (name = "label") then
    modify (updateLabel newValue)
  else if decide (name = "name") then
    when (JS.truthy newValue)
      (modify (λ s, with_textarea
                      (t_with_name (default "" newValue) (textarea s)) s))
  else if decide (name = "show-counter") then
    modify (λ s,
      let c := charCounter s in
      with_counter
        {| c_text := c_text c; c_classes := c_classes c;
           c_display :=
             Some (if bool_decide (newValue ≠ None) then "block" else "none") |} s)
  else ret tt.

Definition attributeChangedCallback
    (name : string) (oldValue newValue : option string) : M unit :=
  if decide (oldValue = newValue) then ret tt
  else attribute_case name newValue ;; modify updateAriaAttributes.

(** Host: a callback the platform invokes runs to its end or to its
    first exception; the platform reports the exception and the
    caller goes on. *)
Definition reporting (m : M unit) : M unit := λ s,
  match m s with
  | Ok _ s' => Ok tt s'
  | Throw e s' => Ok tt (report e s')
  end.

(** Host: [el.setAttribute(name, value)] and
    [el.removeAttribute(name)]; an observed attribute calls back
    before the call returns, also when the value does not change. *)
Definition setAttribute (name value : string) : M unit := λ s,
  let old := getAttribute s name in
  let s := with_attrs (<[name := value]> (attrs s)) s in
  if bool_decide (name ∈ observedAttributes)
  then reporting (attributeChangedCallback name old (Some value)) s
  else Ok tt s.

Definition removeAttribute (name : string) : M unit := λ s,
  match getAttribute s name with
  | None => Ok tt s
  | Some old =>
      let s := with_attrs (delete name (attrs s)) s in
      if bool_decide (name ∈ observedAttributes)
      then reporting (attributeChangedCallback name (Some old) None) s
      else Ok tt s
  end.

(** The listener [bindEvents] registers for the textarea's input
    event. *)
Definition on_input : M unit :=
  modify (with_typing true) ;;
  modify (λ s, with_value (t_value (textarea s)) s) ;;
  reading (λ s, setAttribute "value" (_value s)) ;;
  modify updateCharCounter ;;
  updateValidation ;;
  reading (λ s, when (hasAttribute s "auto-resize") (modify autoResize)) ;;
  modify (λ s, dispatchEvent (custom_event "texteria-input" s) s) ;;
  modify (with_typing false).

Definition on_change : M unit :=
  modify (λ s, dispatchEvent (custom_event "texteria-change" s) s).

Definition on_focus : M unit :=
  modify (λ s, with_container ({[ "focused" ]} ∪ container s) s) ;;
  modify (λ s, dispatchEvent (custom_event "texteria-focus" s) s).

Definition on_blur : M unit :=
  modify (λ s, with_container (container s ∖ {[ "focused" ]}) s) ;;
  updateValidation ;;
  modify (λ s, dispatchEvent (custom_event "texteria-blur" s) s).

(** ** Public API *)

Definition getValue (s : State) : string := _value s.

Definition setValue (value : string) : M unit :=
  modify (with_value value) ;;
  modify (λ s, with_textarea (t_with_value value (textarea s)) s) ;;
  setAttribute "value" value ;;
  modify updateCharCounter ;;
  updateValidation ;;
  reading (λ s, when (hasAttribute s "auto-resize") (modify autoResize)).

Definition clear : M unit := setValue "".

(** [focus()] and [blur()] call the textarea's method of that name.
    Whether the focus moves is the host's: [textarea.focus()] moves it
    to a textarea that can take it and does not have it (never to a
    disabled one), [textarea.blur()] takes it from a textarea that has
    it.  When it moves, the host fires the focus (blur) event before the
    call returns, which runs the listener of [bindEvents] as for a
    user's change of focus; a textarea that loses the focus holding
    text the user edited and that it has not yet committed is first sent
    a change event.  [moves] says whether the host finds the focus to
    move, [commits] whether it finds such text. *)
Definition focus (moves : bool) : M unit :=
  modify (record_call NativeFocus) ;;
  reading (λ s, when (moves && negb (t_disabled (textarea s)))
                  (reporting on_focus)).

Definition blur (moves commits : bool) : M unit :=
  modify (record_call NativeBlur) ;;
  when moves (when commits (reporting on_change) ;; reporting on_blur).

Definition isValid (s : State) : bool :=
  negb (bool_decide ("invalid" ∈ t_classes (textarea s))).

Definition getCharacterCount (s : State) : Z := value_length s.

Definition getRemainingCharacters (s : State) : Z :=
  if (0 <? t_maxLength (textarea s))%Z
  then t_maxLength (textarea s) - value_length s
  else -1.

(** ** The user at the keyboard (host) *)

(** One character typed into the textarea.  A disabled control takes
    no keystroke, and the host lets the user add nothing to a text
    that has reached [maxLength]; otherwise the text grows by the
    character and an input event is fired, which runs the listener. *)
Definition user_type (c : ascii) : M unit := λ s,
  let t := textarea s in
  if t_disabled t then Ok tt s
  else if (0 <=? t_maxLength t)%Z
          && (t_maxLength t <=? Z.of_nat (String.length (t_value t)))%Z
  then Ok tt s
  else
    reporting on_input
      (with_textarea (t_with_value (t_value t +:+ String c "") t) s).

Fixpoint user_types (text : string) : M unit :=
  match text with
  | EmptyString => ret tt
  | String c r => user_type c ;; user_types r
  end.

End WithEngine.

End Texteria.

(* ===================================================================== *)
(** * A regular-expression engine for the examples                        *)
(* ===================================================================== *)

(** The properties of the text area are stated for any engine.  The
    examples need one that runs: this one reads a fragment of the
    pattern syntax (literals, [.], classes with ranges and [\d \w \s],
    groups, [|], the quantifiers [* + ?], [^] and [$]) and, like
    [new RegExp], rejects a pattern with an unterminated group or class,
    an unmatched [)], a quantifier with nothing to repeat or a trailing
    backslash.  It also rejects what lies outside the fragment (braces,
    back-references, look-around), which no example uses. *)

Module MiniRegExp.

Inductive re :=
| Eps
| Nul
| Atom (f : ascii → bool)
| Bol
| Eol
| Cat (a b : re)
| Alt (a b : re)
| Star (a : re).

(** Whether [r] matches the empty string at a position that is the
    start ([bol]) or the end ([eol]) of the input. *)
Fixpoint nullable (bol eol : bool) (r : re) : bool :=
  match r with
  | Eps => true
  | Nul => false
  | Atom _ => false
  | Bol => bol
  | Eol => eol
  | Cat a b => nullable bol eol a && nullable bol eol b
  | Alt a b => nullable bol eol a || nullable bol eol b
  | Star _ => true
  end.

(** What remains to be matched after [r] has read the character [c]. *)
Fixpoint deriv (bol : bool) (c : ascii) (r : re) : re :=
  match r with
  | Eps | Nul | Bol | Eol => Nul
  | Atom f => if f c then Eps else Nul
  | Cat a b =>
      Alt (Cat (deriv bol c a) b)
          (if nullable bol false a then deriv bol c b else Nul)
  | Alt a b => Alt (deriv bol c a) (deriv bol c b)
  | Star a => Cat (deriv bol c a) (Star a)
  end.

(** [r] matches some prefix of [s]. *)
Fixpoint matches_prefix (bol : bool) (r : re) (s : string) : bool :=
  match s with
  | EmptyString => nullable bol true r
  | String c s' =>
      nullable bol false r || matches_prefix false (deriv bol c r) s'
  end.

(** [r] matches somewhere in [s]. *)
Fixpoint search (bol : bool) (r : re) (s : string) : bool :=
  matches_prefix bol r s
  || match s with
     | EmptyString => false
     | String _ s' => search false r s'
     end.

Definition is_word (c : ascii) : bool :=
  let n := N_of_ascii c in
  (JS.is_digit c || ((65 <=? n) && (n <=? 90)) || ((97 <=? n) && (n <=? 122))
   || (n =? 95))%N.

Definition is_line_terminator (c : ascii) : bool :=
  let n := N_of_ascii c in ((n =? 10) || (n =? 13))%N.

Definition in_range (lo hi c : ascii) : bool :=
  ((N_of_ascii lo <=? N_of_ascii c) && (N_of_ascii c <=? N_of_ascii hi))%N.

(** The set a backslash escape stands for, inside or outside a class. *)
Definition escape (c : ascii) : option (ascii → bool) :=
  if Ascii.eqb c "d" then Some JS.is_digit
  else if Ascii.eqb c "D" then Some (λ x, negb (JS.is_digit x))
  else if Ascii.eqb c "w" then Some is_word
  else if Ascii.eqb c "W" then Some (λ x, negb (is_word x))
  else if Ascii.eqb c "s" then Some JS.is_white_space
  else if Ascii.eqb c "S" then Some (λ x, negb (JS.is_white_space x))
  else if Ascii.eqb c "n" then Some (Ascii.eqb "010")
  else if Ascii.eqb c "r" then Some (Ascii.eqb "013")
  else if Ascii.eqb c "t" then Some (Ascii.eqb "009")
  else if is_word c then None
  else Some (Ascii.eqb c).

(** The items of a class up to its closing bracket. *)
Fixpoint parse_class (acc : ascii → bool) (s : string) : option ((ascii → bool) * string) :=
  match s with
  | EmptyString => None
  | String "]" r => Some (acc, r)
  | String "\" (String c r) =>
      match escape c with
      | Some f => parse_class (λ x, acc x || f x) r
      | None => None
      end
  | String "\" EmptyString => None
  | String lo (String "-" (String hi r)) =>
      if Ascii.eqb hi "]" then
        Some ((λ x, acc x || Ascii.eqb lo x || Ascii.eqb "-" x), r)
      else if Ascii.eqb hi "\" then None
      else if (N_of_ascii hi <? N_of_ascii lo)%N then None
      else parse_class (λ x, acc x || in_range lo hi x) r
  | String c r => parse_class (λ x, acc x || Ascii.eqb c x) r
  end.

Definition alt_with (alts : option re) (r : re) : re :=
  match alts with
  | Some a => Alt a r
  | None => r
  end.

Definition cat_with (cat : re) (last : option re) : re :=
  match last with
  | Some a => Cat cat a
  | None => cat
  end.

(** A quantifier may be followed by [?], which makes it lazy and
    changes nothing for [test]. *)
Definition skip_lazy (s : string) : string :=
  match s with
  | String "?" r => r
  | _ => s
  end.

(** Parses a disjunction up to the end of the pattern or to a closing
    parenthesis, which it leaves in place.  [alts] holds the
    alternatives read so far, [cat] the terms of the current one, and
    [last] the atom a quantifier would apply to. *)
Fixpoint parse (fuel : nat) (alts : option re) (cat : re) (last : option re)
    (s : string) : option (re * string) :=
  match fuel with
  | O => None
  | S fuel =>
      match s with
      | EmptyString => Some (alt_with alts (cat_with cat last), s)
      | String ")" _ => Some (alt_with alts (cat_with cat last), s)
      | String "|" r =>
          parse fuel (Some (alt_with alts (cat_with cat last))) Eps None r
      | String "*" r =>
          match last with
          | Some a => parse fuel alts (Cat cat (Star a)) None (skip_lazy r)
          | None => None
          end
      | String "+" r =>
          match last with
          | Some a => parse fuel alts (Cat cat (Cat a (Star a))) None (skip_lazy r)
          | None => None
          end
      | String "?" r =>
          match last with
          | Some a => parse fuel alts (Cat cat (Alt a Eps)) None (skip_lazy r)
          | None => None
          end
      | String "(" r =>
          let r := match r with
                   | String "?" (String ":" r') => r'
                   | _ => r
                   end in
          match r with
          | String "?" _ => None
          | _ =>
              match parse fuel None Eps None r with
              | Some (g, String ")" r') =>
                  parse fuel alts (cat_with cat last) (Some g) r'
              | _ => None
              end
          end
      | String "^" r => parse fuel alts (Cat (cat_with cat last) Bol) None r
      | String "$" r => parse fuel alts (Cat (cat_with cat last) Eol) None r
      | String "." r =>
          parse fuel alts (cat_with cat last)
            (Some (Atom (λ x, negb (is_line_terminator x)))) r
      | String "\" (String c r) =>
          match escape c with
          | Some f => parse fuel alts (cat_with cat last) (Some (Atom f)) r
          | None => None
          end
      | String "\" EmptyString => None
      | String "[" (String "^" r) =>
          match parse_class (λ _, false) r with
          | Some (f, r') =>
              parse fuel alts (cat_with cat last) (Some (Atom (λ x, negb (f x)))) r'
          | None => None
          end
      | String "[" r =>
          match parse_class (λ _, false) r with
          | Some (f, r') => parse fuel alts (cat_with cat last) (Some (Atom f)) r'
          | None => None
          end
      | String "{" _ => None
      | String c r =>
          parse fuel alts (cat_with cat last) (Some (Atom (Ascii.eqb c))) r
      end
  end.

Definition compile (p : string) : option re :=
  match parse (2 * String.length p + 2) None Eps None p with
  | Some (r, EmptyString) => Some r
  | _ => None
  end.

Definition test (r : re) (s : string) : bool := search true r s.

#[export] Instance engine : Texteria.RegExpEngine :=
  {| Texteria.regexp := re;
     Texteria.RegExp_new := compile;
     Texteria.RegExp_test := test |}.

End MiniRegExp.

(** The input widget's examples run on a host whose constraint validation
    knows one rule, a required control must not be empty. *)
Module MiniHost.

#[export] Instance host : Input.Host :=
  {| Input.validity_valid :=
       λ i, negb (Input.i_required i && bool_decide (Input.i_value i = "")) |}.

Definition is_line_break (c : ascii) : bool :=
  Ascii.eqb c "010" || Ascii.eqb c "013".

Fixpoint strip_line_breaks (s : string) : string :=
  match s with
  | EmptyString => EmptyString
  | String c r =>
      if is_line_break c then strip_line_breaks r
      else String c (strip_line_breaks r)
  end.

(** Its native control implements the types [text], [password],
    [search] and [number]: a number control holds digits only, the
    others hold any text without line breaks, and a key adds its
    character at the end of the text. *)
Definition keyword (t : string) : string :=
  if bool_decide (t ∈ [ "password"; "search"; "number" ]) then t else "text".

Definition sanitize (t v : string) : string :=
  if decide (t = "number") then (if JS.digits_only v then v else "")
  else strip_line_breaks v.

#[export] Instance control : Input.Control :=
  {| Input.type_keyword := keyword;
     Input.retype := λ _ t v, sanitize t v;
     Input.assign := sanitize;
     Input.keystroke := λ i c,
       if is_line_break c then None
       else if bool_decide (Input.i_type i = "number") && negb (JS.is_digit c)
            then None
            else Some (Input.i_value i +:+ String c "") |}.

End MiniHost.

(** The container's examples run on a host whose style object knows the
    keywords of the three flex properties and takes, for a custom
    property, a text made of letters, digits, [.], [-], [%], [,],
    blanks and well nested parentheses with no blank at either end; it
    stores what it takes as it is written.  Its [Object.prototype] is
    known by its member [constructor]. *)
Module MiniStyle.

Definition is_plain (c : ascii) : bool :=
  let n := N_of_ascii c in
  (((48 <=? n) && (n <=? 57)) || ((65 <=? n) && (n <=? 90))
   || ((97 <=? n) && (n <=? 122))
   || (n =? 46) || (n =? 45) || (n =? 37) || (n =? 44) || (n =? 32))%N.

Fixpoint well_nested (depth : nat) (s : string) : bool :=
  match s with
  | EmptyString => Nat.eqb depth 0
  | String c r =>
      if Ascii.eqb c "(" then well_nested (S depth) r
      else if Ascii.eqb c ")" then
        match depth with
        | O => false
        | S d => well_nested d r
        end
      else is_plain c && well_nested depth r
  end.

Definition is_custom (prop : string) : bool :=
  match prop with
  | String "-" (String "-" _) => true
  | _ => false
  end.

Definition keywords (prop : string) : list string :=
  if decide (prop = "flex-direction") then
    [ "row"; "row-reverse"; "column"; "column-reverse" ]
  else if decide (prop = "align-items") then
    [ "flex-start"; "flex-end"; "center"; "stretch"; "baseline" ]
  else if decide (prop = "justify-content") then
    [ "flex-start"; "flex-end"; "center"; "space-between"; "space-around";
      "space-evenly" ]
  else [].

Definition parse (prop value : string) : option string :=
  if is_custom prop then
    if well_nested 0 value && bool_decide (JS.trim value = value)
    then Some value else None
  else if bool_decide (value ∈ keywords prop) then Some value else None.

#[export] Instance host : Container.Host :=
  {| Container.css_parse := parse;
     Container.object_member := λ k,
       if decide (k = "constructor")
       then Some "function Object() { [native code] }" else None |}.

End MiniStyle.


(* ===================================================================== *)
(** * Example elements                                                    *)
(* ===================================================================== *)

Module Examples.
Import MiniRegExp MiniHost MiniStyle.

(** A text area with [maxlength="10"]. *)
Definition ten : Texteria.State :=
  Eval vm_compute in
    Texteria.final
      (Texteria.setAttribute "maxlength" "10" (Texteria.constructed 0)).

(** A required text area. *)
Definition required_area : Texteria.State :=
  Eval vm_compute in
    Texteria.final
      (Texteria.setAttribute "required" "" (Texteria.constructed 0)).

(** A text area that asks for lower-case letters, at least three. *)
Definition letters_area : Texteria.State :=
  Eval vm_compute in
    Texteria.final
      (Texteria.bind (Texteria.setAttribute "minlength" "3")
         (λ _, Texteria.setAttribute "pattern" "^[a-z]+$")
         (Texteria.constructed 0)).

(** A text area whose pattern has an unterminated group. *)
Definition broken_area : Texteria.State :=
  Eval vm_compute in
    Texteria.final
      (Texteria.setAttribute "pattern" "(" (Texteria.constructed 0)).

(** The text area [ten] after [setValue] with nine, ten and five
    characters. *)
Definition ten_9 : Texteria.State :=
  Eval vm_compute in Texteria.final (Texteria.setValue "123456789" ten).
Definition ten_10 : Texteria.State :=
  Eval vm_compute in Texteria.final (Texteria.setValue "1234567890" ten).
Definition ten_5 : Texteria.State :=
  Eval vm_compute in Texteria.final (Texteria.setValue "12345" ten).

(** [required_area] after [setValue] with two blanks. *)
Definition required_blank : Texteria.State :=
  Eval vm_compute in Texteria.final (Texteria.setValue "  " required_area).

(** [letters_area] after [setValue] with three texts. *)
Definition letters_A1 : Texteria.State :=
  Eval vm_compute in Texteria.final (Texteria.setValue "A1" letters_area).
Definition letters_AB1 : Texteria.State :=
  Eval vm_compute in Texteria.final (Texteria.setValue "AB1" letters_area).
Definition letters_abc : Texteria.State :=
  Eval vm_compute in Texteria.final (Texteria.setValue "abc" letters_area).

(** [broken_area] holding the text "a", and after the user has typed
    "a" into it. *)
Definition broken_a : Texteria.State := Texteria.with_value "a" broken_area.
Definition broken_typed : Texteria.State :=
  Eval vm_compute in Texteria.final (Texteria.user_types "a" broken_area).

(** [letters_area] after its [rows] attribute is set to a word. *)
Definition letters_rows : Texteria.State :=
  Eval vm_compute in
    Texteria.final
      (Texteria.attributeChangedCallback "rows" None (Some "many") letters_area).

(** An input element, connected; with "hi" typed into it; and then
    disabled. *)
Definition input_connected : Input.State :=
  Eval vm_compute in Input.connectedCallback (Input.constructed true).

(** A text area holding "hi", then disabled. *)
Definition area_disabled : Texteria.State :=
  Eval vm_compute in
    Texteria.final
      (Texteria.bind (Texteria.setValue "hi")
         (λ _, Texteria.setAttribute "disabled" "") (Texteria.constructed 0)).

(** [letters_area] after the user has typed "abc". *)
Definition letters_typed : Texteria.State :=
  Eval vm_compute in Texteria.final (Texteria.user_types "abc" letters_area).

(** A button that was connected, rendered, taken out of the document
    and put back: its click handler is registered on the button the
    first rendering made.  The same button with [disabled] set. *)
Definition button_listening : Button.State :=
  Eval vm_compute in
    Button.connectedCallback
      (Button.disconnectedCallback
         (Button.render_resume (Button.connectedCallback Button.constructed))).
Definition button_disabled : Button.State :=
  Eval vm_compute in Button.setAttribute "disabled" "" button_listening.

End Examples.

(* ===================================================================== *)
(** * The specification's readings, and definitions the proofs use        *)
(* ===================================================================== *)

Module Stated.

(** The specification's "a positive-integer [columns] value": a digit
    string whose number is above zero. *)
Definition positive_integer (c : string) : option N :=
  if JS.digits_only c then
    match JS.parse_digits None c with
    | Some z => if (0 <? z)%Z then Some (Z.to_N z) else None
    | None => None
    end
  else None.

(** The grid template as the specification words it: fixed for a
    positive integer, auto-fit otherwise. *)
Definition gridTemplate (columns minColumnWidth : option string) : string :=
  match columns ≫= positive_integer with
  | Some n => "repeat(" +:+ JS.show n +:+ ", 1fr)"
  | None =>
      "repeat(auto-fit, minmax("
      +:+ Container.normalizeUnit (Some (JS.or_else minColumnWidth "250px"))
      +:+ ", 1fr))"
  end.

(** The validity of the text area as the specification words it:
    required with an empty value, then a non-empty value shorter than
    [minlength], then a non-empty value failing the pattern; the first
    failing rule gives the message. *)
Definition validity `{Texteria.RegExpEngine}
    (required : bool) (minlength : Z) (pattern validationMsg : option string)
    (value : string) : bool * string :=
  let len := Z.of_nat (String.length value) in
  if required && bool_decide (value = "") then
    (false, JS.or_else validationMsg "This field is required")
  else if negb (bool_decide (value = "")) && (len <? minlength)%Z then
    (false,
     JS.or_else validationMsg
       ("Minimum " +:+ JS.show (Z.to_N minlength) +:+ " characters required"))
  else if negb (bool_decide (value = ""))
          && match pattern with
             | Some p =>
                 match Texteria.RegExp_new p with
                 | Some regex => negb (Texteria.RegExp_test regex value)
                 | None => false
                 end
             | None => false
             end then
    (false, JS.or_else validationMsg "Please match the required format")
  else (true, "").

End Stated.

Module Aux.

(** One write to a style declaration block: set the property, or remove
    it. *)
Definition write (k : string) (o : option string)
    (st : gmap string string) : gmap string string :=
  match o with
  | Some v => <[k := v]> st
  | None => delete k st
  end.

Definition apply_writes (ws : list (string * option string))
    (st : gmap string string) : gmap string string :=
  foldl (λ st w, write (fst w) (snd w) st) st ws.

(** What a list of writes leaves at [k], given what was there. *)
Definition written (k : string) (ws : list (string * option string))
    (d : option string) : option string :=
  foldl (λ d w, if decide (fst w = k) then snd w else d) d ws.

(** The writes a declaration comes to: a removal for the empty text,
    none for a text the parser refuses, the parsed value otherwise. *)
Definition declare_writes `{Container.Host} (prop value : string)
    : list (string * option string) :=
  if decide (value = "") then [ (prop, None) ]
  else match Container.css_parse prop value with
       | Some v => [ (prop, Some v) ]
       | None => []
       end.

(** [setVar]'s writes: a removal for ['auto'], the declaration
    otherwise. *)
Definition var_writes `{Container.Host} (name value : string)
    : list (string * option string) :=
  if decide (value = "auto") then [ (name, None) ]
  else declare_writes name value.

Definition padding_writes `{Container.Host} (name : string)
    (value : Container.Padding) : list (string * option string) :=
  match value with
  | Container.PaddingText v => var_writes name v
  | Container.PaddingMember text => declare_writes name text
  end.

(** The text [applyGrid] hands to the style object for an attribute
    set in grid layout. *)
Definition grid_text (a : gmap string string) : string :=
  if JS.truthy (a !! "columns") && JS.digits_only (default "" (a !! "columns"))
  then "repeat(" +:+ default "" (a !! "columns") +:+ ", 1fr)"
  else "repeat(auto-fit, minmax("
       +:+ Container.normalizeUnit
             (Some (JS.or_else (a !! "min-column-width") "250px"))
       +:+ ", 1fr))".

(** The writes [applyFlex], [applyGrid], [applySpacing] and
    [applySizing] make for an attribute set, in program order. *)
Definition style_writes `{Container.Host} (a : gmap string string)
    : list (string * option string) :=
  (if decide (a !! "layout" = Some "flex") then
     declare_writes "flex-direction" (JS.or_else (a !! "direction") "row")
     ++ declare_writes "align-items" (Container.mapAlign (a !! "align"))
     ++ declare_writes "justify-content" (Container.mapJustify (a !! "justify"))
   else [])
  ++ (if decide (a !! "layout" = Some "grid")
      then declare_writes "--grid-template-columns" (grid_text a)
      else [ ("--grid-template-columns", None) ])
  ++ var_writes "--gap" (Container.normalizeUnit (a !! "gap"))
  ++ padding_writes "--padding" (Container.resolvePadding (a !! "padding"))
  ++ var_writes "--margin" (Container.normalizeUnit (a !! "margin"))
  ++ var_writes "--width" (Container.normalizeUnit (a !! "width"))
  ++ var_writes "--height" (Container.normalizeUnit (a !! "height"))
  ++ var_writes "--max-width" (Container.normalizeUnit (a !! "max-width")).

(** What the style sheet and the page can see of a container: its
    attributes and the inline style of its [.container] div. *)
Definition rendered (s : Container.State)
    : gmap string string * option (gmap string string) :=
  (Container.attrs s, Container.container s).

(** The event [handleInput] dispatches for a typed character when the
    control's text is [v]. *)
Definition input_event (v : string) : Input.CustomEvent :=
  {| Input.ev_type := "input"; Input.bubbles := true; Input.composed := true;
     Input.detail_value := v; Input.detail_inputType := Some "insertText" |}.

(** The input events a text typed after [v0] gives rise to, one per
    character, each with the control's text at that point. *)
Fixpoint input_events (v0 text : string) : list Input.CustomEvent :=
  match text with
  | EmptyString => []
  | String c r =>
      input_event (v0 +:+ String c "") :: input_events (v0 +:+ String c "") r
  end.

(** A connected, enabled, writable input whose native control holds
    the text [v] and has the type the [type] attribute asks for. *)
Definition typable `{Input.Control} (s : Input.State) (v : string) : Prop :=
  ∃ i, Input.inputElement s = Some i ∧ Input.i_value i = v
       ∧ Input.i_listening i = true
       ∧ Input.i_disabled i = false ∧ Input.i_readOnly i = false
       ∧ Input.hasAttribute s "disabled" = false
       ∧ Input.hasAttribute s "readonly" = false
       ∧ Input.i_type i
         = Input.type_keyword (JS.or_else (Input.getAttribute s "type") "text").

(** The control takes the text as it is typed: each key adds its
    character at the end of the value. *)
Fixpoint taken_as_typed `{Input.Host} `{Input.Control}
    (text : string) (s : Input.State) : Prop :=
  match text with
  | EmptyString => True
  | String c r =>
      (∃ i, Input.inputElement s = Some i
            ∧ Input.keystroke i c = Some (Input.i_value i +:+ String c ""))
      ∧ taken_as_typed r (Input.user_type c s)
  end.

(** The text holds no carriage return, so the textarea reports it as
    it is. *)
Fixpoint no_CR (s : string) : bool :=
  match s with
  | EmptyString => true
  | String c r => negb (Ascii.eqb c "013") && no_CR r
  end.

(** The [texteria-input] events a text typed after [v0] gives rise to. *)
Fixpoint texteria_events (v0 text : string) : list Texteria.CustomEvent :=
  match text with
  | EmptyString => []
  | String c r =>
      let v := v0 +:+ String c "" in
      {| Texteria.ev_type := "texteria-input"; Texteria.bubbles := true;
         Texteria.composed := true; Texteria.detail_value := v;
         Texteria.detail_characterCount := N.of_nat (String.length v) |}
      :: texteria_events v r
  end.

(** The pattern attribute, when validation gets to use it, is one the
    engine accepts. *)
Definition pattern_ok `{Texteria.RegExpEngine} (s : Texteria.State) : Prop :=
  ∀ p, Texteria.getAttribute s "pattern" = Some p → p ≠ "" →
       is_Some (Texteria.RegExp_new p).

(** The counter shows what [updateCharCounter] computes from the
    current value and [maxLength]. *)
Definition counter_synced (s : Texteria.State) : Prop :=
  Texteria.charCounter (Texteria.updateCharCounter s) = Texteria.charCounter s.

(** The validity on display is the outcome of the checks on the
    current value and attributes. *)
Definition validity_synced `{Texteria.RegExpEngine} (s : Texteria.State) : Prop :=
  ∃ r, Texteria.check s = Texteria.Ok r s
       ∧ Texteria.isValid s = fst r
       ∧ Texteria.v_text (Texteria.validationMessage s) = snd r.

(** The (optional) auto-resize step of the methods. *)
Definition resized (s : Texteria.State) : Texteria.State :=
  if Texteria.hasAttribute s "auto-resize" then Texteria.autoResize s else s.

(** The part of the state the derived displays (counter, validity,
    height, ARIA attributes) are computed from and never write. *)
Definition core (s : Texteria.State) :=
  (Texteria.attrs s, Texteria._value s, Texteria.isUserTyping s, Texteria.t_value (Texteria.textarea s),
   Texteria.t_disabled (Texteria.textarea s), Texteria.t_maxLength (Texteria.textarea s),
   Texteria.t_minLength (Texteria.textarea s), Texteria.t_required (Texteria.textarea s),
   Texteria.events s, Texteria.reported s).

(** The validity on display. *)
Definition shown (s : Texteria.State) :=
  (Texteria.t_classes (Texteria.textarea s), Texteria.v_text (Texteria.validationMessage s)).

(** What the counter must show for the current value and [maxLength]:
    "current / max" with the [error] class from 100% on and the
    [warning] class from 90% up to 100%, or the bare count without a
    positive [maxLength]. *)
Definition counter_rules (s : Texteria.State) : Prop :=
  let cur := Texteria.value_length s in
  let max := Texteria.t_maxLength (Texteria.textarea s) in
  let c := Texteria.charCounter s in
  ((0 < max)%Z →
     Texteria.c_text c
     = JS.show (Z.to_N cur) +:+ " / " +:+ JS.show (Z.to_N max)
     ∧ ("error" ∈ Texteria.c_classes c ↔ (100 * max ≤ cur * 100)%Z)
     ∧ ("warning" ∈ Texteria.c_classes c
        ↔ (90 * max ≤ cur * 100 < 100 * max)%Z))
  ∧ ((max ≤ 0)%Z → Texteria.c_text c = JS.show (Z.to_N cur)).

(** What the validity display must show for the current value and
    attributes: the first failing rule among required (the value is
    empty once trimmed), minimum length (a non-empty value shorter than
    [minLength]) and pattern (a non-empty value the regular expression
    does not match), with the [validation-message] attribute, when it
    is set and not empty, in place of the rule's own message. *)
Definition validity_rules `{Texteria.RegExpEngine} (s : Texteria.State) : Prop :=
  let msg := Texteria.getAttribute s "validation-message" in
  let text := Texteria.v_text (Texteria.validationMessage s) in
  let required_fails :=
    Texteria.t_required (Texteria.textarea s) = true
    ∧ JS.trim (Texteria._value s) = "" in
  let length_fails :=
    (0 < Texteria.value_length s
     < Texteria.t_minLength (Texteria.textarea s))%Z in
  (required_fails →
     Texteria.isValid s = false
     ∧ text = JS.or_else msg "This field is required")
  ∧ (¬ required_fails → length_fails →
     Texteria.isValid s = false
     ∧ text = JS.or_else msg
                ("Minimum "
                 +:+ JS.show (Z.to_N (Texteria.t_minLength (Texteria.textarea s)))
                 +:+ " characters required"))
  ∧ (¬ required_fails → ¬ length_fails →
     ∀ p regex,
       Texteria.getAttribute s "pattern" = Some p → p ≠ "" →
       Texteria._value s ≠ "" →
       Texteria.RegExp_new p = Some regex →
       if Texteria.RegExp_test regex (Texteria._value s)
       then Texteria.isValid s = true ∧ text = ""
       else Texteria.isValid s = false
            ∧ text = JS.or_else msg "Please match the required format")
  ∧ (¬ required_fails → ¬ length_fails →
     Texteria.getAttribute s "pattern" = None
     ∨ Texteria.getAttribute s "pattern" = Some ""
     ∨ Texteria._value s = "" →
     Texteria.isValid s = true ∧ text = "").

(** The state a write of the text [v] leaves, by [setValue] or by the
    [value] attribute: the text is in [_value], in the textarea and in
    the attribute, the [disabled] flag is as before, nothing is
    dispatched, and counter and validity are those of the text. *)
Definition value_set `{Texteria.RegExpEngine}
    (v : string) (s s' : Texteria.State) : Prop :=
  Texteria._value s' = v
  ∧ Texteria.t_value (Texteria.textarea s') = Texteria.normalize_newlines v
  ∧ Texteria.getAttribute s' "value" = Some v
  ∧ Texteria.t_disabled (Texteria.textarea s')
    = Texteria.t_disabled (Texteria.textarea s)
  ∧ Texteria.events s' = Texteria.events s
  ∧ counter_rules s' ∧ validity_rules s'.

(** [(currentLength / maxLength) * 100] as the source computes it, in
    double precision. *)
Definition percentage_double (currentLength maxLength : Z) : float :=
  (PrimFloat.of_uint63 (Uint63.of_Z currentLength)
   / PrimFloat.of_uint63 (Uint63.of_Z maxLength) * 100)%float.

(** The two comparisons of [updateCharCounter] on that double have the
    value the embedding gives them. *)
Definition percentage_agrees (currentLength maxLength : Z) : bool :=
  Bool.eqb (PrimFloat.leb 100 (percentage_double currentLength maxLength))
           (Texteria.percentage_at_least 100 currentLength maxLength)
  && Bool.eqb (PrimFloat.leb 90 (percentage_double currentLength maxLength))
              (Texteria.percentage_at_least 90 currentLength maxLength).

(** The integer a (finite, integral) double stands for. *)
Definition double_to_Z (f : float) : Z :=
  match Prim2SF f with
  | S754_finite s m e => (if s then -1 else 1) * Z.shiftl (Zpos m) e
  | _ => 0
  end%Z.

(** [round_double] gives the double the host's conversion gives, for an
    integer below 2^63. *)
Definition round_double_agrees (z : Z) : bool :=
  match JS.round_double z with
  | JS.Int r => (r =? double_to_Z (PrimFloat.of_uint63 (Uint63.of_Z z)))%Z
  | _ => false
  end.

(** Integers around the doubles from 2^53 to 2^63: for each exponent,
    the double itself, the integers next to it, and those next to and
    at the midpoints towards the two doubles that follow. *)
Definition round_double_samples : list Z :=
  flat_map
    (λ e : nat,
       let ulp := (2 ^ Z.of_nat e)%Z in
       let base := (2 ^ (52 + Z.of_nat e) + 5 * ulp)%Z in
       flat_map (λ d : Z, [ base + d; base + ulp + d ]%Z)
         [ 0; 1; ulp / 2 - 1; ulp / 2; ulp / 2 + 1; ulp - 1 ]%Z)
    (seq 1 10)
  ++ [ 9007201402224639; 123456789012345678; 9223372036854775807 ]%Z.

(** ... for every [maxLength] from 1 to [n] and every length up to twice
    [maxLength] and one more. *)
Definition percentage_agrees_upto (n : nat) : bool :=
  forallb (λ m, forallb (λ c, percentage_agrees (Z.of_nat c) (Z.of_nat (S m)))
                  (seq 0 (2 * S m + 2)))
    (seq 0 n).

End Aux.

(* ===================================================================== *)
(** * Definitions for the further properties                              *)
(* ===================================================================== *)

Module Derived.
Import Texteria.

(** What the style object holds for a property after it is handed a
    text: nothing for the empty text, the parsed value for a text its
    parser takes, and what it held before for a text the parser
    refuses. *)
Definition stored `{Container.Host} (name value : string)
    (before : option string) : option string :=
  if decide (value = "") then None
  else match Container.css_parse name value with
       | Some v => Some v
       | None => before
       end.

(** What [setVar] leaves of a custom property: nothing for ['auto'],
    what the style object stores otherwise. *)
Definition declared `{Container.Host} (name value : string)
    (before : option string) : option string :=
  if decide (value = "auto") then None else stored name value before.

(** The attribute writes [updateButton] makes on the inner button for
    the host's attributes [a], in program order. *)
Definition button_writes (a : gmap string string) : list (string * option string) :=
  let off := bool_decide (is_Some (a !! "disabled"))
             || bool_decide (is_Some (a !! "loading")) in
  let busy := bool_decide (is_Some (a !! "loading")) in
  [ ("type", Some (JS.or_else (a !! "type") "button"));
    ("disabled", if off then Some "" else None);
    ("aria-disabled", Some (JS.show_bool off));
    ("aria-busy", Some (JS.show_bool busy));
    ("aria-label",
     Some (JS.or_else (a !! "variant") "primary" +:+ " button"
           +:+ (if busy then ", loading" else ""))) ].

(** The writes of [updateValidation] on the textarea's attributes. *)
Definition validity_attrs (flagged : bool) (a : gmap string string) :=
  if flagged
  then <["aria-describedby" := "validation-message"]> (<["aria-invalid" := "true"]> a)
  else delete "aria-describedby" (delete "aria-invalid" a).

(** The writes of [updateAriaAttributes] on the textarea's attributes. *)
Definition aria_attrs (label : option string) (required : bool)
    (a : gmap string string) :=
  let a := if JS.truthy label then <["aria-label" := default "" label]> a else a in
  if required then <["aria-required" := "true"]> a else delete "aria-required" a.

(** The state the [value] case of the callback reaches, outside a
    keystroke, before it validates. *)
Definition value_written (v : string) (s : State) : State :=
  updateCharCounter
    (with_textarea (t_with_value v (textarea s)) (with_value v s)).

Section WithEngine.
Context `{RegExpEngine}.



End WithEngine.

End Derived.

(** ** The text area in a page *)

Module TexteriaPage.
Import Texteria.

(** What the page and the user can do to a text area: insert it, write
    and remove attributes, type into the textarea, let its change, focus
    and blur events fire, and call the public methods ([focus()] and
    [blur()] with the focus moving or not). *)
Inductive Action :=
| Connect
| SetAttribute (name value : string)
| RemoveAttribute (name : string)
| Keystroke (c : ascii)
| ChangeEvent
| FocusEvent
| BlurEvent
| SetValue (value : string)
| Clear
| CallFocus (moves : bool)
| CallBlur (moves commits : bool).

Section WithEngine.
Context `{RegExpEngine}.

(** The host runs callbacks and listeners and reports what they throw;
    a method called by the page throws to the page. *)
Definition perform (a : Action) : M unit :=
  match a with
  | Connect => reporting connectedCallback
  | SetAttribute name value => setAttribute name value
  | RemoveAttribute name => removeAttribute name
  | Keystroke c => user_type c
  | ChangeEvent => reporting on_change
  | FocusEvent => reporting on_focus
  | BlurEvent => reporting on_blur
  | SetValue value => setValue value
  | Clear => clear
  | CallFocus moves => focus moves
  | CallBlur moves commits => blur moves commits
  end.

(** The state after a sequence of actions; an action that throws leaves
    the state it had reached. *)
Fixpoint run_actions (l : list Action) (s : State) : State :=
  match l with
  | [] => s
  | a :: l => run_actions l (final (perform a s))
  end.

End WithEngine.

(** An event as the listeners build it: one of the four types, bubbling
    and composed, with the length of its value as the character count. *)
Definition well_formed (e : CustomEvent) : Prop :=
  ev_type e ∈ [ "texteria-input"; "texteria-change"; "texteria-focus";
                "texteria-blur" ]
  ∧ bubbles e = true ∧ composed e = true
  ∧ detail_characterCount e = N.of_nat (String.length (detail_value e)).

(** What holds of the element between any two actions. *)
Definition consistent (s : State) : Prop :=
  t_value (textarea s) = normalize_newlines (_value s)
  ∧ t_required (textarea s) = hasAttribute s "required"
  ∧ t_disabled (textarea s) = hasAttribute s "disabled"
  ∧ t_placeholder (textarea s) = JS.or_else (getAttribute s "placeholder") ""
  ∧ Forall well_formed (events s).

(** The part of the state [consistent] speaks of. *)
Definition mirror (s : State) :=
  (attrs s, _value s, t_value (textarea s), t_required (textarea s),
   t_disabled (textarea s), t_placeholder (textarea s), events s).

End TexteriaPage.

(** ** The button in a page *)

Module ButtonPage.
Import Button.

(** Host: [el.removeAttribute(name)]; removing an attribute that is
    there calls back for an observed name. *)
Definition removeAttribute (name : string) (s : State) : State :=
  match getAttribute s name with
  | None => s
  | Some old =>
      let s := {| attrs := delete name (attrs s); button := button s;
                  pending_renders := pending_renders s;
                  events := events s; calls := calls s |} in
      if bool_decide (name ∈ observedAttributes)
      then attributeChangedCallback s name (Some old) None
      else s
  end.

(** Host: the user clicks the inner button; a disabled button receives
    no click. *)
Definition user_click (s : State) : State :=
  match button s with
  | Some b =>
      if bool_decide (is_Some (b_attrs b !! "disabled")) then s else fire_click s
  | None => s
  end.

(** What the page, the user and the host's scheduler can do to a
    button: insert and remove it, let a suspended render go on, write
    and remove attributes, click, and call the public methods. *)
Inductive Action :=
| Connect
| Disconnect
| Resume
| SetAttribute (name value : string)
| RemoveAttribute (name : string)
| UserClick
| Click
| CallFocus
| CallBlur.

Definition perform (a : Action) (s : State) : State :=
  match a with
  | Connect => connectedCallback s
  | Disconnect => disconnectedCallback s
  | Resume => render_resume s
  | SetAttribute name value => setAttribute name value s
  | RemoveAttribute name => removeAttribute name s
  | UserClick => user_click s
  | Click => click s
  | CallFocus => focus s
  | CallBlur => blur s
  end.

Definition run_actions (l : list Action) (s : State) : State :=
  foldl (λ s a, perform a s) s l.

(** The inner button, when there is one, shows the host's state. *)
Definition mirrored (s : State) : Prop :=
  ∀ b, button s = Some b →
    let off := hasAttribute s "disabled" || hasAttribute s "loading" in
    b_attrs b !! "type" = Some (JS.or_else (getAttribute s "type") "button")
    ∧ b_attrs b !! "disabled" = (if off then Some "" else None)
    ∧ b_attrs b !! "aria-disabled" = Some (JS.show_bool off)
    ∧ b_attrs b !! "aria-busy" = Some (JS.show_bool (hasAttribute s "loading"))
    ∧ b_attrs b !! "aria-label"
      = Some (JS.or_else (getAttribute s "variant") "primary" +:+ " button"
              +:+ (if hasAttribute s "loading" then ", loading" else "")).

(** A [button-click] as [handleClick] builds it. *)
Definition well_formed (e : CustomEvent) : Prop :=
  ev_type e = "button-click" ∧ bubbles e = true ∧ composed e = true.

Definition settled (s : State) : Prop :=
  mirrored s ∧ Forall well_formed (events s).

End ButtonPage.

(** ** The input and its form *)

Module InputForms.
Import Input.

(** The input element together with the custom validity message of its
    native input, which [setCustomValidity] writes and the host's
    validation reads. *)
Record State := mkState {
  element : Input.State;
  customValidity : string
}.

(** The host's validation of the native input, given its custom
    validity message: [validity.valid], and the results of
    [checkValidity()] and [reportValidity()]. *)
Class NativeValidation := {
  native_valid : NativeInput → string → bool;
  native_checkValidity : NativeInput → string → bool;
  native_reportValidity : NativeInput → string → bool
}.

Section WithValidation.
Context `{NativeValidation} `{Control}.

Definition host (custom : string) : Host :=
  {| validity_valid := λ i, native_valid i custom |}.

(** [connectedCallback]: the native input is a new one, with no custom
    validity message. *)
Definition connectedCallback (s : State) : State :=
  {| element := @Input.connectedCallback (host "") _ (element s);
     customValidity := "" |}.

Definition setAttribute (name value : string) (s : State) : State :=
  {| element := @Input.setAttribute (host (customValidity s)) _ name value (element s);
     customValidity := customValidity s |}.




End WithValidation.
End InputForms.

(** ** More example elements *)

Module MoreExamples.
Import MiniRegExp MiniHost MiniStyle Examples.

(** [letters_area] after [setValue] with two letters. *)
Definition letters_ab : Texteria.State :=
  Eval vm_compute in Texteria.final (Texteria.setValue "ab" letters_area).

(** A container whose [layout] is not one of the three, with a gap and
    a flex direction left in its inline style. *)
Definition fancy : Container.State :=
  {| Container.attrs := {[ "layout" := "fancy"; "gap" := "8" ]};
     Container.container := Some {[ "flex-direction" := "column" ]};
     Container.ops := [] |}.

(** A host validation that knows the required rule and the custom
    message. *)
#[export] Instance validation : InputForms.NativeValidation :=
  {| InputForms.native_valid := λ i custom,
       negb (Input.i_required i && bool_decide (Input.i_value i = ""))
       && bool_decide (custom = "");
     InputForms.native_checkValidity := λ i custom,
       negb (Input.i_required i && bool_decide (Input.i_value i = ""))
       && bool_decide (custom = "");
     InputForms.native_reportValidity := λ i custom,
       negb (Input.i_required i && bool_decide (Input.i_value i = ""))
       && bool_decide (custom = "") |}.


End MoreExamples.



(** Unfolds the plumbing of the text area's method bodies. *)
Ltac run :=
  cbv beta iota zeta
    delta [mbind Texteria.M_bind Texteria.bind Texteria.modify Texteria.ret
           mret Texteria.M_ret Texteria.when Texteria.reading Texteria.throw].

(** Decides the name tests of [attribute_case] for a given name. *)
Ltac name_cases :=
  repeat first [ rewrite decide_True by done | rewrite decide_False by done ].

(* ===================================================================== *)
(** * Layout container: properties                                        *)
(* ===================================================================== *)

Section ContainerFacts.
Import Container Aux.
Context `{Host}.

Lemma lookup_write k o (st : gmap string string) j :
  write k o st !! j = if decide (k = j) then o else st !! j.
Proof.
  destruct o as [v|]; simpl.
  - rewrite lookup_insert. by case_decide.
  - rewrite lookup_delete. by case_decide.
Qed.

Lemma lookup_apply_writes ws (st : gmap string string) k :
  apply_writes ws st !! k = written k ws (st !! k).
Proof.
  revert st. induction ws as [|[k' o] ws IH]; intros st; [done|].
  cbn [apply_writes written foldl fst snd] in *.
  unfold apply_writes, written in IH. rewrite IH, lookup_write.
  done.
Qed.

(** A list of writes either leaves a key alone or fixes what is there. *)
Lemma written_shape k ws :
  (∀ d, written k ws d = d) ∨ (∃ c, ∀ d, written k ws d = c).
Proof.
  induction ws as [|[k' o] ws IH]; [by left|].
  destruct IH as [IH|[c IH]].
  - destruct (decide (k' = k)) as [->|Hne].
    + right. exists o. intros d. cbn. rewrite decide_True by done. apply IH.
    + left. intros d. cbn. rewrite decide_False by done. apply IH.
  - right. exists c. intros d. cbn. apply IH.
Qed.

Lemma apply_writes_idem ws (st : gmap string string) :
  apply_writes ws (apply_writes ws st) = apply_writes ws st.
Proof.
  apply map_eq. intros k. rewrite !lookup_apply_writes.
  destruct (written_shape k ws) as [E|[c E]]; by rewrite !E.
Qed.

Lemma apply_writes_app ws1 ws2 (st : gmap string string) :
  apply_writes (ws1 ++ ws2) st = apply_writes ws2 (apply_writes ws1 st).
Proof. unfold apply_writes. by rewrite foldl_app. Qed.

Lemma written_app k ws1 ws2 d :
  written k (ws1 ++ ws2) d = written k ws2 (written k ws1 d).
Proof. unfold written. by rewrite foldl_app. Qed.

(** A declaration is the list of writes it comes to. *)
Lemma declare_writes_spec prop value (st : gmap string string) :
  declare prop value st = apply_writes (declare_writes prop value) st.
Proof.
  unfold declare, declare_writes. case_decide; [done|].
  by destruct (css_parse prop value).
Qed.

(** What a declaration leaves at a key: nothing for the empty text,
    what was there for a refused text or another property, the parsed
    value otherwise. *)
Lemma written_declare k prop value d :
  written k (declare_writes prop value) d
  = if decide (prop = k) then
      if decide (value = "") then None
      else match css_parse prop value with
           | Some v => Some v
           | None => d
           end
    else d.
Proof.
  unfold declare_writes.
  destruct (decide (value = "")) as [->|Hv].
  - cbn. by case_decide.
  - destruct (css_parse prop value); cbn; by case_decide.
Qed.

Lemma written_var k name value d :
  written k (var_writes name value) d
  = if decide (name = k) then
      if decide (value = "auto") then None
      else if decide (value = "") then None
      else match css_parse name value with
           | Some v => Some v
           | None => d
           end
    else d.
Proof.
  unfold var_writes. destruct (decide (value = "auto")).
  - cbn. by case_decide.
  - by rewrite written_declare.
Qed.

Lemma written_padding k name value d :
  name ≠ k → written k (padding_writes name value) d = d.
Proof.
  intros Hk. destruct value; cbn [padding_writes].
  - rewrite written_var. by rewrite decide_False.
  - rewrite written_declare. by rewrite decide_False.
Qed.

Lemma attrs_setVar n v s : attrs (setVar n v s) = attrs s.
Proof. unfold setVar. by case_decide. Qed.

Lemma container_setVar n v s :
  container (setVar n v s) = apply_writes (var_writes n v) <$> container s.
Proof.
  unfold setVar, var_writes. case_decide; [done|].
  cbn [setProperty log container]. destruct (container s); [|done].
  cbn. by rewrite declare_writes_spec.
Qed.

Lemma attrs_setVar_padding n v s : attrs (setVar_padding n v s) = attrs s.
Proof. destruct v; [apply attrs_setVar|done]. Qed.

Lemma container_setVar_padding n v s :
  container (setVar_padding n v s)
  = apply_writes (padding_writes n v) <$> container s.
Proof.
  destruct v; [apply container_setVar|].
  cbn [setVar_padding setProperty log container padding_writes].
  destruct (container s); [|done]. cbn. by rewrite declare_writes_spec.
Qed.

Lemma container_styleAssign p v s :
  container (styleAssign p v s) = apply_writes (declare_writes p v) <$> container s.
Proof.
  cbn [styleAssign log container]. destruct (container s); [|done].
  cbn. by rewrite declare_writes_spec.
Qed.

Lemma container_setProperty p v s :
  container (setProperty p v s) = apply_writes (declare_writes p v) <$> container s.
Proof.
  cbn [setProperty log container]. destruct (container s); [|done].
  cbn. by rewrite declare_writes_spec.
Qed.

Lemma attrs_applyFlex s : attrs (applyFlex s) = attrs s.
Proof. unfold applyFlex. by case_decide. Qed.

Lemma attrs_applyGrid s : attrs (applyGrid s) = attrs s.
Proof. unfold applyGrid. case_decide; [|done]. by destruct (_ && _). Qed.

Lemma attrs_applySpacing s : attrs (applySpacing s) = attrs s.
Proof.
  unfold applySpacing. by rewrite attrs_setVar, attrs_setVar_padding, attrs_setVar.
Qed.

Lemma attrs_applySizing s : attrs (applySizing s) = attrs s.
Proof. unfold applySizing. by rewrite !attrs_setVar. Qed.

Lemma attrs_sync_rest s : attrs (sync_rest s) = attrs s.
Proof.
  unfold sync_rest.
  by rewrite attrs_applySizing, attrs_applySpacing, attrs_applyGrid,
    attrs_applyFlex.
Qed.

Lemma fmap_apply_writes_app ws1 ws2 (c : option (gmap string string)) :
  apply_writes ws2 <$> (apply_writes ws1 <$> c) = apply_writes (ws1 ++ ws2) <$> c.
Proof. destruct c; simpl; [|done]. by rewrite apply_writes_app. Qed.

Lemma fmap_apply_writes_nil (c : option (gmap string string)) :
  apply_writes [] <$> c = c.
Proof. by destruct c. Qed.

Lemma container_applyFlex s :
  container (applyFlex s)
  = apply_writes
      (if decide (attrs s !! "layout" = Some "flex") then
         declare_writes "flex-direction" (JS.or_else (attrs s !! "direction") "row")
         ++ declare_writes "align-items" (mapAlign (attrs s !! "align"))
         ++ declare_writes "justify-content" (mapJustify (attrs s !! "justify"))
       else []) <$> container s.
Proof.
  unfold applyFlex, getAttribute. case_decide.
  - rewrite !container_styleAssign. cbn [styleAssign log attrs].
    by rewrite !fmap_apply_writes_app, app_assoc.
  - by rewrite fmap_apply_writes_nil.
Qed.

Lemma container_applyGrid s :
  container (applyGrid s)
  = apply_writes
      (if decide (attrs s !! "layout" = Some "grid")
       then declare_writes "--grid-template-columns" (grid_text (attrs s))
       else [ ("--grid-template-columns", None) ]) <$> container s.
Proof.
  unfold applyGrid, getAttribute, grid_text. case_decide.
  - destruct (_ && _); by rewrite container_setProperty.
  - cbn [removeProperty log container]. by destruct (container s).
Qed.

Lemma container_applySpacing s :
  container (applySpacing s)
  = apply_writes
      (var_writes "--gap" (normalizeUnit (attrs s !! "gap"))
       ++ padding_writes "--padding" (resolvePadding (attrs s !! "padding"))
       ++ var_writes "--margin" (normalizeUnit (attrs s !! "margin")))
    <$> container s.
Proof.
  unfold applySpacing, getAttribute.
  rewrite container_setVar, container_setVar_padding, container_setVar.
  rewrite attrs_setVar_padding, !attrs_setVar.
  by rewrite !fmap_apply_writes_app, app_assoc.
Qed.

Lemma container_applySizing s :
  container (applySizing s)
  = apply_writes
      (var_writes "--width" (normalizeUnit (attrs s !! "width"))
       ++ var_writes "--height" (normalizeUnit (attrs s !! "height"))
       ++ var_writes "--max-width" (normalizeUnit (attrs s !! "max-width")))
    <$> container s.
Proof.
  unfold applySizing, getAttribute.
  rewrite !container_setVar, !attrs_setVar.
  by rewrite !fmap_apply_writes_app, app_assoc.
Qed.

(** The rest of [sync] is the list of writes its attributes call for. *)
Lemma container_sync_rest s :
  container (sync_rest s) = apply_writes (style_writes (attrs s)) <$> container s.
Proof.
  unfold sync_rest.
  rewrite container_applySizing, container_applySpacing, container_applyGrid,
    container_applyFlex.
  rewrite attrs_applySpacing, !attrs_applyGrid, !attrs_applyFlex.
  rewrite !fmap_apply_writes_app. unfold style_writes.
  by rewrite <- !app_assoc.
Qed.

(** The calls [sync_rest] issues in grid layout, latest first: the six
    custom properties of spacing and sizing, after the grid template. *)
Lemma ops_sync_rest_grid s :
  attrs s !! "layout" = Some "grid" →
  ∃ later, ops (sync_rest s)
           = (later ++ SetProperty "--grid-template-columns" (grid_text (attrs s))
                       :: ops s)%list
           ∧ Forall (λ o, match o with
                          | SetProperty n _ | RemoveProperty n
                          | StyleAssign n _ => n ≠ "--grid-template-columns"
                          | RemoveAttribute _ => False
                          end) later.
Proof.
  intros Hl. unfold sync_rest.
  assert (applyFlex s = s) as ->.
  { unfold applyFlex, getAttribute. rewrite Hl. by rewrite decide_False. }
  assert (∃ g, applyGrid s = g ∧ attrs g = attrs s
               ∧ ops g = SetProperty "--grid-template-columns" (grid_text (attrs s))
                         :: ops s) as (g & -> & Hag & Hog).
  { unfold applyGrid, getAttribute, grid_text. rewrite Hl.
    rewrite decide_True by done. destruct (_ && _); by eexists. }
  assert (∀ n v s0, n ≠ "--grid-template-columns" →
            ∃ o, ops (setVar n v s0) = o :: ops s0
                 ∧ match o with
                   | SetProperty n _ | RemoveProperty n
                   | StyleAssign n _ => n ≠ "--grid-template-columns"
                   | RemoveAttribute _ => False
                   end) as Hvar.
  { intros n v s0 Hn. unfold setVar.
    case_decide; eexists; (split; [reflexivity|exact Hn]). }
  assert (∀ n v s0, n ≠ "--grid-template-columns" →
            ∃ o, ops (setVar_padding n v s0) = o :: ops s0
                 ∧ match o with
                   | SetProperty n _ | RemoveProperty n
                   | StyleAssign n _ => n ≠ "--grid-template-columns"
                   | RemoveAttribute _ => False
                   end) as Hpad.
  { intros n [v|t] s0 Hn; [by apply Hvar|].
    eexists. split; [reflexivity|exact Hn]. }
  unfold applySizing, applySpacing. cbv zeta.
  match goal with |- context [setVar "--gap" ?v g] =>
    destruct (Hvar "--gap" v g ltac:(done)) as (o1 & Ho1 & Hk1);
    set (s1 := setVar "--gap" v g) in * end.
  match goal with |- context [setVar_padding "--padding" ?v s1] =>
    destruct (Hpad "--padding" v s1 ltac:(done)) as (o2 & Ho2 & Hk2);
    set (s2 := setVar_padding "--padding" v s1) in * end.
  match goal with |- context [setVar "--margin" ?v s2] =>
    destruct (Hvar "--margin" v s2 ltac:(done)) as (o3 & Ho3 & Hk3);
    set (s3 := setVar "--margin" v s2) in * end.
  match goal with |- context [setVar "--width" ?v s3] =>
    destruct (Hvar "--width" v s3 ltac:(done)) as (o4 & Ho4 & Hk4);
    set (s4 := setVar "--width" v s3) in * end.
  match goal with |- context [setVar "--height" ?v s4] =>
    destruct (Hvar "--height" v s4 ltac:(done)) as (o5 & Ho5 & Hk5);
    set (s5 := setVar "--height" v s4) in * end.
  match goal with |- context [setVar "--max-width" ?v s5] =>
    destruct (Hvar "--max-width" v s5 ltac:(done)) as (o6 & Ho6 & Hk6);
    set (s6 := setVar "--max-width" v s5) in * end.
  exists [o6; o5; o4; o3; o2; o1]. split.
  - cbn [app]. by rewrite Ho6, Ho5, Ho4, Ho3, Ho2, Ho1, Hog.
  - by repeat constructor.
Qed.

End ContainerFacts.

Section ContainerProperties.
Import Container Aux.
Context `{Host}.

Lemma grid_text_nonempty a : grid_text a ≠ "".
Proof. unfold grid_text. by destruct (_ && _). Qed.

Lemma mapAlign_other v :
  v ≠ "start" → v ≠ "end" →
  mapAlign (Some v)
  = if bool_decide (v = "center") || bool_decide (v = "stretch")
       || bool_decide (v = "baseline")
    then v else "stretch".
Proof.
  intros Hs He. unfold mapAlign.
  repeat (destruct v as [|[[] [] [] [] [] [] [] []] v]; try reflexivity).
  all: done.
Qed.

Lemma mapJustify_other v :
  v ≠ "start" → v ≠ "end" →
  mapJustify (Some v)
  = if bool_decide (v = "center") || bool_decide (v = "space-between")
       || bool_decide (v = "space-around") || bool_decide (v = "space-evenly")
    then v else "flex-start".
Proof.
  intros Hs He. unfold mapJustify.
  repeat (destruct v as [|[[] [] [] [] [] [] [] []] v]; try reflexivity).
  all: done.
Qed.

Lemma mapAlign_nonempty v : mapAlign v ≠ "".
Proof.
  destruct v as [v|]; [|done].
  destruct (decide (v = "start")) as [->|Hs]; [done|].
  destruct (decide (v = "end")) as [->|He]; [done|].
  rewrite (mapAlign_other v Hs He).
  repeat case_bool_decide; subst; done.
Qed.

Lemma mapJustify_nonempty v : mapJustify v ≠ "".
Proof.
  destruct v as [v|]; [|done].
  destruct (decide (v = "start")) as [->|Hs]; [done|].
  destruct (decide (v = "end")) as [->|He]; [done|].
  rewrite (mapJustify_other v Hs He).
  repeat case_bool_decide; subst; done.
Qed.

Lemma written_grid_template a d :
  written "--grid-template-columns" (style_writes a) d
  = if decide (a !! "layout" = Some "grid") then
      match css_parse "--grid-template-columns" (grid_text a) with
      | Some v => Some v
      | None => d
      end
    else None.
Proof.
  unfold style_writes. rewrite !written_app.
  rewrite !written_var, written_padding by done.
  rewrite !decide_False by done.
  destruct (decide (a !! "layout" = Some "grid")) as [Hg|Hg].
  - rewrite written_declare, decide_True by done.
    rewrite decide_False by apply grid_text_nonempty.
    rewrite decide_False by (by rewrite Hg).
    reflexivity.
  - cbn [written foldl fst snd]. by rewrite decide_True.
Qed.

Lemma sync_with_container s :
  is_Some (container s) → sync s = sync_rest (applyLayout s).
Proof. intros [st Hc]. unfold sync. by rewrite Hc. Qed.

Lemma sync_without_container s : container s = None → sync s = s.
Proof. intros Hc. unfold sync. by rewrite Hc. Qed.

Lemma applyLayout_accepted s :
  layout_rejected (attrs s !! "layout") = false → applyLayout s = s.
Proof. intros Hl. unfold applyLayout, getAttribute. by rewrite Hl. Qed.

(** C9, as the code has it.  In grid layout [sync] hands the style
    object, for [--grid-template-columns], the text [repeat(c, 1fr)]
    with the text [c] of the [columns] attribute whenever [c] is a
    non-empty string of decimal digits (["0"] and leading zeros
    included), and [repeat(auto-fit, minmax(w, 1fr))] otherwise, where
    [w] is the [min-column-width] attribute, ["250px"] when it is
    missing or empty, with [px] appended when it is all digits and
    verbatim when not; no later call of the run touches the property.
    The property then holds what the style object's parser made of the
    text, and what it held before when the parser refuses the text. *)
Theorem C9_grid_template (s : State) (st : gmap string string) :
  container s = Some st →
  getAttribute s "layout" = Some "grid" →
  let w := normalizeUnit
             (Some (JS.or_else (getAttribute s "min-column-width") "250px")) in
  let text := match getAttribute s "columns" with
              | Some c =>
                  if JS.digits_only c then "repeat(" +:+ c +:+ ", 1fr)"
                  else "repeat(auto-fit, minmax(" +:+ w +:+ ", 1fr))"
              | None => "repeat(auto-fit, minmax(" +:+ w +:+ ", 1fr))"
              end in
  (∃ later,
     ops (sync s)
     = (later ++ SetProperty "--grid-template-columns" text :: ops s)%list
     ∧ Forall (λ o, match o with
                    | SetProperty n _ | RemoveProperty n
                    | StyleAssign n _ => n ≠ "--grid-template-columns"
                    | RemoveAttribute _ => False
                    end) later)
  ∧ gridTemplate (sync s)
    = match css_parse "--grid-template-columns" text with
      | Some v => Some v
      | None => st !! "--grid-template-columns"
      end
  ∧ w = match getAttribute s "min-column-width" with
        | Some v =>
            if decide (v = "") then "250px"
            else if JS.digits_only v then v +:+ "px" else v
        | None => "250px"
        end.
Proof.
  intros Hc Hl w text.
  assert (sync s = sync_rest s) as ->.
  { unfold sync. rewrite Hc. f_equal. unfold applyLayout. by rewrite Hl. }
  assert (text = grid_text (attrs s)) as ->.
  { subst text w. unfold grid_text, getAttribute.
    destruct (attrs s !! "columns") as [c|]; [|done].
    destruct c; [done|]. done. }
  split; [by apply ops_sync_rest_grid|]. split.
  - unfold gridTemplate. rewrite container_sync_rest, Hc. simpl.
    rewrite lookup_apply_writes, written_grid_template.
    unfold getAttribute in Hl. by rewrite decide_True.
  - subst w. unfold normalizeUnit, JS.or_else.
    destruct (getAttribute s "min-column-width") as [v|]; [|done].
    destruct (decide (v = "")); [done|]. by rewrite decide_False.
Qed.

Lemma rendered_log o s : rendered (log o s) = rendered s.
Proof. done. Qed.

Lemma rendered_sync_rest s :
  rendered (sync_rest s)
  = (attrs s, apply_writes (style_writes (attrs s)) <$> container s).
Proof. unfold rendered. by rewrite attrs_sync_rest, container_sync_rest. Qed.

Lemma sync_rest_twice s :
  rendered (sync_rest (sync_rest s)) = rendered (sync_rest s).
Proof.
  rewrite !rendered_sync_rest, attrs_sync_rest, container_sync_rest.
  f_equal. destruct (container s); simpl; [|done].
  by rewrite apply_writes_idem.
Qed.

Lemma rendered_sync_rest_ext s1 s2 :
  rendered s1 = rendered s2 → rendered (sync_rest s1) = rendered (sync_rest s2).
Proof.
  rewrite !rendered_sync_rest. unfold rendered. by intros [= -> ->].
Qed.

Lemma applyLayout_absent s :
  attrs s !! "layout" = None → applyLayout s = log (RemoveAttribute "layout") s.
Proof.
  intros Hl. unfold applyLayout.
  change (getAttribute (log (RemoveAttribute "layout") s) "layout")
    with (attrs s !! "layout").
  unfold getAttribute. rewrite Hl. reflexivity.
Qed.

Lemma applyLayout_present s l :
  attrs s !! "layout" = Some l →
  layout_rejected (Some l) = true →
  applyLayout s
  = sync_rest (log (RemoveAttribute "layout")
                 {| attrs := delete "layout" (attrs s);
                    container := container s;
                    ops := RemoveAttribute "layout" :: ops s |}).
Proof.
  intros Hl Hrej. unfold applyLayout.
  change (getAttribute (log (RemoveAttribute "layout") s) "layout")
    with (attrs s !! "layout").
  unfold getAttribute. rewrite Hl, Hrej. reflexivity.
Qed.

(** With a container, [sync] ends in [sync_rest] on a state whose
    [layout] attribute is missing or accepted. *)
Lemma sync_shape s :
  is_Some (container s) →
  ∃ s0, sync s = sync_rest s0 ∧ is_Some (container s0)
        ∧ (attrs s0 !! "layout" = None
           ∨ layout_rejected (attrs s0 !! "layout") = false).
Proof.
  intros Hc. rewrite (sync_with_container s Hc).
  destruct (layout_rejected (attrs s !! "layout")) eqn:Hrej.
  - destruct (attrs s !! "layout") as [l|] eqn:Hl.
    + rewrite (applyLayout_present s l Hl Hrej).
      eexists. split; [reflexivity|]. split.
      * rewrite container_sync_rest. destruct Hc as [st Hc].
        unfold log, container at 1. rewrite Hc. by eexists.
      * left. rewrite attrs_sync_rest. apply lookup_delete_eq.
    + rewrite (applyLayout_absent s Hl).
      eexists. split; [reflexivity|]. split; [exact Hc|left; exact Hl].
  - rewrite (applyLayout_accepted s Hrej).
    exists s. split; [reflexivity|]. split; [exact Hc|right; exact Hrej].
Qed.

Lemma is_Some_container_sync_rest s :
  is_Some (container s) → is_Some (container (sync_rest s)).
Proof. intros [st Hc]. rewrite container_sync_rest, Hc. by eexists. Qed.

(** [sync] brings the rendering to a fixed point: a second run writes
    the same declarations again and changes nothing. *)
Lemma sync_idempotent s : rendered (sync (sync s)) = rendered (sync s).
Proof.
  destruct (container s) as [st|] eqn:Hc.
  2: { by rewrite !(sync_without_container s Hc). }
  destruct (sync_shape s) as (s0 & -> & Hc0 & Hl); [by rewrite Hc|].
  rewrite (sync_with_container _ (is_Some_container_sync_rest _ Hc0)).
  destruct Hl as [Hl|Hl].
  - rewrite applyLayout_absent by (by rewrite attrs_sync_rest).
    etrans; [apply rendered_sync_rest_ext, rendered_log|].
    apply sync_rest_twice.
  - rewrite applyLayout_accepted by (by rewrite attrs_sync_rest).
    apply sync_rest_twice.
Qed.

End ContainerProperties.

Section ContainerExamples.
Import Container Aux MiniStyle.

(** The container's callback does not look at the old and the new
    value: with a grid layout, a callback for an unchanged [gap] runs
    [sync] and issues its writes again. *)
Lemma C4_counterexample_container :
  let s := setAttribute "gap" "4" (setAttribute "layout" "grid" constructed) in
  attributeChangedCallback s "gap" (Some "4") (Some "4") ≠ s
  ∧ ops (attributeChangedCallback s "gap" (Some "4") (Some "4"))
    = ([ RemoveProperty "--max-width"; RemoveProperty "--height";
        RemoveProperty "--width"; RemoveProperty "--margin";
        SetProperty "--padding" "0"; SetProperty "--gap" "4px";
        SetProperty "--grid-template-columns"
          "repeat(auto-fit, minmax(250px, 1fr))" ] ++ ops s)%list.
Proof.
  set (s := setAttribute "gap" "4" (setAttribute "layout" "grid" constructed)).
  set (r := attributeChangedCallback s "gap" (Some "4") (Some "4")).
  assert (∃ l, length l = 7 ∧ ops r = (l ++ ops s)%list
               ∧ l = [ RemoveProperty "--max-width"; RemoveProperty "--height";
                       RemoveProperty "--width"; RemoveProperty "--margin";
                       SetProperty "--padding" "0"; SetProperty "--gap" "4px";
                       SetProperty "--grid-template-columns"
                         "repeat(auto-fit, minmax(250px, 1fr))" ])
    as (l & Hlen & Hops & ->).
  { eexists. split; [|split; [|reflexivity]]; [reflexivity|].
    vm_compute. reflexivity. }
  cbv zeta. split; [|exact Hops].
  intros Heq. change (r = s) in Heq. rewrite Heq in Hops.
  apply (f_equal length) in Hops. rewrite length_app, Hlen in Hops. lia.
Qed.

(** A grid with three columns and a minimum column width, both read
    back from [sync] on the example host. *)
Lemma C9_grid_template_witness :
  gridTemplate
    (sync {| attrs := {[ "layout" := "grid"; "columns" := "3" ]};
             container := Some ∅; ops := [] |})
  = Some "repeat(3, 1fr)"
  ∧ gridTemplate
      (sync {| attrs := {[ "layout" := "grid"; "min-column-width" := "200" ]};
               container := Some ∅; ops := [] |})
    = Some "repeat(auto-fit, minmax(200px, 1fr))".
Proof.
  split.
  - exact (proj1 (proj2 (C9_grid_template
                    {| attrs := {[ "layout" := "grid"; "columns" := "3" ]};
                       container := Some ∅; ops := [] |} ∅ eq_refl eq_refl))).
  - exact (proj1 (proj2 (C9_grid_template
                    {| attrs := {[ "layout" := "grid"; "min-column-width" := "200" ]};
                       container := Some ∅; ops := [] |} ∅ eq_refl eq_refl))).
Defined.

(** C9 as stated fails at [columns="0"]: zero is not a positive
    integer, so the statement predicts the auto-fit template, and the
    code hands over, and the example host stores, the fixed template
    [repeat(0, 1fr)]. *)
Lemma C9_counterexample_columns_zero :
  let s := {| attrs := {[ "layout" := "grid"; "columns" := "0" ]};
              container := Some ∅; ops := [] |} in
  Stated.positive_integer "0" = None
  ∧ Stated.gridTemplate (getAttribute s "columns")
      (getAttribute s "min-column-width")
    = "repeat(auto-fit, minmax(250px, 1fr))"
  ∧ SetProperty "--grid-template-columns" "repeat(0, 1fr)" ∈ ops (sync s)
  ∧ gridTemplate (sync s) = Some "repeat(0, 1fr)"
  ∧ gridTemplate (sync s)
    ≠ Some (Stated.gridTemplate (getAttribute s "columns")
              (getAttribute s "min-column-width")).
Proof.
  split; [reflexivity|]. split; [reflexivity|]. split.
  - assert (ops (sync {| attrs := {[ "layout" := "grid"; "columns" := "0" ]};
                         container := Some ∅; ops := [] |})
            = [ RemoveProperty "--max-width"; RemoveProperty "--height";
                RemoveProperty "--width"; RemoveProperty "--margin";
                SetProperty "--padding" "0"; RemoveProperty "--gap";
                SetProperty "--grid-template-columns" "repeat(0, 1fr)" ]) as ->
      by (vm_compute; reflexivity).
    set_solver.
  - split; [vm_compute; reflexivity|]. vm_compute. congruence.
Qed.

End ContainerExamples.
(* ===================================================================== *)
(** * Button: properties                                                  *)
(* ===================================================================== *)

Section ButtonProperties.
Import Button.


(** Without either attribute it dispatches one [button-click]. *)
Lemma handleClick_normal s e :
  hasAttribute s "disabled" || hasAttribute s "loading" = false →
  ∃ ev, handleClick s e = (dispatchEvent ev s, e)
        ∧ ev_type ev = "button-click".
Proof. unfold handleClick. intros ->. by eexists. Qed.

(** The public [click()] carries the same guard as the handler. *)
Lemma click_suppressed s : hasAttribute s "disabled" || hasAttribute s "loading" = true → click s = s.
Proof.
  unfold click. intros Hs. destruct (button s); [|done].
  destruct (hasAttribute s "disabled"), (hasAttribute s "loading"); done.
Qed.

Lemma focus_forwards s b :
  button s = Some b → focus s = record_call NativeFocus s.
Proof. unfold focus. by intros ->. Qed.

Lemma blur_forwards s b :
  button s = Some b → blur s = record_call NativeBlur s.
Proof. unfold blur. by intros ->. Qed.

Lemma button_unchanged_attribute s name v :
  attributeChangedCallback s name v v = s.
Proof. unfold attributeChangedCallback. by rewrite decide_False by auto. Qed.

(** The first connection registers no listener: [render] is suspended
    at its first [await] when [attachEventListeners] runs, and the
    button it creates later carries none. *)
Lemma first_connection_registers_nothing :
  let s := render_resume (connectedCallback constructed) in
  b_listening <$> button s = Some false
  ∧ events (fire_click s) = [].
Proof. split; reflexivity. Qed.

End ButtonProperties.

(* ===================================================================== *)
(** * Single-line input: properties                                       *)
(* ===================================================================== *)

Section StringFacts.

Lemma append_cons a s r : String a s +:+ r = String a (s +:+ r).
Proof. reflexivity. Qed.

Lemma append_nil_l s : "" +:+ s = s.
Proof. reflexivity. Qed.

Lemma append_nil_r s : s +:+ "" = s.
Proof. induction s as [|a s IH]; [done|]. by rewrite append_cons, IH. Qed.

Lemma append_snoc v c r : (v +:+ String c "") +:+ r = v +:+ String c r.
Proof. induction v as [|a v IH]; [done|]. by rewrite !append_cons, IH. Qed.

Lemma length_append s r :
  String.length (s +:+ r) = (String.length s + String.length r)%nat.
Proof.
  induction s as [|a s IH]; [done|]. rewrite append_cons. cbn. by rewrite IH.
Qed.

End StringFacts.

Section InputProperties.
Import Input Aux.
Context `{Host} `{Control}.

Lemma input_unchanged_attribute s name v :
  attributeChangedCallback s name v v = s.
Proof. unfold attributeChangedCallback. by rewrite decide_False by auto. Qed.

Lemma or_else_self v : JS.or_else (Some v) "" = v.
Proof. unfold JS.or_else. by case_decide. Qed.

(** What [updateInputState] leaves: the native control takes its type,
    its text and its flags from the attributes, the events are
    untouched, and the only attribute written is [aria-disabled].  The
    control keeps the value it holds when that is the attribute's text,
    and is assigned the text otherwise. *)
Lemma updateInputState_shape s i l :
  inputElement s = Some i → labelElement s = Some l →
  let type := type_keyword (JS.or_else (getAttribute s "type") "text") in
  let value := JS.or_else (getAttribute s "value") "" in
  let held := if decide (i_type i = type) then i_value i
              else retype (i_type i) type (i_value i) in
  ∃ i', inputElement (updateInputState s) = Some i'
        ∧ i_type i' = type
        ∧ i_value i' = (if decide (held ≠ value) then assign type value else held)
        ∧ i_disabled i' = hasAttribute s "disabled"
        ∧ i_readOnly i' = hasAttribute s "readonly"
        ∧ i_listening i' = i_listening i
        ∧ events (updateInputState s) = events s
        ∧ calls (updateInputState s) = calls s
        ∧ is_Some (labelElement (updateInputState s))
        ∧ ∀ k, k ≠ "aria-disabled" →
               attrs (updateInputState s) !! k = attrs s !! k.
Proof.
  intros Hi Hl type value held. unfold updateInputState. rewrite Hi, Hl.
  fold type. fold value. fold held.
  match goal with |- context [with_input (Some ?x)] => exists x end.
  cbn [i_type i_value i_disabled i_readOnly i_listening].
  split; [|do 5 (split; [reflexivity|])].
  - unfold setFormValue, toggleAttribute.
    destruct (internals s), (hasAttribute s "disabled"),
      (hasAttribute s "error"); cbn;
      repeat (match goal with
              | |- context [match ?x with _ => _ end] => destruct x eqn:?; cbn
              end); reflexivity.
  - unfold setFormValue, toggleAttribute.
    destruct (internals s), (hasAttribute s "disabled"),
      (hasAttribute s "error"); cbn;
      repeat (match goal with
              | |- context [match ?x with _ => _ end] => destruct x eqn:?; cbn
              end);
      (do 2 (split; [reflexivity|])); (split; [by eexists|]);
      intros k Hk; rewrite ?lookup_insert_ne, ?lookup_delete_ne by done; done.
Qed.

Lemma value_observed : bool_decide ("value" ∈ observedAttributes) = true.
Proof. reflexivity. Qed.

Lemma hasAttribute_insert_ne s a k v :
  k ≠ "value" →
  hasAttribute (with_attrs (<["value" := v]> a) s) k
  = bool_decide (is_Some (a !! k)).
Proof.
  intros Hk. unfold hasAttribute. cbn [with_attrs attrs].
  by rewrite lookup_insert_ne.
Qed.

Lemma typable_target s v : typable s v → target_value s = v.
Proof. intros (i & Hi & Hv & _). unfold target_value. by rewrite Hi. Qed.

(** Reflecting the control's text into the [value] attribute keeps the
    control typable with the same text, and dispatches nothing: the
    control has the type the attribute asks for and holds the text
    already, so [updateInputState] assigns it nothing. *)
Lemma reflect_value_typable s v :
  typable s v →
  typable (setAttribute "value" v s) v
  ∧ events (setAttribute "value" v s) = events s
  ∧ getAttribute (setAttribute "value" v s) "value" = Some v.
Proof.
  intros (i & Hi & Hv & Hl & Hd & Hr & Had & Har & Hty).
  unfold setAttribute. rewrite value_observed. unfold attributeChangedCallback.
  set (s0 := with_attrs (<["value":=v]> (attrs s)) s).
  assert (getAttribute s0 "type" = getAttribute s "type") as Htype.
  { unfold getAttribute, s0. cbn [with_attrs attrs]. by rewrite lookup_insert_ne. }
  assert (typable s0 v ∧ events s0 = events s ∧ getAttribute s0 "value" = Some v)
    as Hs0.
  { split; [|split; [done|apply lookup_insert_eq]].
    exists i. repeat split; try done.
    - subst s0. by rewrite hasAttribute_insert_ne.
    - subst s0. by rewrite hasAttribute_insert_ne.
    - by rewrite Htype. }
  case_decide; [|exact Hs0].
  destruct (labelElement s) as [l|] eqn:Hlab.
  - destruct (updateInputState_shape s0 i l Hi Hlab)
      as (i' & Hi' & Ht' & Hv' & Hd' & Hr' & Hl' & He' & _ & _ & Ha').
    destruct Hs0 as ((_ & _ & _ & _ & _ & _ & Had0 & Har0 & _) & He0 & Ha0).
    rewrite Htype in Ht', Hv'. rewrite Ha0, or_else_self in Hv'.
    destruct (decide (i_type i = _)) as [_|Hn]; [|done].
    rewrite Hv in Hv'. destruct (decide (v ≠ v)) as [Hn|_]; [done|].
    split; [|split].
    + exists i'. split; [done|]. split; [done|].
      split; [by rewrite Hl'|].
      split; [by rewrite Hd'|]. split; [by rewrite Hr'|].
      split; [unfold hasAttribute in *; by rewrite Ha'|].
      split; [unfold hasAttribute in *; by rewrite Ha'|].
      rewrite Ht'. unfold getAttribute in *. by rewrite Ha', Htype.
    + by rewrite He'.
    + unfold getAttribute in *. by rewrite Ha'.
  - assert (updateInputState s0 = s0) as ->; [|exact Hs0].
    unfold updateInputState. subst s0. cbn [with_attrs inputElement labelElement].
    by rewrite Hi, Hlab.
Qed.

Lemma handleInput_typable s v :
  typable s v →
  typable (handleInput s "insertText") v
  ∧ events (handleInput s "insertText") = (events s ++ [input_event v])%list
  ∧ getAttribute (handleInput s "insertText") "value" = Some v.
Proof.
  intros Ht. unfold handleInput. rewrite (typable_target s v Ht).
  destruct (reflect_value_typable s v Ht) as (Ht1 & He1 & Ha1).
  set (s1 := setAttribute "value" v s) in *.
  rewrite (typable_target s1 v Ht1).
  assert (typable (setFormValue v s1) v
          ∧ events (setFormValue v s1) = events s
          ∧ getAttribute (setFormValue v s1) "value" = Some v) as (Ht2 & He2 & Ha2).
  { unfold setFormValue. destruct (internals s1) as [n|]; [|done].
    split; [|split; [done|done]].
    destruct Ht1 as (i & ?). by exists i. }
  rewrite (typable_target _ v Ht2).
  split; [|split].
  - destruct Ht2 as (i & ?). by exists i.
  - cbn [dispatchEvent events]. by rewrite He2.
  - exact Ha2.
Qed.

(** A key the control refuses changes nothing. *)
Lemma user_type_refused s i c :
  inputElement s = Some i → keystroke i c = None → user_type c s = s.
Proof.
  intros Hi Hk. unfold user_type. rewrite Hi, Hk. by destruct (_ || _).
Qed.

(** A key the control takes: the value it reads afterwards goes to the
    [value] attribute and into the one [input] event dispatched. *)
Lemma user_type_typable s v i c v' :
  typable s v → inputElement s = Some i → keystroke i c = Some v' →
  typable (user_type c s) v'
  ∧ events (user_type c s) = (events s ++ [input_event v'])%list
  ∧ getAttribute (user_type c s) "value" = Some v'.
Proof.
  intros (i0 & Hi & Hv & Hl & Hd & Hr & Had & Har & Hty) Hi' Hk.
  rewrite Hi in Hi'. injection Hi' as ->.
  unfold user_type. rewrite Hi, Hd, Hr, Hk, Hl. cbn [orb].
  match goal with |- context [handleInput ?x] => set (s' := x) end.
  assert (typable s' v') as Ht'.
  { eexists. split; [reflexivity|]. cbn. done. }
  destruct (handleInput_typable s' _ Ht') as (? & ? & ?). done.
Qed.

(** Typing a text the control takes as it is typed: one input event per
    character, each carrying the control's text at that point, and the
    [value] attribute follows. *)
Lemma user_types_typable text : ∀ s v,
  typable s v → taken_as_typed text s →
  typable (user_types text s) (v +:+ text)
  ∧ events (user_types text s) = (events s ++ input_events v text)%list
  ∧ (text ≠ "" → getAttribute (user_types text s) "value" = Some (v +:+ text)).
Proof.
  induction text as [|c r IH]; intros s v Ht Htaken.
  - cbn [user_types input_events]. by rewrite app_nil_r, append_nil_r.
  - cbn [taken_as_typed] in Htaken. destruct Htaken as [(i & Hi & Hk) Hrest].
    assert (i_value i = v) as Hiv.
    { destruct Ht as (i0 & Hi0 & Hv0 & _). rewrite Hi in Hi0. by injection Hi0 as ->. }
    rewrite Hiv in Hk.
    destruct (user_type_typable s v i c _ Ht Hi Hk) as (Ht1 & He1 & Ha1).
    destruct (IH _ _ Ht1 Hrest) as (Ht2 & He2 & Ha2).
    pose proof (append_snoc v c r) as Happ.
    cbn [user_types input_events]. rewrite Happ in *.
    split; [done|]. split.
    + rewrite He2, He1, <- app_assoc. done.
    + intros _. destruct r as [|c' r'].
      * cbn [user_types]. done.
      * by apply Ha2.
Qed.

End InputProperties.
Section InputClaims.
Import Input Aux.
Context `{Host} `{Control}.

(** Before [render] has run there is no native control, and an
    attribute change finds nothing to synchronise. *)
Lemma setAttribute_unrendered name v s :
  inputElement s = None →
  setAttribute name v s = with_attrs (<[name := v]> (attrs s)) s.
Proof.
  intros Hi. unfold setAttribute, attributeChangedCallback, updateInputState.
  cbn [with_attrs inputElement]. rewrite Hi.
  destruct (bool_decide _); [|done]. by case_decide.
Qed.

(** C10.  The [value] getter returns the text of the native input, and
    the empty string while there is no native input; so a value set
    through the property (or the attribute) before the element is
    connected reads back as the empty string, although the attribute
    holds it. *)
Theorem C10_value_getter (s : State) (v : string) :
  get_value s = match inputElement s with
                | Some i => i_value i
                | None => ""
                end
  ∧ (inputElement s = None →
     get_value (set_value v s) = ""
     ∧ get_value (setAttribute "value" v s) = ""
     ∧ getAttribute (set_value v s) "value" = Some v)
  ∧ (∀ supported, get_value (set_value v (constructed supported)) = "").
Proof.
  split; [|split].
  - unfold get_value. destruct (inputElement s) as [i|]; [|done].
    apply or_else_self.
  - intros Hi. unfold set_value. rewrite (setAttribute_unrendered _ _ _ Hi).
    unfold get_value, getAttribute. cbn [with_attrs inputElement attrs].
    rewrite Hi. split; [done|]. split; [done|]. apply lookup_insert_eq.
  - intros supported. unfold set_value.
    by rewrite setAttribute_unrendered.
Qed.

End InputClaims.

Section InputExamples.
Import Input Aux MiniHost.

(** A value set before connection is not readable, and is once the
    element is connected. *)
Lemma C10_value_getter_witness :
  get_value (set_value "draft" (constructed true)) = ""
  ∧ getAttribute (set_value "draft" (constructed true)) "value" = Some "draft"
  ∧ get_value (connectedCallback (set_value "draft" (constructed true))) = "draft".
Proof.
  destruct (C10_value_getter (constructed true) "draft")
    as (_ & Hunrendered & _).
  destruct (Hunrendered eq_refl) as (Hget & _ & Hattr).
  split; [exact Hget|]. split; [exact Hattr|]. reflexivity.
Defined.

End InputExamples.

(* ===================================================================== *)
(** * Multi-line text area: properties                                    *)
(* ===================================================================== *)

Section TexteriaFacts.
Import Texteria Aux.
Context `{RegExpEngine}.

Lemma updateCharCounter_counter s :
  updateCharCounter s = with_counter (charCounter (updateCharCounter s)) s.
Proof. unfold updateCharCounter. by destruct (0 <? _)%Z. Qed.

Lemma updateAriaAttributes_textarea s :
  updateAriaAttributes s = with_textarea (textarea (updateAriaAttributes s)) s.
Proof. reflexivity. Qed.


(** [check] reads the state and leaves it as it is; it throws only
    [SyntaxError], from [new RegExp]. *)
Lemma check_cases s :
  (∃ r, check s = Ok r s) ∨ check s = Throw SyntaxError s.
Proof.
  unfold check.
  repeat match goal with
         | |- context [if ?b then _ else _] => destruct b
         | |- context [match RegExp_new ?p with _ => _ end] => destruct (RegExp_new p)
         end; eauto.
Qed.

Lemma updateValidation_unfold s :
  updateValidation s
  = match check s with
    | Ok r _ => Ok tt (show_validity (fst r) (snd r) s)
    | Throw e _ => Throw e s
    end.
Proof.
  unfold updateValidation. run.
  destruct (check_cases s) as [[r ->]| ->]; reflexivity.
Qed.

Lemma toggle_elem name force (cl : gset string) x :
  x ∈ toggle name force cl ↔ (if force then x = name ∨ x ∈ cl else x ∈ cl ∧ x ≠ name).
Proof. unfold toggle. destruct force; set_solver. Qed.

(** With a positive [maxLength] the counter reads "current / max",
    carries [error] exactly from 100% of the maximum on and [warning]
    exactly from 90% up to, not including, 100%; otherwise it reads the
    bare count and its classes are not touched. *)
Lemma updateCharCounter_shows (s : State) :
  let cur := value_length s in
  let max := t_maxLength (textarea s) in
  let c := charCounter (updateCharCounter s) in
  ((0 < max)%Z →
     c_text c = JS.show (Z.to_N cur) +:+ " / " +:+ JS.show (Z.to_N max)
     ∧ ("error" ∈ c_classes c ↔ (100 * max ≤ cur * 100)%Z)
     ∧ ("warning" ∈ c_classes c ↔ (90 * max ≤ cur * 100 < 100 * max)%Z))
  ∧ ((max ≤ 0)%Z →
     c_text c = JS.show (Z.to_N cur)
     ∧ c_classes c = c_classes (charCounter s)).
Proof.
  intros cur max c. subst c. unfold updateCharCounter.
  fold cur. fold max. split; intros Hmax.
  - assert ((0 <? max)%Z = true) as -> by lia.
    cbn [with_counter charCounter c_text c_classes].
    split; [done|]. unfold percentage_at_least.
    destruct (100 * max <=? cur * 100)%Z eqn:H100;
      [|destruct (90 * max <=? cur * 100)%Z eqn:H90].
    + split; [set_solver by lia|]. split; [set_solver|lia].
    + split.
      * split; [set_solver|lia].
      * split; [lia|set_solver].
    + split; (split; [set_solver|lia]).
  - assert ((0 <? max)%Z = false) as -> by lia. done.
Qed.

(** The exact comparison stands for the double-precision one: checked
    here by running both for every [maxLength] up to 300. *)
Lemma percentage_double_agrees : percentage_agrees_upto 300 = true.
Proof. vm_compute. reflexivity. Qed.

(** The rounding of [parseInt] is that of the host's doubles: checked
    on integers around the doubles between 2^53 and 2^63. *)
Lemma round_double_checked : forallb round_double_agrees round_double_samples = true.
Proof. vm_compute. reflexivity. Qed.

Lemma counter_synced_updateCharCounter s : counter_synced (updateCharCounter s).
Proof.
  unfold counter_synced, updateCharCounter, value_length, percentage_at_least.
  destruct (0 <? t_maxLength (textarea s))%Z eqn:Hm;
    cbn [with_counter charCounter textarea _value c_text c_classes c_display];
    rewrite Hm; [|done].
  destruct (100 * _ <=? _)%Z; [|destruct (90 * _ <=? _)%Z];
    cbn [with_counter charCounter textarea _value c_text c_classes c_display];
    f_equal; set_solver.
Qed.


Lemma check_returns s : pattern_ok s → ∃ r, check s = Ok r s.
Proof.
  intros Hp. unfold check.
  destruct (_ && bool_decide _); [by eexists|].
  destruct (_ && _ && _); [by eexists|].
  destruct (JS.truthy (getAttribute s "pattern") && _) eqn:Hreach; [|by eexists].
  destruct (getAttribute s "pattern") as [p|] eqn:Hpat; [|done].
  assert (p ≠ "") as Hne by (intros ->; done).
  destruct (Hp p Hpat Hne) as [r Hr].
  change (default "" (Some p)) with p. rewrite Hr. destruct (negb _); by eexists.
Qed.

(** [check] throws exactly when it reaches the pattern test with a
    pattern the engine rejects. *)
Lemma check_throws s e s' :
  check s = Throw e s' →
  e = SyntaxError ∧ s' = s
  ∧ ∃ p, getAttribute s "pattern" = Some p ∧ p ≠ "" ∧ RegExp_new p = None
         ∧ _value s ≠ "".
Proof.
  unfold check.
  destruct (_ && bool_decide _); [done|].
  destruct (_ && _ && _); [done|].
  destruct (JS.truthy (getAttribute s "pattern") && _) eqn:Hreach; [|done].
  destruct (getAttribute s "pattern") as [p|] eqn:Hpat; [|done].
  change (default "" (Some p)) with p. destruct (RegExp_new p) eqn:Hnew.
  { by destruct (negb _). }
  intros [= <- <-]. split; [done|]. split; [done|].
  exists p. apply andb_prop in Hreach as [Htruthy Hlen].
  split; [done|]. split.
  - intros ->. done.
  - split; [done|]. intros Hv. unfold value_length in Hlen. rewrite Hv in Hlen. done.
Qed.

Lemma isValid_show_validity b m s : isValid (show_validity b m s) = b.
Proof.
  unfold isValid, show_validity.
  cbn [with_validation with_textarea textarea].
  destruct (negb b && negb (bool_decide (m = "")));
    cbn [t_with_attrs t_with_classes t_classes];
    destruct b; cbn [negb toggle];
    [rewrite bool_decide_false by set_solver
    |rewrite bool_decide_true by set_solver
    |rewrite bool_decide_false by set_solver
    |rewrite bool_decide_true by set_solver]; done.
Qed.

Lemma v_text_show_validity b m s :
  v_text (validationMessage (show_validity b m s)) = m.
Proof. reflexivity. Qed.

Lemma length_pos_nonempty (v : string) :
  (0 <? Z.of_nat (String.length v))%Z = negb (bool_decide (v = "")).
Proof. by destruct v. Qed.

(** The rules of [updateValidation], in their order. *)
Lemma updateValidation_rules (s s' : State) :
  updateValidation s = Ok tt s' →
  let msg := getAttribute s "validation-message" in
  let required_fails :=
    t_required (textarea s) = true ∧ JS.trim (_value s) = "" in
  let length_fails :=
    (0 < value_length s < t_minLength (textarea s))%Z in
  (required_fails →
     isValid s' = false
     ∧ v_text (validationMessage s') = JS.or_else msg "This field is required")
  ∧ (¬ required_fails → length_fails →
     isValid s' = false
     ∧ v_text (validationMessage s')
       = JS.or_else msg
           ("Minimum " +:+ JS.show (Z.to_N (t_minLength (textarea s)))
            +:+ " characters required"))
  ∧ (¬ required_fails → ¬ length_fails →
     ∀ p regex,
       getAttribute s "pattern" = Some p → p ≠ "" → _value s ≠ "" →
       RegExp_new p = Some regex →
       if RegExp_test regex (_value s)
       then isValid s' = true ∧ v_text (validationMessage s') = ""
       else isValid s' = false
            ∧ v_text (validationMessage s')
              = JS.or_else msg "Please match the required format")
  ∧ (¬ required_fails → ¬ length_fails →
     getAttribute s "pattern" = None ∨ getAttribute s "pattern" = Some ""
     ∨ _value s = "" →
     isValid s' = true ∧ v_text (validationMessage s') = "").
Proof.
  rewrite updateValidation_unfold.
  destruct (check s) as [r s0|e s0] eqn:Hcheck; [|done].
  intros [= <-]. rewrite isValid_show_validity, v_text_show_validity.
  intros msg required_fails length_fails.
  revert Hcheck. unfold check.
  destruct (t_required (textarea s) && bool_decide (JS.trim (_value s) = ""))
    eqn:Hreq.
  { intros [= <-]. apply andb_prop in Hreq as [Hr Ht%bool_decide_eq_true].
    assert required_fails as Hf by done.
    split; [done|]. split; [intros Hn; by destruct Hn|].
    split; intros Hn; by destruct Hn. }
  assert (¬ required_fails) as Hnreq.
  { intros [Hr Ht]. rewrite Hr, bool_decide_true in Hreq by done. done. }
  destruct ((0 <? t_minLength (textarea s))%Z && (0 <? value_length s)%Z
            && (value_length s <? t_minLength (textarea s))%Z) eqn:Hlen.
  { intros [= <-]. split; [done|]. split; [done|].
    assert length_fails by (unfold length_fails; lia).
    split; intros _ Hn; done. }
  assert (¬ length_fails) as Hnlen by (unfold length_fails; lia).
  unfold value_length. rewrite length_pos_nonempty.
  destruct (getAttribute s "pattern") as [p|] eqn:Hpat.
  2: { intros [= <-]. split; [done|]. split; [done|]. split; [|done].
       intros _ _ p regex Hp. done. }
  change (default "" (Some p)) with p. cbn [JS.truthy].
  destruct (decide (p = "")) as [->|Hp].
  { intros [= <-]. split; [done|]. split; [done|]. split; [|done].
    intros _ _ p regex [= <-]. done. }
  rewrite bool_decide_false by done.
  destruct (decide (_value s = "")) as [Hv|Hv].
  { rewrite bool_decide_true by done. intros [= <-].
    split; [done|]. split; [done|]. split; [|done].
    intros _ _ p' regex _ _ Hv'. done. }
  rewrite bool_decide_false by done. cbn [negb andb].
  destruct (RegExp_new p) as [regex|] eqn:Hnew; [|done].
  intros Hr. split; [done|]. split; [done|]. split.
  - intros _ _ p' regex' [= <-] _ _ Hnew'. rewrite Hnew in Hnew'.
    injection Hnew' as <-.
    destruct (RegExp_test regex (_value s)); cbn [negb] in Hr;
      by injection Hr as <-.
  - intros _ _ [?|[[= ?]|?]]; done.
Qed.


Lemma value_observed_t : bool_decide ("value" ∈ observedAttributes) = true.
Proof. reflexivity. Qed.

(** The listener's own write of the [value] attribute: it returns, and
    touches the attribute and ARIA attributes of the textarea only. *)
Lemma setAttribute_value_typing s v :
  isUserTyping s = true →
  ∃ s', setAttribute "value" v s = Ok tt s'
        ∧ attrs s' = <["value" := v]> (attrs s)
        ∧ _value s' = _value s ∧ isUserTyping s' = true
        ∧ t_value (textarea s') = t_value (textarea s)
        ∧ t_disabled (textarea s') = t_disabled (textarea s)
        ∧ t_maxLength (textarea s') = t_maxLength (textarea s)
        ∧ t_minLength (textarea s') = t_minLength (textarea s)
        ∧ t_required (textarea s') = t_required (textarea s)
        ∧ charCounter s' = charCounter s
        ∧ events s' = events s ∧ reported s' = reported s.
Proof.
  intros Ht. unfold setAttribute, reporting, attributeChangedCallback.
  rewrite value_observed_t. case_decide.
  { eexists. split; [reflexivity|]. done. }
  unfold attribute_case. name_cases. run.
  cbn [with_attrs isUserTyping]. rewrite Ht. cbn [negb].
  eexists. split; [reflexivity|].
  unfold updateAriaAttributes.
  destruct (JS.truthy _), (t_required _) eqn:Hr; cbn; rewrite ?Hr; done.
Qed.


Lemma check_ext s1 s2 r :
  attrs s1 !! "pattern" = attrs s2 !! "pattern" →
  attrs s1 !! "validation-message" = attrs s2 !! "validation-message" →
  _value s1 = _value s2 →
  t_required (textarea s1) = t_required (textarea s2) →
  t_minLength (textarea s1) = t_minLength (textarea s2) →
  check s1 = Ok r s1 → check s2 = Ok r s2.
Proof.
  unfold check, getAttribute, value_length.
  intros -> -> -> -> ->.
  repeat match goal with
         | |- context [if ?b then _ else _] => destruct b
         | |- context [match RegExp_new ?p with _ => _ end] => destruct (RegExp_new p)
         end; congruence.
Qed.

(** [show_validity] changes the classes and attributes of the textarea
    and the message box, nothing else. *)
Lemma show_validity_textarea b m s :
  ∃ cl a, textarea (show_validity b m s)
          = t_with_attrs a (t_with_classes cl (textarea s)).
Proof.
  unfold show_validity. cbn [with_validation with_textarea textarea].
  destruct (negb b && negb (bool_decide (m = ""))); by do 2 eexists.
Qed.

Lemma validity_synced_show s r :
  check s = Ok r s → validity_synced (show_validity (fst r) (snd r) s).
Proof.
  intros Hc. exists r.
  destruct (show_validity_textarea (fst r) (snd r) s) as (cl & a & Ht).
  split; [|split].
  - eapply check_ext; [..|exact Hc]; try reflexivity; by rewrite Ht.
  - apply isValid_show_validity.
  - reflexivity.
Qed.

Lemma validity_synced_ext s1 s2 :
  attrs s1 !! "pattern" = attrs s2 !! "pattern" →
  attrs s1 !! "validation-message" = attrs s2 !! "validation-message" →
  _value s1 = _value s2 →
  t_required (textarea s1) = t_required (textarea s2) →
  t_minLength (textarea s1) = t_minLength (textarea s2) →
  t_classes (textarea s1) = t_classes (textarea s2) →
  v_text (validationMessage s1) = v_text (validationMessage s2) →
  validity_synced s1 → validity_synced s2.
Proof.
  intros Hp Hm Hv Hr Hl Hc Ht (r & Hcheck & Hvalid & Htext).
  exists r. split; [by eapply check_ext|].
  unfold isValid in *. by rewrite <- Hc, <- Ht.
Qed.

Lemma counter_synced_ext s1 s2 :
  _value s1 = _value s2 →
  t_maxLength (textarea s1) = t_maxLength (textarea s2) →
  charCounter s1 = charCounter s2 →
  counter_synced s1 → counter_synced s2.
Proof.
  unfold counter_synced, updateCharCounter, value_length.
  intros -> -> ->. by destruct (0 <? _)%Z.
Qed.

Lemma pattern_ok_ext s1 s2 :
  attrs s1 !! "pattern" = attrs s2 !! "pattern" → pattern_ok s1 → pattern_ok s2.
Proof. unfold pattern_ok, getAttribute. by intros ->. Qed.

Lemma resize_step s :
  reading (λ s, when (hasAttribute s "auto-resize") (modify autoResize)) s
  = Ok tt (resized s).
Proof. unfold resized. run. by destruct (hasAttribute s "auto-resize"). Qed.

Lemma core_updateCharCounter s : core (updateCharCounter s) = core s.
Proof. by rewrite updateCharCounter_counter. Qed.

Lemma core_show_validity b m s : core (show_validity b m s) = core s.
Proof.
  unfold core. destruct (show_validity_textarea b m s) as (cl & a & ->).
  reflexivity.
Qed.

Lemma core_autoResize s : core (autoResize s) = core s.
Proof. reflexivity. Qed.

Lemma core_resized s : core (resized s) = core s.
Proof. unfold resized. by destruct (hasAttribute s "auto-resize"). Qed.

Lemma updateAriaAttributes_attrs s :
  ∃ a, textarea (updateAriaAttributes s) = t_with_attrs a (textarea s).
Proof.
  unfold updateAriaAttributes. cbn [with_textarea textarea].
  destruct (JS.truthy _); cbn [t_with_attrs t_required];
    destruct (t_required (textarea s)); by eexists.
Qed.

Lemma core_updateAriaAttributes s : core (updateAriaAttributes s) = core s.
Proof.
  unfold core. destruct (updateAriaAttributes_attrs s) as [a ->]. reflexivity.
Qed.

Lemma shown_resized s : shown (resized s) = shown s.
Proof. unfold resized. by destruct (hasAttribute s "auto-resize"). Qed.

Lemma shown_updateAriaAttributes s : shown (updateAriaAttributes s) = shown s.
Proof.
  unfold shown. destruct (updateAriaAttributes_attrs s) as [a ->]. reflexivity.
Qed.

Lemma charCounter_show_validity b m s :
  charCounter (show_validity b m s) = charCounter s.
Proof. reflexivity. Qed.

Lemma charCounter_resized s : charCounter (resized s) = charCounter s.
Proof. unfold resized. by destruct (hasAttribute s "auto-resize"). Qed.

Lemma charCounter_updateAriaAttributes s :
  charCounter (updateAriaAttributes s) = charCounter s.
Proof. reflexivity. Qed.

(** Both kinds of synchrony depend on the core and on what is shown. *)
Lemma counter_synced_core s1 s2 :
  core s1 = core s2 → charCounter s1 = charCounter s2 →
  counter_synced s1 → counter_synced s2.
Proof.
  unfold core. intros [= ? ? ? ? ? ? ? ? ? ?] ?. by apply counter_synced_ext.
Qed.

Lemma validity_synced_core s1 s2 :
  core s1 = core s2 → shown s1 = shown s2 →
  validity_synced s1 → validity_synced s2.
Proof.
  unfold core, shown. intros [= Ha ? ? ? ? ? ? ? ? ?] [= ? ?].
  apply validity_synced_ext; try done; by rewrite Ha.
Qed.

Lemma pattern_ok_core s1 s2 : core s1 = core s2 → pattern_ok s1 → pattern_ok s2.
Proof.
  unfold core. intros [= Ha ? ? ? ? ? ? ? ? ?]. apply pattern_ok_ext. by rewrite Ha.
Qed.

(** What the input listener does when validation does not throw. *)
Lemma on_input_returns s :
  pattern_ok s →
  ∃ s', on_input s = Ok tt s'
        ∧ attrs s' = <["value" := t_value (textarea s)]> (attrs s)
        ∧ _value s' = t_value (textarea s)
        ∧ isUserTyping s' = false
        ∧ t_value (textarea s') = t_value (textarea s)
        ∧ t_disabled (textarea s') = t_disabled (textarea s)
        ∧ t_maxLength (textarea s') = t_maxLength (textarea s)
        ∧ events s'
          = (events s
             ++ [ {| ev_type := "texteria-input"; bubbles := true;
                     composed := true;
                     detail_value := t_value (textarea s);
                     detail_characterCount :=
                       N.of_nat (String.length (t_value (textarea s))) |} ])%list
        ∧ reported s' = reported s
        ∧ counter_synced s' ∧ validity_synced s'.
Proof.
  intros Hp. unfold on_input.
  unfold mbind, M_bind, bind at 1 2. unfold modify at 1 2.
  unfold bind at 1. unfold reading at 1.
  match goal with
  | |- context [setAttribute "value" ?v ?s1] =>
      destruct (setAttribute_value_typing s1 v eq_refl)
        as (s2 & -> & Ha2 & Hv2 & Ht2 & Htv2 & Htd2 & Htm2 & Htl2 & Htr2
            & Hc2 & He2 & Hr2)
  end.
  cbn [with_value with_typing attrs _value textarea charCounter events reported]
    in *.
  unfold bind at 1. unfold modify at 1.
  unfold bind at 1. rewrite updateValidation_unfold.
  set (s3 := updateCharCounter s2).
  pose proof (core_updateCharCounter s2) as Hcore3. fold s3 in Hcore3.
  destruct (check_returns s3) as [r Hcheck].
  { eapply pattern_ok_ext; [|exact Hp].
    unfold core in Hcore3. injection Hcore3 as -> _ _ _ _ _ _ _ _ _.
    rewrite Ha2. by rewrite lookup_insert_ne. }
  rewrite Hcheck.
  unfold bind at 1. rewrite resize_step.
  unfold bind at 1. unfold modify.
  eexists. split; [reflexivity|].
  assert (counter_synced s3) as Hcs by apply counter_synced_updateCharCounter.
  pose proof (validity_synced_show s3 r Hcheck) as Hvs.
  set (s4 := show_validity (fst r) (snd r) s3) in *.
  pose proof (core_show_validity (fst r) (snd r) s3) as Hcore4. fold s4 in Hcore4.
  set (s5 := resized s4).
  pose proof (core_resized s4) as Hcore5. fold s5 in Hcore5.
  assert (core s5 = core s2) as Hcore by (by rewrite Hcore5, Hcore4).
  assert (charCounter s5 = charCounter s3 ∧ shown s5 = shown s4) as [Hcc5 Hsh5].
  { subst s5 s4. by rewrite charCounter_resized, shown_resized. }
  unfold core in Hcore, Hcore3.
  injection Hcore as Ha5 Hv5 Hty5 Htv5 Htd5 Htm5 Htl5 Htr5 He5 Hr5.
  injection Hcore3 as Ha3 Hv3 Hty3 Htv3 Htd3 Htm3 Htl3 Htr3 He3 Hr3.
  cbn [with_typing dispatchEvent attrs _value isUserTyping textarea events
       reported].
  unfold custom_event, value_length.
  rewrite Ha5, Hv5, Htv5, Htd5, Htm5, He5, Hr5, Ha2, Hv2, Htv2, Htd2, Htm2, He2, Hr2.
  rewrite <- nat_N_Z, N2Z.id.
  do 8 (split; [done|]). split.
  - eapply (counter_synced_ext s3); [| | |exact Hcs]; cbn; congruence.
  - unfold shown in Hsh5. injection Hsh5 as Hcl5 Hvt5.
    unfold core in Hcore5, Hcore4.
    injection Hcore5 as Ha54 Hv54 _ _ _ _ Htl54 Htr54 _ _.
    eapply (validity_synced_ext s4); [..|exact Hvs]; cbn; congruence.
Qed.


Lemma normalize_no_CR s : no_CR s = true → normalize_newlines s = s.
Proof.
  induction s as [|c r IH]; [done|]. cbn [no_CR normalize_newlines].
  intros [Hc Hr]%andb_prop. apply negb_true_iff in Hc. rewrite Hc.
  by rewrite IH.
Qed.

Lemma no_CR_append a b : no_CR (a +:+ b) = no_CR a && no_CR b.
Proof.
  induction a as [|c r IH]; [done|]. rewrite append_cons. cbn [no_CR].
  by rewrite IH, andb_assoc.
Qed.

(** One accepted keystroke. *)
Lemma user_type_returns s c v :
  pattern_ok s →
  t_value (textarea s) = v →
  t_disabled (textarea s) = false →
  no_CR (v +:+ String c "") = true →
  (t_maxLength (textarea s) < 0
   ∨ Z.of_nat (String.length v) < t_maxLength (textarea s))%Z →
  ∃ s', user_type c s = Ok tt s'
        ∧ attrs s' = <["value" := v +:+ String c ""]> (attrs s)
        ∧ _value s' = v +:+ String c ""
        ∧ isUserTyping s' = false
        ∧ t_value (textarea s') = v +:+ String c ""
        ∧ t_disabled (textarea s') = false
        ∧ t_maxLength (textarea s') = t_maxLength (textarea s)
        ∧ events s'
          = (events s
             ++ [ {| ev_type := "texteria-input"; bubbles := true;
                     composed := true;
                     detail_value := v +:+ String c "";
                     detail_characterCount :=
                       N.of_nat (String.length (v +:+ String c "")) |} ])%list
        ∧ reported s' = reported s
        ∧ counter_synced s' ∧ validity_synced s'.
Proof.
  intros Hp Hv Hd Hcr Hmax. unfold user_type. rewrite Hd, Hv.
  assert ((0 <=? t_maxLength (textarea s))%Z
          && (t_maxLength (textarea s) <=? Z.of_nat (String.length v))%Z = false)
    as -> by lia.
  set (s0 := with_textarea _ s).
  assert (t_value (textarea s0) = v +:+ String c "") as Hv0.
  { subst s0. cbn [with_textarea textarea t_with_value t_value].
    by apply normalize_no_CR. }
  destruct (on_input_returns s0) as (s' & Hs' & Ha & Hval & Hty & Htv & Htd & Htm
                                     & He & Hr & Hcs & Hvs).
  { eapply pattern_ok_ext; [|exact Hp]. done. }
  unfold reporting. rewrite Hs'. exists s'. split; [done|].
  rewrite Hv0 in *. subst s0.
  cbn [with_textarea textarea attrs events reported t_with_value t_disabled
       t_maxLength] in *.
  rewrite Hd in Htd. done.
Qed.

(** Typing a text into an enabled text area whose pattern the engine
    accepts: every character is one keystroke that returns, dispatches
    one [texteria-input] with the text so far, and leaves that text in
    [_value], in the textarea and in the [value] attribute. *)
Lemma user_types_returns text : ∀ s v,
  pattern_ok s →
  t_value (textarea s) = v →
  t_disabled (textarea s) = false →
  no_CR v = true → no_CR text = true →
  (t_maxLength (textarea s) < 0
   ∨ Z.of_nat (String.length v + String.length text) ≤ t_maxLength (textarea s))%Z →
  ∃ s', user_types text s = Ok tt s'
        ∧ t_value (textarea s') = v +:+ text
        ∧ (text ≠ "" →
           _value s' = v +:+ text
           ∧ getAttribute s' "value" = Some (v +:+ text)
           ∧ counter_synced s' ∧ validity_synced s')
        ∧ events s' = (events s ++ texteria_events v text)%list
        ∧ reported s' = reported s.
Proof.
  induction text as [|c r IH]; intros s v Hp Hv Hd Hcv Hct Hmax.
  - exists s. cbn [user_types texteria_events].
    rewrite append_nil_r, app_nil_r. done.
  - cbn [no_CR] in Hct. apply andb_prop in Hct as [Hc Hr].
    cbn [String.length] in Hmax.
    destruct (user_type_returns s c v Hp Hv Hd)
      as (s1 & Hs1 & Ha1 & Hv1 & Hty1 & Htv1 & Htd1 & Htm1 & He1 & Hr1 & Hcs1 & Hvs1).
    { rewrite no_CR_append, Hcv. cbn [no_CR]. by rewrite Hc. }
    { lia. }
    destruct (IH s1 (v +:+ String c "")) as (s2 & Hs2 & Htv2 & Hne2 & He2 & Hr2).
    { eapply pattern_ok_ext; [|exact Hp]. rewrite Ha1. by rewrite lookup_insert_ne. }
    { done. } { done. }
    { rewrite no_CR_append, Hcv. cbn [no_CR]. by rewrite Hc. }
    { done. }
    { rewrite Htm1, length_append. cbn [String.length]. lia. }
    exists s2. cbn [user_types texteria_events].
    unfold mbind, M_bind, bind. rewrite Hs1, Hs2.
    rewrite append_snoc in *.
    split; [done|]. split; [done|]. split.
    + intros _. destruct r as [|c' r'].
      * cbn [user_types] in Hs2. injection Hs2 as <-.
        unfold getAttribute. rewrite Ha1, lookup_insert_eq. done.
      * apply Hne2. done.
    + rewrite He2, He1, Hr2, Hr1, <- app_assoc. done.
Qed.

End TexteriaFacts.

Section TexteriaMethods.
Import Texteria Aux.
Context `{RegExpEngine}.

Lemma core_eq s1 s2 :
  core s1 = core s2 →
  attrs s1 = attrs s2 ∧ _value s1 = _value s2
  ∧ isUserTyping s1 = isUserTyping s2
  ∧ t_value (textarea s1) = t_value (textarea s2)
  ∧ t_disabled (textarea s1) = t_disabled (textarea s2)
  ∧ t_maxLength (textarea s1) = t_maxLength (textarea s2)
  ∧ t_minLength (textarea s1) = t_minLength (textarea s2)
  ∧ t_required (textarea s1) = t_required (textarea s2)
  ∧ events s1 = events s2 ∧ reported s1 = reported s2.
Proof. unfold core. intros [= ? ? ? ? ? ? ? ? ? ?]. done. Qed.

(** ** Size attributes *)

Lemma positive_with_fallback_range d x :
  (1 ≤ d ≤ 2147483647)%Z → (1 ≤ positive_with_fallback d x ≤ 2147483647)%Z.
Proof.
  intros Hd. unfold positive_with_fallback.
  destruct (_ && _) eqn:Hb; [lia|done].
Qed.

Lemma positive_with_fallback_small d z :
  (1 ≤ z ≤ 2147483647)%Z → positive_with_fallback d (JS.Int z) = z.
Proof.
  intros Hz. unfold positive_with_fallback, JS.ToUint32.
  rewrite Z.mod_small by lia.
  assert ((1 <=? z)%Z && (z <=? 2147483647)%Z = true) as -> by lia. done.
Qed.

Lemma rows_callback s oldValue newValue :
  ∃ s', attributeChangedCallback "rows" oldValue newValue s = Ok tt s'
        ∧ (oldValue ≠ newValue →
           t_rows (textarea s')
           = positive_with_fallback 2 (JS.parseInt (JS.or_else newValue "3"))).
Proof.
  unfold attributeChangedCallback. case_decide; [by exists s|].
  unfold attribute_case. name_cases. run.
  eexists. split; [reflexivity|]. intros _.
  destruct (updateAriaAttributes_attrs
              (with_textarea
                 (t_with_rows (JS.parseInt (JS.or_else newValue "3")) (textarea s)) s))
    as [a ->].
  reflexivity.
Qed.

Lemma cols_callback s oldValue newValue :
  ∃ s', attributeChangedCallback "cols" oldValue newValue s = Ok tt s'
        ∧ (oldValue ≠ newValue →
           t_cols (textarea s')
           = positive_with_fallback 20 (JS.parseInt (JS.or_else newValue "50"))).
Proof.
  unfold attributeChangedCallback. case_decide; [by exists s|].
  unfold attribute_case. name_cases. run.
  eexists. split; [reflexivity|]. intros _.
  destruct (updateAriaAttributes_attrs
              (with_textarea
                 (t_with_cols (JS.parseInt (JS.or_else newValue "50")) (textarea s)) s))
    as [a ->].
  reflexivity.
Qed.

(** ** Validation throws only on a rejected pattern *)

Lemma updateValidation_returns s :
  pattern_ok s → ∃ s', updateValidation s = Ok tt s'.
Proof.
  intros Hp. rewrite updateValidation_unfold.
  destruct (check_returns s Hp) as [r ->]. by eexists.
Qed.

Lemma updateValidation_throws s e s' :
  updateValidation s = Throw e s' →
  e = SyntaxError ∧ s' = s
  ∧ ∃ p, getAttribute s "pattern" = Some p ∧ p ≠ "" ∧ RegExp_new p = None
         ∧ _value s ≠ "".
Proof.
  rewrite updateValidation_unfold.
  destruct (check s) as [r s0|e0 s0] eqn:Hc; [done|].
  intros [= <- <-]. destruct (check_throws _ _ _ Hc) as (-> & _ & Hp). done.
Qed.

(** ** The [disabled] attribute *)



(** ** The steps that follow a change of value *)

(** [updateCharCounter], [updateValidation] and the optional
    [autoResize], as the listener, the [value] case of the callback and
    [setValue] run them. *)
Lemma value_steps s :
  (modify updateCharCounter ;; updateValidation ;;
   reading (λ s, when (hasAttribute s "auto-resize") (modify autoResize))) s
  = match check (updateCharCounter s) with
    | Ok r _ =>
        Ok tt (resized (show_validity (fst r) (snd r) (updateCharCounter s)))
    | Throw e _ => Throw e (updateCharCounter s)
    end.
Proof.
  unfold mbind, M_bind. unfold bind at 1. unfold modify at 1.
  unfold bind at 1. rewrite updateValidation_unfold.
  destruct (check_cases (updateCharCounter s)) as [[r ->]| ->]; [|done].
  apply resize_step.
Qed.

Lemma value_steps_synced s r :
  check (updateCharCounter s) = Ok r (updateCharCounter s) →
  let s' := resized (show_validity (fst r) (snd r) (updateCharCounter s)) in
  core s' = core s ∧ counter_synced s' ∧ validity_synced s'.
Proof.
  intros Hc s'. subst s'.
  set (s1 := updateCharCounter s) in *.
  set (s2 := show_validity (fst r) (snd r) s1).
  assert (core s2 = core s1) as H21 by apply core_show_validity.
  assert (core s1 = core s) as H10 by apply core_updateCharCounter.
  assert (core (resized s2) = core s2) as H32 by apply core_resized.
  split; [by rewrite H32, H21, H10|]. split.
  - eapply (counter_synced_core s1).
    + by rewrite H32, H21.
    + subst s2. by rewrite charCounter_resized, charCounter_show_validity.
    + apply counter_synced_updateCharCounter.
  - eapply (validity_synced_core s2).
    + by rewrite H32.
    + by rewrite shown_resized.
    + by apply validity_synced_show.
Qed.

Lemma synced_updateAriaAttributes s :
  counter_synced s → validity_synced s →
  counter_synced (updateAriaAttributes s) ∧ validity_synced (updateAriaAttributes s).
Proof.
  intros Hc Hv. split.
  - eapply counter_synced_core; [| |exact Hc].
    + by rewrite core_updateAriaAttributes.
    + done.
  - eapply validity_synced_core; [| |exact Hv].
    + by rewrite core_updateAriaAttributes.
    + by rewrite shown_updateAriaAttributes.
Qed.


(** ** The [value] attribute and [setValue] *)

(** The [value] case of the callback outside a keystroke: the new text
    goes to [_value] and to the textarea, and the counter and the
    validity are recomputed from it. *)
Lemma value_callback s oldValue newValue :
  isUserTyping s = false → oldValue ≠ newValue → pattern_ok s →
  ∃ s', attributeChangedCallback "value" oldValue newValue s = Ok tt s'
        ∧ _value s' = JS.or_else newValue ""
        ∧ t_value (textarea s') = normalize_newlines (JS.or_else newValue "")
        ∧ attrs s' = attrs s
        ∧ t_disabled (textarea s') = t_disabled (textarea s)
        ∧ events s' = events s ∧ reported s' = reported s
        ∧ counter_synced s' ∧ validity_synced s'.
Proof.
  intros Hty Hne Hp. unfold attributeChangedCallback.
  rewrite decide_False by done.
  unfold attribute_case. name_cases.
  unfold mbind, M_bind. unfold bind at 1. unfold reading at 1. rewrite Hty.
  cbn [negb]. unfold bind at 1. unfold modify at 1.
  unfold bind at 1. unfold modify at 1.
  pose proof value_steps as Hsteps. unfold mbind, M_bind in Hsteps.
  rewrite Hsteps. clear Hsteps.
  set (s1 := with_textarea _ _).
  assert (attrs s1 = attrs s) as Ha1 by done.
  destruct (check_returns (updateCharCounter s1)) as [r Hc].
  { eapply pattern_ok_ext; [|exact Hp]. by rewrite updateCharCounter_counter. }
  rewrite Hc. unfold modify.
  destruct (value_steps_synced s1 r Hc) as (Hcore & Hcs & Hvs).
  set (s2 := resized _) in *.
  destruct (synced_updateAriaAttributes s2 Hcs Hvs) as [Hcs' Hvs'].
  pose proof (core_updateAriaAttributes s2) as Hcore'.
  rewrite Hcore in Hcore'.
  destruct (core_eq _ _ Hcore') as (Ha & Hv & _ & Htv & Htd & _ & _ & _ & He & Hr).
  eexists. split; [reflexivity|].
  rewrite Ha, Hv, Htv, Htd, He, Hr. done.
Qed.

(** The host's write of the [value] attribute, whatever the callback
    does: it returns, the attribute holds the text, and a state whose
    [_value] and textarea already hold it keeps them. *)
Lemma setAttribute_value_any s v :
  _value s = v → t_value (textarea s) = normalize_newlines v →
  ∃ s2, setAttribute "value" v s = Ok tt s2
        ∧ attrs s2 = <["value" := v]> (attrs s)
        ∧ _value s2 = v
        ∧ t_value (textarea s2) = normalize_newlines v
        ∧ t_disabled (textarea s2) = t_disabled (textarea s)
        ∧ events s2 = events s.
Proof.
  intros Hv Htv. unfold setAttribute, reporting, attributeChangedCallback.
  rewrite value_observed_t. case_decide.
  { eexists. split; [reflexivity|]. done. }
  unfold attribute_case. name_cases.
  unfold mbind, M_bind. unfold bind at 1. unfold reading at 1.
  cbn [with_attrs isUserTyping].
  destruct (isUserTyping s); cbn [negb].
  - unfold ret, modify. eexists. split; [reflexivity|].
    match goal with
    | |- context [updateAriaAttributes ?x] =>
        destruct (core_eq _ _ (core_updateAriaAttributes x))
          as (Ha & Hv' & _ & Htv' & Htd & _ & _ & _ & He & _)
    end.
    rewrite Ha, Hv', Htv', Htd, He. done.
  - unfold bind at 1. unfold modify at 1. unfold bind at 1. unfold modify at 1.
    pose proof value_steps as Hsteps. unfold mbind, M_bind in Hsteps.
    rewrite Hsteps. clear Hsteps.
    rewrite or_else_self.
    set (s1 := with_textarea _ _).
    assert (attrs s1 = <["value":=v]> (attrs s) ∧ _value s1 = v
            ∧ t_value (textarea s1) = normalize_newlines v
            ∧ t_disabled (textarea s1) = t_disabled (textarea s)
            ∧ events s1 = events s) as (Ha1 & Hv1 & Htv1 & Htd1 & He1) by done.
    destruct (check_cases (updateCharCounter s1)) as [[r Hc]|Hc]; rewrite Hc.
    + unfold modify.
      destruct (value_steps_synced s1 r Hc) as (Hcore & _ & _).
      set (s2 := resized _) in *.
      pose proof (core_updateAriaAttributes s2) as Hcore'.
      rewrite Hcore in Hcore'.
      destruct (core_eq _ _ Hcore') as (Ha & Hv' & _ & Htv' & Htd & _ & _ & _ & He & _).
      eexists. split; [reflexivity|].
      rewrite Ha, Hv', Htv', Htd, He. done.
    + eexists. split; [reflexivity|].
      rewrite updateCharCounter_counter. done.
Qed.

(** [setValue] outside any guard: it looks at no attribute but writes
    the text to [_value], to the textarea and to the [value] attribute,
    and recomputes the counter and the validity. *)
Lemma setValue_returns s v :
  pattern_ok s →
  ∃ s', setValue v s = Ok tt s'
        ∧ _value s' = v
        ∧ t_value (textarea s') = normalize_newlines v
        ∧ getAttribute s' "value" = Some v
        ∧ t_disabled (textarea s') = t_disabled (textarea s)
        ∧ events s' = events s
        ∧ counter_synced s' ∧ validity_synced s'.
Proof.
  intros Hp. unfold setValue.
  unfold mbind, M_bind. unfold bind at 1. unfold modify at 1.
  unfold bind at 1. unfold modify at 1. unfold bind at 1.
  set (s1 := with_textarea _ _).
  destruct (setAttribute_value_any s1 v) as (s2 & -> & Ha2 & Hv2 & Htv2 & Htd2 & He2);
    [done|done|].
  pose proof value_steps as Hsteps. unfold mbind, M_bind in Hsteps.
  rewrite Hsteps. clear Hsteps.
  destruct (check_returns (updateCharCounter s2)) as [r Hc].
  { eapply pattern_ok_core; [apply eq_sym, core_updateCharCounter|].
    eapply pattern_ok_ext; [|exact Hp]. rewrite Ha2.
    by rewrite lookup_insert_ne. }
  rewrite Hc.
  destruct (value_steps_synced s2 r Hc) as (Hcore & Hcs & Hvs).
  set (s3 := resized _) in *.
  destruct (core_eq _ _ Hcore) as (Ha & Hv' & _ & Htv' & Htd & _ & _ & _ & He & _).
  eexists. split; [reflexivity|].
  unfold getAttribute. rewrite Ha, Hv', Htv', Htd, He, Ha2, lookup_insert_eq.
  done.
Qed.

End TexteriaMethods.
Section TexteriaCallbacks.
Import Texteria Aux.
Context `{RegExpEngine}.

Lemma validity_synced_updateAriaAttributes s :
  validity_synced s → validity_synced (updateAriaAttributes s).
Proof.
  intros Hv. eapply validity_synced_core; [| |exact Hv].
  - by rewrite core_updateAriaAttributes.
  - by rewrite shown_updateAriaAttributes.
Qed.

Lemma counter_synced_updateAriaAttributes s :
  counter_synced s → counter_synced (updateAriaAttributes s).
Proof.
  intros Hc. eapply counter_synced_core; [| |exact Hc].
  - by rewrite core_updateAriaAttributes.
  - done.
Qed.

Lemma required_callback s oldValue newValue :
  oldValue ≠ newValue → pattern_ok s →
  ∃ s', attributeChangedCallback "required" oldValue newValue s = Ok tt s'
        ∧ t_required (textarea s') = bool_decide (newValue ≠ None)
        ∧ validity_synced s'.
Proof.
  intros Hne Hp. unfold attributeChangedCallback. rewrite decide_False by done.
  unfold attribute_case. name_cases.
  unfold mbind, M_bind. unfold bind at 1. unfold bind at 1. unfold modify at 1.
  rewrite updateValidation_unfold.
  set (s1 := with_textarea _ s).
  destruct (check_returns s1) as [r Hc].
  { eapply pattern_ok_ext; [|exact Hp]. done. }
  rewrite Hc. unfold modify. eexists. split; [reflexivity|].
  pose proof (validity_synced_show s1 r Hc) as Hvs.
  set (s2 := show_validity _ _ s1) in *.
  split; [|by apply validity_synced_updateAriaAttributes].
  destruct (core_eq _ _ (core_updateAriaAttributes s2))
    as (_ & _ & _ & _ & _ & _ & _ & -> & _ & _).
  destruct (core_eq _ _ (core_show_validity (fst r) (snd r) s1))
    as (_ & _ & _ & _ & _ & _ & _ & Hr & _ & _).
  fold s2 in Hr. by rewrite Hr.
Qed.

Lemma pattern_callback s oldValue newValue :
  oldValue ≠ newValue → pattern_ok s →
  ∃ s', attributeChangedCallback "pattern" oldValue newValue s = Ok tt s'
        ∧ validity_synced s'.
Proof.
  intros Hne Hp. unfold attributeChangedCallback. rewrite decide_False by done.
  unfold attribute_case. name_cases.
  unfold mbind, M_bind. unfold bind at 1.
  rewrite updateValidation_unfold.
  destruct (check_returns s Hp) as [r Hc].
  rewrite Hc. unfold modify. eexists. split; [reflexivity|].
  by apply validity_synced_updateAriaAttributes, validity_synced_show.
Qed.

(** A change of [maxlength] that the textarea accepts is followed by a
    fresh counter. *)
Lemma maxlength_callback s oldValue newValue s' :
  oldValue ≠ newValue →
  attributeChangedCallback "maxlength" oldValue newValue s = Ok tt s' →
  counter_synced s'
  ∧ t_maxLength (textarea s')
    = (if JS.truthy newValue
       then JS.ToInt32 (JS.parseInt (default "" newValue)) else -1)%Z.
Proof.
  intros Hne. unfold attributeChangedCallback. rewrite decide_False by done.
  unfold attribute_case. name_cases.
  unfold mbind, M_bind. unfold bind at 1. unfold bind at 1.
  destruct (JS.truthy newValue).
  - unfold set_maxLength. destruct (_ || _); [done|].
    unfold modify. intros [= <-]. split.
    + apply counter_synced_updateAriaAttributes, counter_synced_updateCharCounter.
    + match goal with
      | |- context [updateAriaAttributes ?x] =>
          destruct (core_eq _ _ (core_updateAriaAttributes x))
            as (_ & _ & _ & _ & _ & -> & _)
      end.
      by rewrite updateCharCounter_counter.
  - unfold modify. intros [= <-]. split.
    + apply counter_synced_updateAriaAttributes, counter_synced_updateCharCounter.
    + match goal with
      | |- context [updateAriaAttributes ?x] =>
          destruct (core_eq _ _ (core_updateAriaAttributes x))
            as (_ & _ & _ & _ & _ & -> & _)
      end.
      by rewrite updateCharCounter_counter.
Qed.

Lemma unchanged_attribute s name v :
  attributeChangedCallback name v v s = Ok tt s.
Proof. unfold attributeChangedCallback. by rewrite decide_True. Qed.

End TexteriaCallbacks.

(* ===================================================================== *)
(** * The claims about the text area                                      *)
(* ===================================================================== *)

Section TexteriaClaims.
Import Texteria Aux Derived.
Context `{RegExpEngine}.






Lemma counter_rules_of_synced s : counter_synced s → counter_rules s.
Proof.
  unfold counter_synced, counter_rules. intros Hs.
  destruct (updateCharCounter_shows s) as [Hpos Hnone].
  rewrite Hs in Hpos, Hnone. split; [exact Hpos|].
  intros Hmax. by destruct (Hnone Hmax).
Qed.

Lemma maxlength_callback_returns s oldValue newValue :
  oldValue ≠ newValue →
  (JS.truthy newValue = true →
   let n := JS.ToInt32 (JS.parseInt (default "" newValue)) in
   (0 ≤ n ∧ (t_minLength (textarea s) < 0 ∨ t_minLength (textarea s) ≤ n))%Z) →
  ∃ s', attributeChangedCallback "maxlength" oldValue newValue s = Ok tt s'
        ∧ counter_synced s'
        ∧ t_maxLength (textarea s')
          = (if JS.truthy newValue
             then JS.ToInt32 (JS.parseInt (default "" newValue)) else -1)%Z.
Proof.
  intros Hne Hok.
  assert (∃ s', attributeChangedCallback "maxlength" oldValue newValue s = Ok tt s')
    as [s' Hs'].
  { unfold attributeChangedCallback. rewrite decide_False by done.
    unfold attribute_case. name_cases.
    unfold mbind, M_bind. unfold bind at 1. unfold bind at 1.
    destruct (JS.truthy newValue).
    - unfold set_maxLength.
      assert ((JS.ToInt32 (JS.parseInt (default "" newValue)) <? 0)%Z
              || ((0 <=? t_minLength (textarea s))%Z
                  && (JS.ToInt32 (JS.parseInt (default "" newValue))
                      <? t_minLength (textarea s))%Z) = false)
        as -> by (specialize (Hok eq_refl); cbv zeta in Hok; lia).
      by eexists.
    - by eexists. }
  exists s'. split; [done|]. by eapply maxlength_callback.
Qed.

(** The [maxlength] case throws only out of the textarea's setter,
    before anything is changed. *)
Lemma maxlength_callback_throws s oldValue newValue e s' :
  attributeChangedCallback "maxlength" oldValue newValue s = Throw e s' →
  e = IndexSizeError ∧ s' = s.
Proof.
  unfold attributeChangedCallback. case_decide; [done|].
  unfold attribute_case. name_cases.
  unfold mbind, M_bind. unfold bind at 1. unfold bind at 1.
  destruct (JS.truthy newValue); [|done].
  unfold set_maxLength. destruct (_ || _); [|done].
  by intros [= <- <-].
Qed.

(** C8.  The counter after [updateCharCounter]: with a positive
    [maxLength] it reads "current / max", with the [error] class exactly
    from 100% of the maximum on and the [warning] class exactly from 90%
    up to, not including, 100%; without one it reads the bare count.
    The listener for typed input, [setValue], and the callback for a
    changed [value] attribute leave the counter in that state, and so
    does the callback for a changed [maxlength] attribute when the
    textarea takes the number (it is not negative and not below the
    textarea's [minLength]); when the textarea refuses it, the setter
    throws and the element is as it was. *)
Theorem C8_character_counter (s : State) :
  counter_rules (updateCharCounter s)
  ∧ (pattern_ok s →
     (∃ s', on_input s = Ok tt s' ∧ counter_rules s')
     ∧ (∀ v, ∃ s', setValue v s = Ok tt s' ∧ _value s' = v ∧ counter_rules s')
     ∧ (∀ oldValue newValue,
          oldValue ≠ newValue → isUserTyping s = false →
          ∃ s', attributeChangedCallback "value" oldValue newValue s = Ok tt s'
                ∧ counter_rules s'))
  ∧ (∀ oldValue newValue,
       oldValue ≠ newValue →
       (JS.truthy newValue = true →
        let n := JS.ToInt32 (JS.parseInt (default "" newValue)) in
        (0 ≤ n ∧ (t_minLength (textarea s) < 0 ∨ t_minLength (textarea s) ≤ n))%Z) →
       ∃ s', attributeChangedCallback "maxlength" oldValue newValue s = Ok tt s'
             ∧ counter_rules s')
  ∧ (∀ oldValue newValue e s',
       attributeChangedCallback "maxlength" oldValue newValue s = Throw e s' →
       e = IndexSizeError ∧ s' = s).
Proof.
  split; [|split; [|split]].
  - apply counter_rules_of_synced, counter_synced_updateCharCounter.
  - intros Hp. split; [|split].
    + destruct (on_input_returns s Hp) as (s' & Hs' & Hrest).
      exists s'. split; [done|]. apply counter_rules_of_synced.
      by destruct Hrest as (_ & _ & _ & _ & _ & _ & _ & _ & ? & _).
    + intros v. destruct (setValue_returns s v Hp)
        as (s' & Hs' & Hv & _ & _ & _ & _ & Hcs & _).
      exists s'. split; [done|]. split; [done|].
      by apply counter_rules_of_synced.
    + intros o n Hne Hty.
      destruct (value_callback s o n Hty Hne Hp)
        as (s' & Hs' & _ & _ & _ & _ & _ & _ & Hcs & _).
      exists s'. split; [done|]. by apply counter_rules_of_synced.
  - intros o n Hne Hok.
    destruct (maxlength_callback_returns s o n Hne Hok) as (s' & Hs' & Hcs & _).
    exists s'. split; [done|]. by apply counter_rules_of_synced.
  - intros o n e s'. apply maxlength_callback_throws.
Qed.

Lemma validity_rules_of_synced s : validity_synced s → validity_rules s.
Proof.
  intros (r & Hc & Hvalid & Htext).
  pose proof (updateValidation_rules s (show_validity (fst r) (snd r) s)) as Hrules.
  rewrite updateValidation_unfold, Hc in Hrules. specialize (Hrules eq_refl).
  rewrite isValid_show_validity, v_text_show_validity in Hrules.
  unfold validity_rules. rewrite Hvalid, Htext. exact Hrules.
Qed.

(** [check] throws when it gets to compile a pattern the engine
    rejects: the value is not empty and neither earlier rule fails. *)
Lemma check_throws_iff s :
  check s = Throw SyntaxError s
  ↔ ¬ (t_required (textarea s) = true ∧ JS.trim (_value s) = "")
    ∧ ¬ (0 < value_length s < t_minLength (textarea s))%Z
    ∧ ∃ p, getAttribute s "pattern" = Some p ∧ p ≠ "" ∧ RegExp_new p = None
           ∧ _value s ≠ "".
Proof.
  unfold check.
  destruct (t_required (textarea s) && bool_decide (JS.trim (_value s) = ""))
    eqn:Hreq.
  { split; [done|]. intros (Hn & _). exfalso. apply Hn.
    apply andb_prop in Hreq as [? ?%bool_decide_eq_true]. done. }
  assert (¬ (t_required (textarea s) = true ∧ JS.trim (_value s) = "")) as Hnreq.
  { intros [Hr Ht]. rewrite Hr, bool_decide_true in Hreq by done. done. }
  destruct ((0 <? t_minLength (textarea s))%Z && (0 <? value_length s)%Z
            && (value_length s <? t_minLength (textarea s))%Z) eqn:Hlen.
  { split; [done|]. intros (_ & Hn & _). exfalso. apply Hn. lia. }
  assert (¬ (0 < value_length s < t_minLength (textarea s))%Z) as Hnlen by lia.
  unfold value_length. rewrite length_pos_nonempty.
  destruct (getAttribute s "pattern") as [p|] eqn:Hpat.
  2: { split; [done|]. by intros (_ & _ & p & ? & _). }
  change (default "" (Some p)) with p. cbn [JS.truthy].
  destruct (decide (p = "")) as [->|Hp].
  { split; [done|]. by intros (_ & _ & p & [= <-] & ? & _). }
  rewrite bool_decide_false by done.
  destruct (decide (_value s = "")) as [Hv|Hv].
  { rewrite bool_decide_true by done. split; [done|].
    by intros (_ & _ & p' & _ & _ & _ & ?). }
  rewrite bool_decide_false by done. cbn [negb andb].
  destruct (RegExp_new p) as [regex|] eqn:Hnew.
  - split; [by destruct (negb _)|].
    intros (_ & _ & p' & [= <-] & _ & Hnone & _). by rewrite Hnew in Hnone.
  - split; [|done]. intros _. split; [done|]. split; [done|]. by exists p.
Qed.

Lemma updateValidation_throws_iff s :
  updateValidation s = Throw SyntaxError s
  ↔ ¬ (t_required (textarea s) = true ∧ JS.trim (_value s) = "")
    ∧ ¬ (0 < value_length s < t_minLength (textarea s))%Z
    ∧ ∃ p, getAttribute s "pattern" = Some p ∧ p ≠ "" ∧ RegExp_new p = None
           ∧ _value s ≠ "".
Proof.
  rewrite <- check_throws_iff, updateValidation_unfold.
  destruct (check_cases s) as [[r ->]| ->]; [split; discriminate|done].
Qed.

(** Whenever validation returns, what it shows is the first failing
    rule. *)
Lemma updateValidation_rules_shown s s' :
  updateValidation s = Ok tt s' → _value s' = _value s ∧ validity_rules s'.
Proof.
  rewrite updateValidation_unfold.
  destruct (check s) as [r s0|e s0] eqn:Hc; [|done].
  destruct (check_cases s) as [[r' Hc']|Hc']; rewrite Hc' in Hc; [|done].
  injection Hc as <- <-. intros [= <-]. split; [done|].
  by apply validity_rules_of_synced, validity_synced_show.
Qed.

Lemma updateValidation_shows s :
  pattern_ok s →
  ∃ s', updateValidation s = Ok tt s' ∧ _value s' = _value s ∧ validity_rules s'.
Proof.
  intros Hp. rewrite updateValidation_unfold.
  destruct (check_returns s Hp) as [r Hc]. rewrite Hc.
  eexists. split; [reflexivity|]. split; [done|].
  by apply validity_rules_of_synced, validity_synced_show.
Qed.

(** C2, as the code has it.  With a pattern the engine accepts,
    [updateValidation] returns and shows the first failing rule in the
    order required, minimum length, pattern: required fails on a value
    that is empty once trimmed, minimum length on a non-empty value
    shorter than [minLength], pattern on a non-empty value the regular
    expression does not match; the message is the [validation-message]
    attribute when that is set and not empty, the rule's own message
    otherwise; with no failing rule the widget is valid and the message
    empty.  The listener for typed input, [setValue], and the callbacks
    for a changed [value], [required] or [pattern] attribute each
    return with the validity in that state. *)
Theorem C2_validity_priority (s : State) :
  pattern_ok s →
  (∃ s', updateValidation s = Ok tt s'
         ∧ _value s' = _value s ∧ validity_rules s')
  ∧ (∃ s', on_input s = Ok tt s'
           ∧ _value s' = t_value (textarea s) ∧ validity_rules s')
  ∧ (∀ v, ∃ s', setValue v s = Ok tt s' ∧ _value s' = v ∧ validity_rules s')
  ∧ (∀ oldValue newValue,
       oldValue ≠ newValue → isUserTyping s = false →
       ∃ s', attributeChangedCallback "value" oldValue newValue s = Ok tt s'
             ∧ _value s' = JS.or_else newValue "" ∧ validity_rules s')
  ∧ (∀ oldValue newValue,
       oldValue ≠ newValue →
       ∃ s', attributeChangedCallback "required" oldValue newValue s = Ok tt s'
             ∧ t_required (textarea s') = bool_decide (newValue ≠ None)
             ∧ validity_rules s')
  ∧ (∀ oldValue newValue,
       oldValue ≠ newValue →
       ∃ s', attributeChangedCallback "pattern" oldValue newValue s = Ok tt s'
             ∧ validity_rules s').
Proof.
  intros Hp. split; [|split; [|split; [|split; [|split]]]].
  - by apply updateValidation_shows.
  - destruct (on_input_returns s Hp)
      as (s' & Hs' & _ & Hv & _ & _ & _ & _ & _ & _ & _ & Hvs).
    exists s'. split; [done|]. split; [done|].
    by apply validity_rules_of_synced.
  - intros v. destruct (setValue_returns s v Hp)
      as (s' & Hs' & Hv & _ & _ & _ & _ & _ & Hvs).
    exists s'. split; [done|]. split; [done|].
    by apply validity_rules_of_synced.
  - intros o n Hne Hty.
    destruct (value_callback s o n Hty Hne Hp)
      as (s' & Hs' & Hv & _ & _ & _ & _ & _ & _ & Hvs).
    exists s'. split; [done|]. split; [done|].
    by apply validity_rules_of_synced.
  - intros o n Hne.
    destruct (required_callback s o n Hne Hp) as (s' & Hs' & Hr & Hvs).
    exists s'. split; [done|]. split; [done|].
    by apply validity_rules_of_synced.
  - intros o n Hne.
    destruct (pattern_callback s o n Hne Hp) as (s' & Hs' & Hvs).
    exists s'. split; [done|]. by apply validity_rules_of_synced.
Qed.

Lemma parseInt_default_rows : JS.parseInt "3" = JS.Int 3.
Proof. reflexivity. Qed.

Lemma parseInt_default_cols : JS.parseInt "50" = JS.Int 50.
Proof. reflexivity. Qed.

Lemma or_else_falsy (x : option string) d : JS.truthy x = false → JS.or_else x d = d.
Proof.
  destruct x as [v|]; [|done]. unfold JS.truthy, JS.or_else.
  case_decide; [done|]. by rewrite bool_decide_false.
Qed.

Lemma or_else_Some v d : v ≠ "" → JS.or_else (Some v) d = v.
Proof. intros Hv. unfold JS.or_else. by rewrite decide_False. Qed.

(** C7, as the code has it.  A [rows] or [cols] attribute never makes
    the callback throw and always leaves the textarea with a size
    between 1 and 2^31-1: a missing or empty attribute gives the
    widget's 3 rows and 50 columns, and a text [parseInt] reads no
    number from gives the textarea's own default of 2 rows and 20
    columns.  [updateValidation] returns whenever the engine accepts the
    pattern, and whenever it returns it shows the first failing rule.
    It throws exactly when it gets to compile a pattern the engine
    rejects, that is, when the value is not empty, neither the required
    rule nor the minimum-length rule fails, and the [pattern] attribute
    is set, not empty and rejected; it then throws [SyntaxError] and
    shows nothing. *)
Theorem C7_malformed_configuration (s : State) (oldValue newValue : option string) :
  (∃ s', attributeChangedCallback "rows" oldValue newValue s = Ok tt s'
         ∧ (oldValue ≠ newValue →
            (1 ≤ t_rows (textarea s') ≤ 2147483647)%Z
            ∧ (JS.truthy newValue = false → t_rows (textarea s') = 3%Z)
            ∧ (∀ v, newValue = Some v → v ≠ "" → JS.parseInt v = JS.NaN →
                    t_rows (textarea s') = 2%Z)))
  ∧ (∃ s', attributeChangedCallback "cols" oldValue newValue s = Ok tt s'
           ∧ (oldValue ≠ newValue →
              (1 ≤ t_cols (textarea s') ≤ 2147483647)%Z
              ∧ (JS.truthy newValue = false → t_cols (textarea s') = 50%Z)
              ∧ (∀ v, newValue = Some v → v ≠ "" → JS.parseInt v = JS.NaN →
                      t_cols (textarea s') = 20%Z)))
  ∧ (pattern_ok s → ∃ s', updateValidation s = Ok tt s' ∧ validity_rules s')
  ∧ (∀ s', updateValidation s = Ok tt s' → validity_rules s')
  ∧ (∀ e s', updateValidation s = Throw e s' → e = SyntaxError ∧ s' = s)
  ∧ (updateValidation s = Throw SyntaxError s
     ↔ ¬ (t_required (textarea s) = true ∧ JS.trim (_value s) = "")
       ∧ ¬ (0 < value_length s < t_minLength (textarea s))%Z
       ∧ ∃ p, getAttribute s "pattern" = Some p ∧ p ≠ ""
              ∧ RegExp_new p = None ∧ _value s ≠ "").
Proof.
  split; [|split; [|split; [|split; [|split]]]].
  - destruct (rows_callback s oldValue newValue) as (s' & Hs' & Hrows).
    exists s'. split; [done|]. intros Hne. rewrite (Hrows Hne).
    split; [by apply positive_with_fallback_range|]. split.
    + intros Hf. rewrite (or_else_falsy _ _ Hf), parseInt_default_rows.
      by apply positive_with_fallback_small.
    + intros v -> Hv Hnan. by rewrite (or_else_Some _ _ Hv), Hnan.
  - destruct (cols_callback s oldValue newValue) as (s' & Hs' & Hcols).
    exists s'. split; [done|]. intros Hne. rewrite (Hcols Hne).
    split; [by apply positive_with_fallback_range|]. split.
    + intros Hf. rewrite (or_else_falsy _ _ Hf), parseInt_default_cols.
      by apply positive_with_fallback_small.
    + intros v -> Hv Hnan. by rewrite (or_else_Some _ _ Hv), Hnan.
  - intros Hp. destruct (updateValidation_shows s Hp) as (s' & Hs' & _ & Hr).
    by exists s'.
  - intros s' Hs'. by destruct (updateValidation_rules_shown s s' Hs').
  - intros e s' Ht. by destruct (updateValidation_throws s e s' Ht) as (-> & -> & _).
  - apply updateValidation_throws_iff.
Qed.

End TexteriaClaims.

Section TexteriaExamples.
Import Texteria Aux Derived MiniRegExp Examples.

Lemma ten_pattern_ok : pattern_ok ten.
Proof. intros p Hp. vm_compute in Hp. discriminate Hp. Defined.

(** For [maxlength="10"]: nine characters read "9 / 10" with the
    warning class, ten read "10 / 10" with the error class, five read
    "5 / 10" with neither. *)
Lemma C8_character_counter_witness :
  setValue "123456789" ten = Ok tt ten_9
  ∧ counter_rules ten_9
  ∧ c_text (charCounter ten_9) = "9 / 10"
  ∧ elements (c_classes (charCounter ten_9)) = ["warning"; "texteria-counter"]
  ∧ setValue "1234567890" ten = Ok tt ten_10
  ∧ counter_rules ten_10
  ∧ c_text (charCounter ten_10) = "10 / 10"
  ∧ elements (c_classes (charCounter ten_10)) = ["error"; "texteria-counter"]
  ∧ setValue "12345" ten = Ok tt ten_5
  ∧ counter_rules ten_5
  ∧ c_text (charCounter ten_5) = "5 / 10"
  ∧ elements (c_classes (charCounter ten_5)) = ["texteria-counter"].
Proof.
  destruct (C8_character_counter ten) as (_ & Hops & _).
  destruct (Hops ten_pattern_ok) as (_ & Hset & _).
  assert (∀ v known, setValue v ten = Ok tt known → counter_rules known) as Hrules.
  { intros v known Hknown. destruct (Hset v) as (s' & Heq & _ & Hr).
    rewrite Hknown in Heq. by injection Heq as <-. }
  assert (setValue "123456789" ten = Ok tt ten_9) as H9 by (vm_compute; reflexivity).
  assert (setValue "1234567890" ten = Ok tt ten_10) as H10 by (vm_compute; reflexivity).
  assert (setValue "12345" ten = Ok tt ten_5) as H5 by (vm_compute; reflexivity).
  split; [exact H9|]. split; [exact (Hrules _ _ H9)|].
  split; [vm_compute; reflexivity|]. split; [vm_compute; reflexivity|].
  split; [exact H10|]. split; [exact (Hrules _ _ H10)|].
  split; [vm_compute; reflexivity|]. split; [vm_compute; reflexivity|].
  split; [exact H5|]. split; [exact (Hrules _ _ H5)|].
  split; vm_compute; reflexivity.
Defined.

Lemma letters_area_pattern_ok : pattern_ok letters_area.
Proof.
  intros p Hp _. vm_compute in Hp. injection Hp as <-.
  vm_compute. eexists. reflexivity.
Defined.

Lemma required_area_pattern_ok : pattern_ok required_area.
Proof. intros p Hp. vm_compute in Hp. discriminate Hp. Defined.

(** The three rules and their order on running examples: a required
    area holding blanks shows the required message; an area asking for
    three lower-case letters shows the length message for "A1" (which
    also fails the pattern), the pattern message for "AB1", and nothing
    for "abc". *)
Lemma C2_validity_priority_witness :
  (setValue "  " required_area = Ok tt required_blank
   ∧ validity_rules required_blank
   ∧ isValid required_blank = false
   ∧ v_text (validationMessage required_blank) = "This field is required")
  ∧ (setValue "A1" letters_area = Ok tt letters_A1
     ∧ validity_rules letters_A1
     ∧ isValid letters_A1 = false
     ∧ v_text (validationMessage letters_A1) = "Minimum 3 characters required")
  ∧ (setValue "AB1" letters_area = Ok tt letters_AB1
     ∧ validity_rules letters_AB1
     ∧ isValid letters_AB1 = false
     ∧ v_text (validationMessage letters_AB1) = "Please match the required format")
  ∧ (setValue "abc" letters_area = Ok tt letters_abc
     ∧ validity_rules letters_abc
     ∧ isValid letters_abc = true
     ∧ v_text (validationMessage letters_abc) = "").
Proof.
  destruct (C2_validity_priority required_area required_area_pattern_ok)
    as (_ & _ & Hreq & _).
  destruct (C2_validity_priority letters_area letters_area_pattern_ok)
    as (_ & _ & Hlet & _).
  assert (∀ v known, setValue v required_area = Ok tt known → validity_rules known)
    as Hrules_req.
  { intros v known Hknown. destruct (Hreq v) as (s' & Heq & _ & Hr).
    rewrite Hknown in Heq. by injection Heq as <-. }
  assert (∀ v known, setValue v letters_area = Ok tt known → validity_rules known)
    as Hrules_let.
  { intros v known Hknown. destruct (Hlet v) as (s' & Heq & _ & Hr).
    rewrite Hknown in Heq. by injection Heq as <-. }
  assert (setValue "  " required_area = Ok tt required_blank) as H1
    by (vm_compute; reflexivity).
  assert (setValue "A1" letters_area = Ok tt letters_A1) as H2
    by (vm_compute; reflexivity).
  assert (setValue "AB1" letters_area = Ok tt letters_AB1) as H3
    by (vm_compute; reflexivity).
  assert (setValue "abc" letters_area = Ok tt letters_abc) as H4
    by (vm_compute; reflexivity).
  split; [|split; [|split]].
  - split; [exact H1|]. split; [exact (Hrules_req _ _ H1)|].
    split; vm_compute; reflexivity.
  - split; [exact H2|]. split; [exact (Hrules_let _ _ H2)|].
    split; vm_compute; reflexivity.
  - split; [exact H3|]. split; [exact (Hrules_let _ _ H3)|].
    split; vm_compute; reflexivity.
  - split; [exact H4|]. split; [exact (Hrules_let _ _ H4)|].
    split; vm_compute; reflexivity.
Defined.

(** C2 as stated fails on a required area that holds only blanks: the
    value is not empty, no minimum length or pattern is set, so the
    stated rules find it valid; the code trims the value before the
    required test and shows the required message. *)
Lemma C2_counterexample_blank_value :
  setValue "  " required_area = Ok tt required_blank
  ∧ Stated.validity (t_required (textarea required_blank))
      (t_minLength (textarea required_blank))
      (getAttribute required_blank "pattern")
      (getAttribute required_blank "validation-message")
      (_value required_blank)
    = (true, "")
  ∧ (isValid required_blank, v_text (validationMessage required_blank))
    = (false, "This field is required")
  ∧ (isValid required_blank, v_text (validationMessage required_blank))
    ≠ Stated.validity (t_required (textarea required_blank))
        (t_minLength (textarea required_blank))
        (getAttribute required_blank "pattern")
        (getAttribute required_blank "validation-message")
        (_value required_blank).
Proof.
  split; [vm_compute; reflexivity|].
  split; [vm_compute; reflexivity|]. split; [vm_compute; reflexivity|].
  vm_compute. discriminate.
Qed.

(** A [rows] attribute that is a word leaves two rows, and validation
    returns on an area whose pattern the engine accepts. *)
Lemma C7_malformed_configuration_witness :
  attributeChangedCallback "rows" None (Some "many") letters_area
  = Ok tt letters_rows
  ∧ t_rows (textarea letters_rows) = 2%Z
  ∧ ∃ s', updateValidation letters_area = Ok tt s' ∧ validity_rules s'.
Proof.
  destruct (C7_malformed_configuration letters_area None (Some "many"))
    as ((s' & Heq & Hrows) & _ & Hret & _).
  assert (attributeChangedCallback "rows" None (Some "many") letters_area
          = Ok tt letters_rows) as Hknown by (vm_compute; reflexivity).
  rewrite Hknown in Heq. injection Heq as <-.
  split; [exact Hknown|]. split.
  - destruct (Hrows ltac:(discriminate)) as (_ & _ & Hnan).
    apply (Hnan "many"); [reflexivity|discriminate|reflexivity].
  - exact (Hret letters_area_pattern_ok).
Defined.

(** C7 as stated fails on the pattern ["("]: the engine rejects it, and
    validation of a non-empty value throws [SyntaxError] instead of
    showing a validity, in [updateValidation] itself, out of [setValue],
    and under a keystroke, where the host reports it. *)
Lemma C7_counterexample_malformed_pattern :
  getAttribute broken_a "pattern" = Some "("
  ∧ RegExp_new "(" = None
  ∧ updateValidation broken_a = Throw SyntaxError broken_a
  ∧ returns (setValue "a" broken_area) = false
  ∧ user_types "a" broken_area = Ok tt broken_typed
  ∧ reported broken_typed = [SyntaxError].
Proof. repeat split; vm_compute; reflexivity. Qed.



End TexteriaExamples.

(* ===================================================================== *)
(** * The claims that span the widgets                                    *)
(* ===================================================================== *)

Section SharedClaims.
Import Aux.
Context `{Input.Host} `{Input.Control} `{Texteria.RegExpEngine} `{Container.Host}.

Lemma typable_get_value s v : typable s v → Input.get_value s = v.
Proof.
  intros (i & Hi & Hv & _). unfold Input.get_value. rewrite Hi. cbn.
  rewrite <- Hv. apply or_else_self.
Qed.

(** C3, as the code has it.  A key pressed in the single-line input
    (connected, enabled, writable, of the type its attribute asks for)
    that the control refuses changes nothing; a key it takes dispatches
    one [input] event with the value the control then reads, which is
    also left in the [value] attribute.  So typing a text that the
    control takes as it is typed dispatches one [input] event per
    character, each with the control's text at that point, and leaves
    the whole text in the control and, once a character is typed, in
    the [value] attribute.  Typing it into the text area (enabled, the
    text within [maxLength] and free of carriage returns) does the same
    with [texteria-input] events, and also leaves the text in [_value],
    provided the engine accepts the pattern attribute: every keystroke
    then returns and nothing is reported. *)
Theorem C3_typed_text (text : string) :
  (∀ (s : Input.State) (v : string),
     typable s v → taken_as_typed text s →
     Input.events (Input.user_types text s)
     = (Input.events s ++ input_events v text)%list
     ∧ Input.get_value (Input.user_types text s) = v +:+ text
     ∧ (text ≠ "" →
        Input.getAttribute (Input.user_types text s) "value"
        = Some (v +:+ text)))
  ∧ (∀ (s : Input.State) (v : string) i c,
       typable s v → Input.inputElement s = Some i →
       match Input.keystroke i c with
       | None => Input.user_type c s = s
       | Some v' =>
           Input.events (Input.user_type c s)
           = (Input.events s ++ [input_event v'])%list
           ∧ Input.get_value (Input.user_type c s) = v'
           ∧ Input.getAttribute (Input.user_type c s) "value" = Some v'
       end)
  ∧ (∀ (s : Texteria.State) (v : string),
       pattern_ok s →
       Texteria.t_value (Texteria.textarea s) = v →
       Texteria.t_disabled (Texteria.textarea s) = false →
       no_CR v = true → no_CR text = true →
       (Texteria.t_maxLength (Texteria.textarea s) < 0
        ∨ Z.of_nat (String.length v + String.length text)
          ≤ Texteria.t_maxLength (Texteria.textarea s))%Z →
       ∃ s', Texteria.user_types text s = Texteria.Ok tt s'
             ∧ Texteria.t_value (Texteria.textarea s') = v +:+ text
             ∧ (text ≠ "" →
                Texteria._value s' = v +:+ text
                ∧ Texteria.getAttribute s' "value" = Some (v +:+ text))
             ∧ Texteria.events s'
               = (Texteria.events s ++ texteria_events v text)%list
             ∧ Texteria.reported s' = Texteria.reported s).
Proof.
  split; [|split].
  - intros s v Ht Htaken.
    destruct (user_types_typable text s v Ht Htaken) as (Ht' & He & Ha).
    split; [exact He|]. split; [by apply typable_get_value|exact Ha].
  - intros s v i c Ht Hi. destruct (Input.keystroke i c) as [v'|] eqn:Hk.
    + destruct (user_type_typable s v i c v' Ht Hi Hk) as (Ht' & He & Ha).
      split; [exact He|]. split; [by apply typable_get_value|exact Ha].
    + by apply (user_type_refused s i c).
  - intros s v Hp Hv Hd Hcv Hct Hmax.
    destruct (user_types_returns text s v Hp Hv Hd Hcv Hct Hmax)
      as (s' & Hs' & Htv & Hne & He & Hr).
    exists s'. split; [done|]. split; [done|]. split; [|done].
    intros Ht. by destruct (Hne Ht) as (? & ? & _).
Qed.



(** C4, as the code has it.  For the button, the input and the text
    area a callback whose old and new value are the same returns at
    once and changes nothing.  The container's callback takes no
    argument and runs [sync] every time; [sync] leaves the attributes
    and the style of an element it has synchronised as they are. *)
Theorem C4_unchanged_attribute (name : string) (v : option string) :
  (∀ s : Button.State, Button.attributeChangedCallback s name v v = s)
  ∧ (∀ s : Input.State, Input.attributeChangedCallback s name v v = s)
  ∧ (∀ s : Texteria.State,
       Texteria.attributeChangedCallback name v v s = Texteria.Ok tt s)
  ∧ (∀ s : Container.State,
       Container.attributeChangedCallback s name v v = Container.sync s
       ∧ rendered (Container.attributeChangedCallback (Container.sync s) name v v)
         = rendered (Container.sync s)).
Proof.
  split; [|split; [|split]].
  - intros s. apply button_unchanged_attribute.
  - intros s. apply input_unchanged_attribute.
  - intros s. apply unchanged_attribute.
  - intros s. split; [reflexivity|]. apply sync_idempotent.
Qed.

Lemma setAttribute_value_returns (s : Texteria.State) v :
  pattern_ok s → Texteria.isUserTyping s = false →
  Texteria.getAttribute s "value" ≠ Some v →
  ∃ s', Texteria.setAttribute "value" v s = Texteria.Ok tt s'
        ∧ Texteria._value s' = v
        ∧ Texteria.t_value (Texteria.textarea s') = Texteria.normalize_newlines v
        ∧ Texteria.getAttribute s' "value" = Some v
        ∧ Texteria.t_disabled (Texteria.textarea s')
          = Texteria.t_disabled (Texteria.textarea s)
        ∧ Texteria.events s' = Texteria.events s
        ∧ counter_synced s' ∧ validity_synced s'.
Proof.
  intros Hp Hty Hne. unfold Texteria.setAttribute, Texteria.reporting.
  rewrite value_observed_t.
  set (s0 := Texteria.with_attrs _ s).
  destruct (value_callback s0 (Texteria.getAttribute s "value") (Some v))
    as (s' & -> & Hv & Htv & Ha & Htd & He & _ & Hcs & Hvs); [done|done|..].
  { eapply pattern_ok_ext; [|exact Hp]. subst s0.
    cbn [Texteria.with_attrs Texteria.attrs]. by rewrite lookup_insert_ne. }
  exists s'. split; [done|]. rewrite or_else_self in Hv, Htv.
  unfold Texteria.getAttribute. rewrite Ha. subst s0.
  cbn [Texteria.with_attrs Texteria.attrs]. rewrite lookup_insert_eq. done.
Qed.

(** The checks of [updateValidation] do not look at the calls
    forwarded to the textarea. *)
Lemma check_record_call c (s : Texteria.State) :
  Texteria.check (Texteria.record_call c s)
  = match Texteria.check s with
    | Texteria.Ok r _ => Texteria.Ok r (Texteria.record_call c s)
    | Texteria.Throw e _ => Texteria.Throw e (Texteria.record_call c s)
    end.
Proof.
  unfold Texteria.check, Texteria.getAttribute, Texteria.value_length.
  cbn [Texteria.record_call Texteria.attrs Texteria._value Texteria.textarea].
  repeat match goal with
         | |- context [if ?b then _ else _] => destruct b
         | |- context [match Texteria.RegExp_new ?p with _ => _ end] =>
             destruct (Texteria.RegExp_new p)
         end; reflexivity.
Qed.

(** The blur listener: the mark is taken away, the validity is computed
    on that state, and the event is dispatched if that returned. *)
Lemma on_blur_unfold (s : Texteria.State) :
  let s1 := Texteria.with_container (Texteria.container s ∖ {[ "focused" ]}) s in
  Texteria.on_blur s
  = match Texteria.check s1 with
    | Texteria.Ok r _ =>
        let s2 := Texteria.show_validity (fst r) (snd r) s1 in
        Texteria.Ok tt
          (Texteria.dispatchEvent (Texteria.custom_event "texteria-blur" s2) s2)
    | Texteria.Throw e _ => Texteria.Throw e s1
    end.
Proof.
  intros s1. unfold Texteria.on_blur. run. fold s1.
  rewrite updateValidation_unfold.
  destruct (check_cases s1) as [[r ->]| ->]; reflexivity.
Qed.

(** The blur listener run by the host, before and after the call is
    recorded: the mark is taken away, the value stays, and with an
    accepted pattern the validity is shown and [texteria-blur]
    dispatched. *)
Lemma on_blur_reported (s : Texteria.State) :
  ∃ s', Texteria.reporting Texteria.on_blur s = Texteria.Ok tt s'
        ∧ Texteria.reporting Texteria.on_blur
            (Texteria.record_call Texteria.NativeBlur s)
          = Texteria.Ok tt (Texteria.record_call Texteria.NativeBlur s')
        ∧ Texteria.container s' = Texteria.container s ∖ {[ "focused" ]}
        ∧ Texteria._value s' = Texteria._value s
        ∧ (pattern_ok s →
           validity_rules s'
           ∧ Texteria.events s'
             = (Texteria.events s
                ++ [ Texteria.custom_event "texteria-blur" s ])%list
           ∧ Texteria.reported s' = Texteria.reported s).
Proof.
  unfold Texteria.reporting.
  rewrite !on_blur_unfold. cbv zeta.
  change (Texteria.with_container
            (Texteria.container (Texteria.record_call Texteria.NativeBlur s)
             ∖ {[ "focused" ]}) (Texteria.record_call Texteria.NativeBlur s))
    with (Texteria.record_call Texteria.NativeBlur
            (Texteria.with_container (Texteria.container s ∖ {[ "focused" ]}) s)).
  rewrite check_record_call.
  set (s1 := Texteria.with_container (Texteria.container s ∖ {[ "focused" ]}) s).
  destruct (Texteria.check s1) as [r s0|e s0] eqn:Hc.
  - eexists. split; [reflexivity|]. split; [reflexivity|].
    destruct (show_validity_textarea (fst r) (snd r) s1) as (cl & a & Ht).
    split; [reflexivity|]. split; [reflexivity|]. intros _.
    destruct (check_cases s1) as [[r' Hc']|Hc']; rewrite Hc' in Hc; [|done].
    injection Hc as <- <-.
    pose proof (validity_synced_show s1 r' Hc') as Hvs.
    split; [|split; reflexivity].
    apply validity_rules_of_synced.
    eapply validity_synced_ext; [..|exact Hvs]; reflexivity.
  - eexists. split; [reflexivity|]. split; [reflexivity|].
    split; [reflexivity|]. split; [reflexivity|]. intros Hp.
    destruct (check_returns s1) as [r Hr]; [|by rewrite Hr in Hc].
    eapply pattern_ok_ext; [|exact Hp]. done.
Qed.

(** C5, as the code has it.  The button's [click()] carries the guard
    of the click handler: with [disabled] or [loading] present it does
    nothing at all.  The button's [focus()] and [blur()] forward to the
    inner button, which has no listener for them.  The text area's
    [setValue] looks at no attribute: it writes the text to [_value],
    to the textarea and to the [value] attribute and recomputes counter
    and validity, which is the state a change of the [value] attribute
    to that text leaves; [clear] is [setValue] of the empty text.  Its
    [focus()] and [blur()] forward to the textarea and test no
    attribute either; when the host moves the focus (it moves none to a
    disabled textarea), the listener runs before the call returns and
    the element is as after a user's change of focus: on focus the
    container is marked [focused] and [texteria-focus] is dispatched,
    on blur [texteria-change] is dispatched first when the textarea has
    an edit to commit, the mark is taken away, the validity is computed
    again and [texteria-blur] is dispatched.  The input's [focus()] and
    [blur()] likewise run the registered handlers, which dispatch
    [focus], or [change] when there is an edit to commit and [blur],
    with the control's text. *)
Theorem C5_public_api :
  (∀ s : Button.State,
     Button.hasAttribute s "disabled" || Button.hasAttribute s "loading" = true →
     Button.click s = s)
  ∧ (∀ (s : Button.State) b,
       Button.button s = Some b →
       Button.focus s = Button.record_call Button.NativeFocus s
       ∧ Button.blur s = Button.record_call Button.NativeBlur s)
  ∧ (∀ (s : Texteria.State) v,
       pattern_ok s →
       (∃ s', Texteria.setValue v s = Texteria.Ok tt s' ∧ value_set v s s')
       ∧ (Texteria.isUserTyping s = false →
          Texteria.getAttribute s "value" ≠ Some v →
          ∃ s', Texteria.setAttribute "value" v s = Texteria.Ok tt s'
                ∧ value_set v s s'))
  ∧ (∀ s : Texteria.State, Texteria.clear s = Texteria.setValue "" s)
  ∧ (∀ (s : Texteria.State) (moves : bool),
       if moves && negb (Texteria.t_disabled (Texteria.textarea s)) then
         ∃ s', Texteria.reporting Texteria.on_focus s = Texteria.Ok tt s'
               ∧ Texteria.focus moves s
                 = Texteria.Ok tt (Texteria.record_call Texteria.NativeFocus s')
               ∧ Texteria.container s' = {[ "focused" ]} ∪ Texteria.container s
               ∧ Texteria.events s'
                 = (Texteria.events s
                    ++ [ Texteria.custom_event "texteria-focus" s ])%list
       else
         Texteria.focus moves s
         = Texteria.Ok tt (Texteria.record_call Texteria.NativeFocus s))
  ∧ (∀ (s : Texteria.State) (commits : bool),
       Texteria.blur false commits s
       = Texteria.Ok tt (Texteria.record_call Texteria.NativeBlur s)
       ∧ ∃ s1 s',
           (if commits then Texteria.reporting Texteria.on_change s
            else Texteria.Ok tt s) = Texteria.Ok tt s1
           ∧ Texteria.reporting Texteria.on_blur s1 = Texteria.Ok tt s'
           ∧ Texteria.blur true commits s
             = Texteria.Ok tt (Texteria.record_call Texteria.NativeBlur s')
           ∧ Texteria.container s' = Texteria.container s ∖ {[ "focused" ]}
           ∧ Texteria._value s' = Texteria._value s
           ∧ (pattern_ok s →
              validity_rules s'
              ∧ Texteria.events s'
                = (Texteria.events s
                   ++ (if commits
                       then [ Texteria.custom_event "texteria-change" s ]
                       else [])
                   ++ [ Texteria.custom_event "texteria-blur" s ])%list
              ∧ Texteria.reported s' = Texteria.reported s))
  ∧ (∀ (s : Input.State) i (moves commits : bool),
       Input.inputElement s = Some i →
       let event type :=
         {| Input.ev_type := type; Input.bubbles := true; Input.composed := true;
            Input.detail_value := Input.i_value i;
            Input.detail_inputType := None |} in
       Input.calls (Input.focus moves s) = (Input.calls s ++ [Input.NativeFocus])%list
       ∧ Input.events (Input.focus moves s)
         = (if moves && negb (Input.i_disabled i) && Input.i_listening i
            then Input.events s ++ [ event "focus" ] else Input.events s)%list
       ∧ Input.calls (Input.blur moves commits s)
         = (Input.calls s ++ [Input.NativeBlur])%list
       ∧ Input.events (Input.blur moves commits s)
         = (if moves && Input.i_listening i
            then Input.events s
                 ++ (if commits then [ event "change" ] else [])
                 ++ [ event "blur" ]
            else Input.events s)%list).
Proof.
  split; [|split; [|split; [|split; [|split; [|split]]]]].
  - apply click_suppressed.
  - intros s b Hb. split; [by eapply focus_forwards|by eapply blur_forwards].
  - intros s v Hp. split.
    + destruct (setValue_returns s v Hp)
        as (s' & Hs' & Hv & Htv & Ha & Htd & He & Hcs & Hvs).
      exists s'. split; [done|]. unfold value_set.
      do 5 (split; [done|]).
      split; [by apply counter_rules_of_synced|by apply validity_rules_of_synced].
    + intros Hty Hne.
      destruct (setAttribute_value_returns s v Hp Hty Hne)
        as (s' & Hs' & Hv & Htv & Ha & Htd & He & Hcs & Hvs).
      exists s'. split; [done|]. unfold value_set.
      do 5 (split; [done|]).
      split; [by apply counter_rules_of_synced|by apply validity_rules_of_synced].
  - done.
  - intros s moves. unfold Texteria.focus. run.
    cbn [Texteria.record_call Texteria.textarea].
    destruct (moves && negb (Texteria.t_disabled (Texteria.textarea s))).
    + eexists. split; [reflexivity|]. split; [reflexivity|]. done.
    + reflexivity.
  - intros s commits. split; [reflexivity|].
    set (s1 := if commits
               then Texteria.dispatchEvent
                      (Texteria.custom_event "texteria-change" s) s
               else s).
    destruct (on_blur_reported s1) as (s' & Hs' & Hcall & Hc & Hv & Hrest).
    exists s1, s'. split; [by destruct commits|]. split; [exact Hs'|].
    split; [|split; [|split]].
    + rewrite <- Hcall. unfold Texteria.blur, s1. by destruct commits.
    + rewrite Hc. unfold s1. by destruct commits.
    + rewrite Hv. unfold s1. by destruct commits.
    + intros Hp. destruct Hrest as (Hr & He & Hrep).
      { eapply pattern_ok_ext; [|exact Hp]. unfold s1. by destruct commits. }
      split; [exact Hr|]. rewrite He, Hrep. unfold s1.
      destruct commits; [|done]. split; [|done].
      cbn [Texteria.dispatchEvent Texteria.events]. by rewrite <- app_assoc.
  - intros s i moves commits Hi event. unfold Input.focus, Input.blur. rewrite Hi.
    destruct (moves && negb (Input.i_disabled i) && Input.i_listening i),
      (moves && Input.i_listening i), commits;
      unfold Input.handleFocus, Input.handleBlur, Input.handleChange,
        Input.target_value;
      cbn [Input.record_call Input.dispatchEvent Input.inputElement
           Input.events Input.calls]; rewrite ?Hi, <- ?app_assoc; done.
Qed.

End SharedClaims.

Section SharedExamples.
Import Aux Examples MiniRegExp MiniHost MiniStyle.

Lemma input_connected_typable : typable input_connected "".
Proof. eexists. repeat split; vm_compute; reflexivity. Defined.

Lemma input_connected_takes_hi : taken_as_typed "hi" input_connected.
Proof.
  cbn [taken_as_typed]. split; [|split; [|exact I]].
  - eexists. split; vm_compute; reflexivity.
  - eexists. split; vm_compute; reflexivity.
Defined.

(** "hi" typed into a connected input, "abc" typed into the text area
    that asks for lower-case letters. *)
Lemma C3_typed_text_witness :
  Input.events (Input.user_types "hi" input_connected)
  = [ input_event "h"; input_event "hi" ]
  ∧ Input.getAttribute (Input.user_types "hi" input_connected) "value" = Some "hi"
  ∧ Texteria.user_types "abc" letters_area = Texteria.Ok tt letters_typed
  ∧ Texteria.getAttribute letters_typed "value" = Some "abc"
  ∧ Texteria.detail_value <$> Texteria.events letters_typed = [ "a"; "ab"; "abc" ].
Proof.
  destruct (C3_typed_text "hi") as (Hin & _).
  destruct (C3_typed_text "abc") as (_ & _ & Harea).
  destruct (Hin input_connected "" input_connected_typable
              input_connected_takes_hi) as (He & _ & Ha).
  destruct (Harea letters_area "" letters_area_pattern_ok)
    as (s' & Heq & _ & Hval & Hev & _);
    [vm_compute; reflexivity..|left; vm_compute; reflexivity|].
  assert (Texteria.user_types "abc" letters_area = Texteria.Ok tt letters_typed)
    as Hknown by (vm_compute; reflexivity).
  rewrite Hknown in Heq. injection Heq as <-.
  split; [exact He|]. split; [apply Ha; discriminate|].
  split; [exact Hknown|]. split.
  - apply Hval. discriminate.
  - rewrite Hev. vm_compute. reflexivity.
Defined.

(** C3 as stated fails on a text area whose pattern the engine rejects:
    the keystroke "a" reaches [_value] and the [value] attribute, but
    validation throws before the listener dispatches, so no
    input event follows the keystroke, and the typing flag stays set. *)
Lemma C3_counterexample_rejected_pattern :
  Texteria.user_types "a" broken_area = Texteria.Ok tt broken_typed
  ∧ Texteria._value broken_typed = "a"
  ∧ Texteria.getAttribute broken_typed "value" = Some "a"
  ∧ Texteria.events broken_typed = []
  ∧ Texteria.reported broken_typed = [Texteria.SyntaxError]
  ∧ Texteria.isUserTyping broken_typed = true.
Proof. repeat split; vm_compute; reflexivity. Qed.




(** C4 as stated is witnessed in the container section
    ([C4_counterexample_container]); the callbacks of the other three
    widgets return at once. *)

(** A disabled button: [click()] returns the element unchanged. *)
Lemma C5_public_api_witness :
  Button.click button_disabled = button_disabled
  ∧ ∃ s', Texteria.setValue "hello" area_disabled = Texteria.Ok tt s'
          ∧ value_set "hello" area_disabled s'
          ∧ Texteria.t_disabled (Texteria.textarea s') = true.
Proof.
  destruct C5_public_api as (Hclick & _ & Hset & _).
  split; [apply Hclick; vm_compute; reflexivity|].
  destruct (Hset area_disabled "hello") as [(s' & Heq & Hvs) _].
  { intros p Hp. vm_compute in Hp. discriminate Hp. }
  exists s'. split; [exact Heq|]. split; [exact Hvs|].
  destruct Hvs as (_ & _ & _ & -> & _). vm_compute. reflexivity.
Defined.

(** C5 as stated fails for the button: with the click handler in place,
    [click()] dispatches [button-click]; once [disabled] is present it
    dispatches nothing and changes nothing. *)
Lemma C5_counterexample_click_blocked :
  Button.ev_type <$> Button.events (Button.click button_listening)
  = [ "button-click" ]
  ∧ Button.hasAttribute button_disabled "disabled" = true
  ∧ Button.click button_disabled = button_disabled
  ∧ Button.events (Button.click button_disabled) = [].
Proof. repeat split; vm_compute; reflexivity. Qed.

End SharedExamples.

(* ===================================================================== *)
(** * Further properties: layout container                                *)
(* ===================================================================== *)

Section ContainerValues.
Import Container Aux.

Lemma all_digits_px v : JS.all_digits (v +:+ "px") = false.
Proof.
  induction v as [|c v IH]; [reflexivity|].
  rewrite append_cons. cbn [JS.all_digits]. rewrite IH. apply andb_false_r.
Qed.

Lemma digits_only_px v : JS.digits_only (v +:+ "px") = false.
Proof.
  destruct v as [|c v]; [reflexivity|].
  rewrite append_cons. unfold JS.digits_only. rewrite <- append_cons.
  apply all_digits_px.
Qed.

Lemma append_nonempty v w : v ≠ "" → v +:+ w ≠ "".
Proof. destruct v; [done|]. by rewrite append_cons. Qed.

Lemma normalizeUnit_nonempty v : normalizeUnit v ≠ "".
Proof.
  destruct v as [v|]; [|done]. unfold normalizeUnit.
  case_decide; [done|]. destruct (JS.digits_only v); [|done].
  by apply append_nonempty.
Qed.

Lemma or_else_nonempty x d : d ≠ "" → JS.or_else x d ≠ "".
Proof. intros Hd. destruct x as [v|]; [|done]. cbn. by case_decide. Qed.

(** X1.  [normalizeUnit] is idempotent, and never yields the empty
    text: a missing or empty value becomes ['auto'], digits get [px]
    once, and anything else passes as it is. *)
Theorem normalizeUnit_idempotent (v : option string) :
  normalizeUnit (Some (normalizeUnit v)) = normalizeUnit v
  ∧ normalizeUnit v ≠ "".
Proof.
  destruct v as [v|]; [|done].
  destruct (decide (v = "")) as [->|Hne]; [done|].
  assert (normalizeUnit (Some v) = if JS.digits_only v then v +:+ "px" else v)
    as -> by (unfold normalizeUnit; by rewrite decide_False).
  destruct (JS.digits_only v) eqn:Hd.
  - split; [|by apply append_nonempty].
    unfold normalizeUnit. rewrite decide_False by (by apply append_nonempty).
    by rewrite digits_only_px.
  - split; [|done]. unfold normalizeUnit. by rewrite decide_False, Hd.
Qed.


(** X2.  [mapAlign] and [mapJustify] hand the style object a keyword of the
    property they serve, whatever the attribute holds: [start] and [end]
    become [flex-start] and [flex-end], the property's other keywords
    pass, and anything else, a missing attribute included, becomes the
    default ([stretch], [flex-start]). *)
Theorem map_keywords (value : option string) :
  mapAlign value ∈ [ "flex-start"; "flex-end"; "center"; "stretch"; "baseline" ]
  ∧ mapJustify value
    ∈ [ "flex-start"; "flex-end"; "center"; "space-between"; "space-around";
        "space-evenly" ]
  ∧ (value ∉ [ Some "start"; Some "end"; Some "center"; Some "stretch";
               Some "baseline" ] → mapAlign value = "stretch")
  ∧ (value ∉ [ Some "start"; Some "end"; Some "center"; Some "space-between";
               Some "space-around"; Some "space-evenly" ] →
     mapJustify value = "flex-start").
Proof.
  destruct value as [v|].
  2: { repeat split; try (intros _; reflexivity); set_solver. }
  destruct (decide (v = "start")) as [->|Hs].
  { repeat split; try set_solver. }
  destruct (decide (v = "end")) as [->|He].
  { repeat split; try set_solver. }
  rewrite (mapAlign_other v Hs He), (mapJustify_other v Hs He).
  split; [|split; [|split]].
  - repeat case_bool_decide; subst; cbn [orb]; set_solver.
  - repeat case_bool_decide; subst; cbn [orb]; set_solver.
  - intros Hn. repeat case_bool_decide; subst; cbn [orb]; try done; set_solver.
  - intros Hn. repeat case_bool_decide; subst; cbn [orb]; try done; set_solver.
Qed.

End ContainerValues.

Section ContainerSync.
Import Container Aux Derived.
Context `{Host}.

Lemma layout_accepted_cases l :
  layout_rejected l = false →
  l = Some "block" ∨ l = Some "flex" ∨ l = Some "grid".
Proof.
  unfold layout_rejected. intros Hl.
  apply orb_false_elim in Hl as [_ Hl].
  repeat case_bool_decide; auto; done.
Qed.

Lemma attrs_sync s :
  is_Some (container s) →
  attrs (sync s)
  = if layout_rejected (attrs s !! "layout")
    then delete "layout" (attrs s) else attrs s.
Proof.
  intros Hc. rewrite (sync_with_container s Hc), attrs_sync_rest.
  destruct (layout_rejected (attrs s !! "layout")) eqn:Hrej.
  - destruct (attrs s !! "layout") as [l|] eqn:Hl.
    + rewrite (applyLayout_present s l Hl Hrej). by rewrite attrs_sync_rest.
    + rewrite (applyLayout_absent s Hl). cbn [log attrs].
      symmetry. by apply delete_id.
  - by rewrite (applyLayout_accepted s Hrej).
Qed.

Lemma written_idem k ws d : written k ws (written k ws d) = written k ws d.
Proof. destruct (written_shape k ws) as [E|[c E]]; by rewrite !E. Qed.

(** The inline style [sync] leaves: at every property, what the writes
    for the sanitised attributes leave of what was there. *)
Lemma sync_style s st :
  container s = Some st →
  ∃ st', container (sync s) = Some st'
         ∧ ∀ k, st' !! k = written k (style_writes (attrs (sync s))) (st !! k).
Proof.
  intros Hc. assert (is_Some (container s)) as Hsome by (by rewrite Hc).
  rewrite (attrs_sync s Hsome). rewrite (sync_with_container s Hsome).
  rewrite container_sync_rest.
  destruct (layout_rejected (attrs s !! "layout")) eqn:Hrej.
  - destruct (attrs s !! "layout") as [l|] eqn:Hl.
    + rewrite (applyLayout_present s l Hl Hrej).
      rewrite attrs_sync_rest, container_sync_rest. cbn [log attrs container].
      rewrite Hc. cbn [fmap option_fmap option_map].
      eexists. split; [reflexivity|]. intros k.
      by rewrite !lookup_apply_writes, written_idem.
    + rewrite (applyLayout_absent s Hl). cbn [log attrs container].
      rewrite Hc. cbn [fmap option_fmap option_map].
      eexists. split; [reflexivity|]. intros k.
      rewrite lookup_apply_writes. by rewrite delete_id.
  - rewrite (applyLayout_accepted s Hrej), Hc. cbn [fmap option_fmap option_map].
    eexists. split; [reflexivity|]. intros k. by rewrite lookup_apply_writes.
Qed.

Lemma written_custom a d :
  let w k attr := written k (style_writes a) d
                  = declared k (normalizeUnit (a !! attr)) d in
  w "--gap" "gap" ∧ w "--margin" "margin" ∧ w "--width" "width"
  ∧ w "--height" "height" ∧ w "--max-width" "max-width".
Proof.
  cbv zeta. unfold style_writes. rewrite !written_app.
  rewrite !written_var, !written_padding by done.
  assert (∀ k, k ≠ "--grid-template-columns" →
            written k (if decide (a !! "layout" = Some "grid")
                       then declare_writes "--grid-template-columns" (grid_text a)
                       else [ ("--grid-template-columns", None) ]) d = d)
    as Hgrid.
  { intros k Hk. case_decide.
    - rewrite written_declare. by rewrite decide_False.
    - cbn. by rewrite decide_False. }
  assert (∀ k, k ≠ "flex-direction" → k ≠ "align-items" → k ≠ "justify-content" →
            written k
              (if decide (a !! "layout" = Some "flex") then
                 declare_writes "flex-direction" (JS.or_else (a !! "direction") "row")
                 ++ declare_writes "align-items" (mapAlign (a !! "align"))
                 ++ declare_writes "justify-content" (mapJustify (a !! "justify"))
               else []) d = d) as Hflex.
  { intros k H1 H2 H3.
    destruct (decide (a !! "layout" = Some "flex")); [|reflexivity].
    rewrite !written_app, !written_declare.
    by rewrite !decide_False by (intros <-; done). }
  rewrite !Hflex, !Hgrid by done.
  unfold declared, stored.
  repeat split;
    repeat first [ rewrite decide_True by done | rewrite decide_False by done ];
    reflexivity.
Qed.

Lemma written_flex a d :
  let w k v := written k (style_writes a) d
               = if decide (a !! "layout" = Some "flex") then stored k v d else d in
  w "flex-direction" (JS.or_else (a !! "direction") "row")
  ∧ w "align-items" (mapAlign (a !! "align"))
  ∧ w "justify-content" (mapJustify (a !! "justify")).
Proof.
  cbv zeta. unfold style_writes. rewrite !written_app.
  rewrite !written_var, !written_padding by done.
  rewrite !decide_False by done.
  assert (∀ k d', k ≠ "--grid-template-columns" →
            written k (if decide (a !! "layout" = Some "grid")
                       then declare_writes "--grid-template-columns" (grid_text a)
                       else [ ("--grid-template-columns", None) ]) d' = d')
    as Hgrid.
  { intros k d' Hk. case_decide.
    - rewrite written_declare. by rewrite decide_False.
    - cbn. by rewrite decide_False. }
  rewrite !Hgrid by done.
  destruct (decide (a !! "layout" = Some "flex")); [|done].
  rewrite !written_app, !written_declare. unfold stored.
  repeat split;
    repeat first [ rewrite decide_True by done | rewrite decide_False by done ];
    reflexivity.
Qed.

Lemma lookup_sanitised (a : gmap string string) k :
  k ≠ "layout" →
  (if layout_rejected (a !! "layout") then delete "layout" a else a) !! k = a !! k.
Proof. intros Hk. destruct (layout_rejected _); [by rewrite lookup_delete_ne|done]. Qed.

Lemma layout_sanitised (a : gmap string string) :
  (if layout_rejected (a !! "layout") then delete "layout" a else a) !! "layout"
  = if layout_rejected (a !! "layout") then None else a !! "layout".
Proof. destruct (layout_rejected _); [by rewrite lookup_delete_eq|done]. Qed.

(** X3.  [sync] sanitises the [layout] attribute and nothing else: a value
    other than [block], [flex] and [grid] (the empty one included) is
    removed from the element, and every other attribute is as it was. *)
Theorem sync_layout (s : State) :
  is_Some (container s) →
  getAttribute (sync s) "layout"
  = (if layout_rejected (getAttribute s "layout") then None
     else getAttribute s "layout")
  ∧ getAttribute (sync s) "layout"
    ∈ [ None; Some "block"; Some "flex"; Some "grid" ]
  ∧ ∀ name, name ≠ "layout" → getAttribute (sync s) name = getAttribute s name.
Proof.
  intros Hc. unfold getAttribute. rewrite (attrs_sync s Hc).
  split; [apply layout_sanitised|]. split; [|intros; by apply lookup_sanitised].
  rewrite layout_sanitised.
  destruct (layout_rejected _) eqn:Hrej; [set_solver|].
  destruct (layout_accepted_cases _ Hrej) as [->|[->| ->]]; set_solver.
Qed.

(** X4.  In [sync] the custom properties of [gap], [margin], [width],
    [height] and [max-width] are handed the normalised value of their
    attribute: a missing or empty attribute removes the property, a
    value of digits gets [px], and the property then holds what the
    style object's parser made of the value, or what it held before
    when the parser refuses the value. *)
Theorem sync_custom_properties (s : State) (st : gmap string string) :
  container s = Some st →
  let after k attr :=
    if decide (normalizeUnit (getAttribute s attr) = "auto") then None
    else match css_parse k (normalizeUnit (getAttribute s attr)) with
         | Some v => Some v
         | None => st !! k
         end in
  ∃ st', container (sync s) = Some st'
    ∧ st' !! "--gap" = after "--gap" "gap"
    ∧ st' !! "--margin" = after "--margin" "margin"
    ∧ st' !! "--width" = after "--width" "width"
    ∧ st' !! "--height" = after "--height" "height"
    ∧ st' !! "--max-width" = after "--max-width" "max-width".
Proof.
  intros Hc after. destruct (sync_style s st Hc) as (st' & Hst' & Hk).
  exists st'. split; [exact Hst'|].
  assert (is_Some (container s)) as Hsome by (by rewrite Hc).
  rewrite !Hk, (attrs_sync s Hsome).
  set (a := if layout_rejected _ then _ else _).
  destruct (written_custom a (st !! "--gap")) as (-> & _).
  destruct (written_custom a (st !! "--margin")) as (_ & -> & _).
  destruct (written_custom a (st !! "--width")) as (_ & _ & -> & _).
  destruct (written_custom a (st !! "--height")) as (_ & _ & _ & -> & _).
  destruct (written_custom a (st !! "--max-width")) as (_ & _ & _ & _ & ->).
  assert (∀ k attr, attr ≠ "layout" →
            declared k (normalizeUnit (a !! attr)) (st !! k) = after k attr) as Hd.
  { intros k attr Hattr. subst a after. cbv beta. unfold getAttribute.
    rewrite lookup_sanitised by done. unfold declared, stored.
    case_decide; [done|].
    rewrite decide_False; [done|]. apply normalizeUnit_nonempty. }
  by rewrite !Hd.
Qed.

Lemma sanitised_is (a : gmap string string) v :
  layout_rejected (Some v) = false →
  (if layout_rejected (a !! "layout") then delete "layout" a else a) !! "layout"
  = Some v ↔ a !! "layout" = Some v.
Proof.
  intros Hv. rewrite layout_sanitised.
  destruct (layout_rejected (a !! "layout")) eqn:Hrej; [|done].
  split; [done|]. intros Ha. rewrite Ha in Hrej. congruence.
Qed.

(** X5.  In flex layout [sync] hands the style object the three flex
    properties: [flexDirection] the [direction] attribute or [row],
    [alignItems] and [justifyContent] the mapped [align] and [justify].
    Each then holds what the style object's parser made of the text,
    or what it held before when the parser refuses the text (as it
    does a direction that is no keyword of the property).  In any other
    layout [sync] does not touch them: what an earlier flex layout
    assigned stays in the inline style. *)
Theorem sync_flex (s : State) (st : gmap string string) :
  container s = Some st →
  let after k text :=
    match css_parse k text with
    | Some v => Some v
    | None => st !! k
    end in
  ∃ st', container (sync s) = Some st'
    ∧ if decide (getAttribute s "layout" = Some "flex") then
        st' !! "flex-direction"
        = after "flex-direction" (JS.or_else (getAttribute s "direction") "row")
        ∧ st' !! "align-items"
          = after "align-items" (mapAlign (getAttribute s "align"))
        ∧ st' !! "justify-content"
          = after "justify-content" (mapJustify (getAttribute s "justify"))
      else
        st' !! "flex-direction" = st !! "flex-direction"
        ∧ st' !! "align-items" = st !! "align-items"
        ∧ st' !! "justify-content" = st !! "justify-content".
Proof.
  intros Hc after. destruct (sync_style s st Hc) as (st' & Hst' & Hk).
  exists st'. split; [exact Hst'|].
  assert (is_Some (container s)) as Hsome by (by rewrite Hc).
  rewrite !Hk, (attrs_sync s Hsome). unfold getAttribute.
  set (a := if layout_rejected _ then _ else _).
  destruct (written_flex a (st !! "flex-direction")) as (-> & _).
  destruct (written_flex a (st !! "align-items")) as (_ & -> & _).
  destruct (written_flex a (st !! "justify-content")) as (_ & _ & ->).
  assert (a !! "layout" = Some "flex" ↔ attrs s !! "layout" = Some "flex") as Hl
    by (by apply sanitised_is).
  assert (∀ k, k ≠ "layout" → a !! k = attrs s !! k) as Ha
    by (intros; by apply lookup_sanitised).
  destruct (decide (attrs s !! "layout" = Some "flex")) as [Hf|Hf].
  - rewrite !decide_True by (by apply Hl). rewrite !Ha by done.
    unfold stored, after.
    rewrite decide_False by (by apply or_else_nonempty).
    rewrite decide_False by apply mapAlign_nonempty.
    by rewrite decide_False by apply mapJustify_nonempty.
  - by rewrite !decide_False by (by rewrite Hl).
Qed.

(** X6.  Outside grid layout [sync] removes the grid template from the
    inline style, whatever [columns] and [min-column-width] hold. *)
Theorem sync_not_grid (s : State) (st : gmap string string) :
  container s = Some st →
  getAttribute s "layout" ≠ Some "grid" →
  gridTemplate (sync s) = None.
Proof.
  intros Hc Hl. destruct (sync_style s st Hc) as (st' & Hst' & Hk).
  assert (is_Some (container s)) as Hsome by (by rewrite Hc).
  unfold gridTemplate. rewrite Hst'. cbn [mbind option_bind].
  rewrite Hk, written_grid_template, (attrs_sync s Hsome).
  rewrite decide_False; [reflexivity|].
  rewrite sanitised_is by reflexivity. exact Hl.
Qed.

End ContainerSync.

Section ContainerSyncExamples.
Import Container Aux Derived MoreExamples MiniStyle.

Lemma sync_layout_witness :
  getAttribute (sync fancy) "layout" = None
  ∧ getAttribute (sync fancy) "gap" = Some "8".
Proof.
  destruct (sync_layout fancy) as (Hl & _ & Ho); [by eexists|].
  split; [exact Hl|]. by apply Ho.
Defined.

Lemma sync_custom_properties_witness :
  ∃ st', container (sync fancy) = Some st'
         ∧ st' !! "--gap" = Some "8px" ∧ st' !! "--margin" = None.
Proof.
  destruct (sync_custom_properties fancy _ eq_refl)
    as (st' & Hst' & Hg & Hm & _).
  exists st'. split; [exact Hst'|]. split; [exact Hg|exact Hm].
Defined.

Lemma sync_flex_witness :
  ∃ st', container (sync fancy) = Some st'
         ∧ st' !! "flex-direction" = Some "column".
Proof.
  destruct (sync_flex fancy _ eq_refl) as (st' & Hst' & Hf).
  exists st'. split; [exact Hst'|].
  rewrite decide_False in Hf by (vm_compute; discriminate).
  destruct Hf as (-> & _). reflexivity.
Defined.

Lemma sync_not_grid_witness : gridTemplate (sync fancy) = None.
Proof. apply (sync_not_grid fancy _ eq_refl). vm_compute. discriminate. Defined.

End ContainerSyncExamples.

(* ===================================================================== *)
(** * Further properties: button                                          *)
(* ===================================================================== *)

Section ButtonExtras.
Import Button Aux Derived.

Lemma updateButton_writes s b :
  button s = Some b →
  updateButton s
  = with_button
      (Some {| b_attrs := apply_writes (button_writes (attrs s)) (b_attrs b);
               b_listening := b_listening b |}) s.
Proof.
  intros Hb. unfold updateButton. rewrite Hb.
  unfold button_writes, hasAttribute, getAttribute, apply_writes,
    b_setAttribute, b_removeAttribute.
  cbn [foldl write fst snd].
  destruct (bool_decide (is_Some (attrs s !! "disabled"))),
    (bool_decide (is_Some (attrs s !! "loading"))); reflexivity.
Qed.

Lemma written_button a d :
  let off := bool_decide (is_Some (a !! "disabled"))
             || bool_decide (is_Some (a !! "loading")) in
  let busy := bool_decide (is_Some (a !! "loading")) in
  written "type" (button_writes a) d = Some (JS.or_else (a !! "type") "button")
  ∧ written "disabled" (button_writes a) d = (if off then Some "" else None)
  ∧ written "aria-disabled" (button_writes a) d = Some (JS.show_bool off)
  ∧ written "aria-busy" (button_writes a) d = Some (JS.show_bool busy)
  ∧ written "aria-label" (button_writes a) d
    = Some (JS.or_else (a !! "variant") "primary" +:+ " button"
            +:+ (if busy then ", loading" else "")).
Proof. repeat split; reflexivity. Qed.

Lemma written_button_other a d k :
  k ∉ [ "type"; "disabled"; "aria-disabled"; "aria-busy"; "aria-label" ] →
  written k (button_writes a) d = d.
Proof.
  rewrite !not_elem_of_cons. intros (? & ? & ? & ? & ? & _).
  unfold written, button_writes. cbn [foldl fst snd].
  by rewrite !decide_False by done.
Qed.

Lemma events_updateButton s : events (updateButton s) = events s.
Proof.
  destruct (button s) as [b|] eqn:Hb.
  - by rewrite (updateButton_writes s b Hb).
  - unfold updateButton. by rewrite Hb.
Qed.

Lemma attrs_updateButton s : attrs (updateButton s) = attrs s.
Proof.
  destruct (button s) as [b|] eqn:Hb.
  - by rewrite (updateButton_writes s b Hb).
  - unfold updateButton. by rewrite Hb.
Qed.

(** X7.  [updateButton] makes the inner button mirror the host: [type] with
    its default, [disabled] present exactly when the host has [disabled]
    or [loading], [aria-disabled] and [aria-busy] as the words [true]
    and [false], and an [aria-label] made of the variant.  It leaves the
    button's other attributes and its listener alone, and writes nothing
    on the host. *)
Theorem updateButton_mirrors (s : State) (b : InnerButton) :
  button s = Some b →
  let off := hasAttribute s "disabled" || hasAttribute s "loading" in
  ∃ b', button (updateButton s) = Some b'
    ∧ b_attrs b' !! "type" = Some (JS.or_else (getAttribute s "type") "button")
    ∧ b_attrs b' !! "disabled" = (if off then Some "" else None)
    ∧ b_attrs b' !! "aria-disabled" = Some (JS.show_bool off)
    ∧ b_attrs b' !! "aria-busy" = Some (JS.show_bool (hasAttribute s "loading"))
    ∧ b_attrs b' !! "aria-label"
      = Some (JS.or_else (getAttribute s "variant") "primary" +:+ " button"
              +:+ (if hasAttribute s "loading" then ", loading" else ""))
    ∧ (∀ k, k ∉ [ "type"; "disabled"; "aria-disabled"; "aria-busy"; "aria-label" ] →
            b_attrs b' !! k = b_attrs b !! k)
    ∧ b_listening b' = b_listening b
    ∧ attrs (updateButton s) = attrs s
    ∧ events (updateButton s) = events s.
Proof.
  intros Hb off. rewrite (updateButton_writes s b Hb).
  eexists. split; [reflexivity|]. cbn [b_attrs b_listening with_button attrs events].
  rewrite !lookup_apply_writes.
  destruct (written_button (attrs s) (b_attrs b !! "type")) as (-> & _).
  destruct (written_button (attrs s) (b_attrs b !! "disabled")) as (_ & -> & _).
  destruct (written_button (attrs s) (b_attrs b !! "aria-disabled")) as (_ & _ & -> & _).
  destruct (written_button (attrs s) (b_attrs b !! "aria-busy")) as (_ & _ & _ & -> & _).
  destruct (written_button (attrs s) (b_attrs b !! "aria-label")) as (_ & _ & _ & _ & ->).
  do 5 (split; [reflexivity|]).
  split; [|done]. intros k Hk.
  by rewrite lookup_apply_writes, written_button_other.
Qed.

(** X8.  Running [updateButton] a second time changes nothing. *)
Theorem updateButton_idempotent (s : State) :
  updateButton (updateButton s) = updateButton s.
Proof.
  destruct (button s) as [b|] eqn:Hb.
  2: { unfold updateButton. by rewrite !Hb. }
  rewrite (updateButton_writes s b Hb).
  erewrite updateButton_writes by reflexivity.
  cbn [with_button attrs b_attrs b_listening]. by rewrite apply_writes_idem.
Qed.

Lemma click_not_listening s b :
  button s = Some b → b_listening b = false →
  events (fire_click s) = events s ∧ events (click s) = events s.
Proof.
  intros Hb Hl. unfold click, native_click, fire_click. rewrite Hb.
  cbn [record_call button events]. rewrite Hb, Hl.
  split; [done|].
  by repeat match goal with |- context [if ?b then _ else _] => destruct b end.
Qed.

Lemma render_resume_button s n :
  pending_renders s = S n →
  ∃ b, button (render_resume s) = Some b ∧ b_listening b = false
       ∧ events (render_resume s) = events s.
Proof.
  intros Hp. unfold render_resume. rewrite Hp.
  erewrite updateButton_writes by reflexivity. by eexists.
Qed.

(** X9.  No connection registers the click handler for good:
    [connectedCallback] starts a render, which is suspended at its first
    [await], and registers the handler on the button of the render
    before, if there is one.  When the render completes, the inner
    button is the fresh one of the template, without the handler, and a
    click on it, by the user or through [click()], dispatches no
    [button-click]. *)
Theorem connection_registers_nothing (s : State) :
  let s' := render_resume (connectedCallback s) in
  b_listening <$> button s' = Some false
  ∧ events (fire_click s') = events s
  ∧ events (click s') = events s.
Proof.
  intros s'.
  assert (pending_renders (connectedCallback s) = S (pending_renders s)) as Hp.
  { unfold connectedCallback, attachEventListeners, render.
    cbn [button]. by destruct (button s). }
  assert (events (connectedCallback s) = events s) as He.
  { unfold connectedCallback, attachEventListeners, render.
    cbn [button]. by destruct (button s). }
  subst s'.
  destruct (render_resume_button _ _ Hp) as (b & Hb & Hl & He').
  destruct (click_not_listening _ b Hb Hl) as [Hf Hc].
  rewrite Hb, Hf, Hc, He', He. cbn. by rewrite Hl.
Qed.

(** X10.  Where the handler is registered and neither the host nor the inner
    button is disabled, [click()] forwards to the inner button and one
    [button-click] is dispatched, with the variant and the type in its
    detail, each with its default. *)
Theorem click_dispatches (s : State) (b : InnerButton) :
  button s = Some b → b_listening b = true →
  hasAttribute s "disabled" = false → hasAttribute s "loading" = false →
  b_attrs b !! "disabled" = None →
  click s
  = dispatchEvent
      {| ev_type := "button-click"; bubbles := true; composed := true;
         detail_variant := JS.or_else (getAttribute s "variant") "primary";
         detail_type := JS.or_else (getAttribute s "type") "button" |}
      (record_call NativeClick s).
Proof.
  intros Hb Hl Hd Hld Hbd. unfold click. rewrite Hb, Hd, Hld. cbn [negb andb].
  unfold native_click. rewrite Hb, Hbd.
  rewrite bool_decide_eq_false_2 by (by intros [? ?]).
  unfold fire_click. change (button (record_call NativeClick s)) with (button s).
  rewrite Hb, Hl. unfold handleClick.
  change (hasAttribute (record_call NativeClick s)) with (hasAttribute s).
  by rewrite Hd, Hld.
Qed.

End ButtonExtras.

Section ButtonExtraExamples.
Import Button Examples.

Lemma updateButton_mirrors_witness :
  ∃ b', button (updateButton button_disabled) = Some b'
        ∧ b_attrs b' !! "disabled" = Some ""
        ∧ b_attrs b' !! "aria-disabled" = Some "true"
        ∧ b_attrs b' !! "aria-busy" = Some "false"
        ∧ b_attrs b' !! "aria-label" = Some "primary button"
        ∧ b_attrs b' !! "class" = Some "app-button".
Proof.
  destruct (updateButton_mirrors button_disabled _ eq_refl)
    as (b' & Hb' & _ & Hd & Had & Hab & Hal & Ho & _).
  exists b'. split; [exact Hb'|]. split; [exact Hd|]. split; [exact Had|].
  split; [exact Hab|]. split; [exact Hal|].
  rewrite Ho; [reflexivity|]. vm_compute. 
  intros Hin. repeat (apply elem_of_cons in Hin as [Hin|Hin]; [discriminate|]).
  by apply elem_of_nil in Hin.
Defined.

Lemma click_dispatches_witness :
  ev_type <$> events (click button_listening) = [ "button-click" ]
  ∧ calls (click button_listening) = [ NativeClick ].
Proof.
  rewrite (click_dispatches button_listening _ eq_refl);
    [split; reflexivity|reflexivity..].
Defined.

End ButtonExtraExamples.

Section ButtonInvariant.
Import Button Aux Derived ButtonPage.

Lemma mirrored_ext s1 s2 :
  button s1 = button s2 →
  (∀ k, k ∈ [ "type"; "disabled"; "loading"; "variant" ] →
        attrs s1 !! k = attrs s2 !! k) →
  mirrored s1 → mirrored s2.
Proof.
  unfold mirrored, hasAttribute, getAttribute. intros Hb Ha Hm b Hb2.
  rewrite <- !Ha by set_solver. apply Hm. by rewrite Hb.
Qed.

Lemma mirrored_updateButton s : mirrored (updateButton s).
Proof.
  intros b Hb. destruct (button s) as [b0|] eqn:Hb0.
  2: { unfold updateButton in Hb. by rewrite Hb0, Hb0 in Hb. }
  rewrite (updateButton_writes s b0 Hb0) in Hb |- *.
  set (b1 := mkInner _ _) in *.
  assert (b = b1) as -> by (change (Some b1 = Some b) in Hb; congruence).
  change (hasAttribute (with_button ?x s)) with (hasAttribute s).
  change (getAttribute (with_button ?x s)) with (getAttribute s).
  subst b1.
  change (b_attrs {| b_attrs := ?a; b_listening := ?l |}) with a.
  rewrite !lookup_apply_writes.
  destruct (written_button (attrs s) (b_attrs b0 !! "type")) as (-> & _).
  destruct (written_button (attrs s) (b_attrs b0 !! "disabled")) as (_ & -> & _).
  destruct (written_button (attrs s) (b_attrs b0 !! "aria-disabled"))
    as (_ & _ & -> & _).
  destruct (written_button (attrs s) (b_attrs b0 !! "aria-busy"))
    as (_ & _ & _ & -> & _).
  destruct (written_button (attrs s) (b_attrs b0 !! "aria-label"))
    as (_ & _ & _ & _ & ->).
  done.
Qed.

Lemma observed_names_button name :
  name ∈ [ "type"; "disabled"; "loading"; "variant" ] →
  bool_decide (name ∈ observedAttributes) = true.
Proof.
  rewrite !elem_of_cons. intros [->|[->|[->|[->|Hn]]]]; [done..|].
  by apply elem_of_nil in Hn.
Qed.

Lemma state_eta s :
  {| attrs := attrs s; button := button s; pending_renders := pending_renders s;
     events := events s; calls := calls s |} = s.
Proof. by destruct s. Qed.

Lemma setAttribute_mirrored name v s : mirrored s → mirrored (setAttribute name v s).
Proof.
  intros Hs. unfold setAttribute.
  destruct (bool_decide (name ∈ observedAttributes)) eqn:Ho.
  - unfold attributeChangedCallback.
    destruct (decide (getAttribute s name ≠ Some v)) as [Hne|Heq];
      [apply mirrored_updateButton|].
    apply dec_stable in Heq.
    unfold getAttribute in Heq. by rewrite (insert_id _ _ _ Heq), state_eta.
  - eapply mirrored_ext; [| |exact Hs]; [reflexivity|].
    intros k Hk. cbn [attrs]. symmetry. apply lookup_insert_ne. intros ->.
    by rewrite (observed_names_button _ Hk) in Ho.
Qed.

Lemma removeAttribute_mirrored name s : mirrored s → mirrored (removeAttribute name s).
Proof.
  intros Hs. unfold removeAttribute.
  destruct (getAttribute s name) as [old|] eqn:Hold; [|exact Hs].
  destruct (bool_decide (name ∈ observedAttributes)) eqn:Ho.
  - unfold attributeChangedCallback. rewrite decide_True by done.
    apply mirrored_updateButton.
  - eapply mirrored_ext; [| |exact Hs]; [reflexivity|].
    intros k Hk. cbn [attrs]. symmetry. apply lookup_delete_ne. intros ->.
    by rewrite (observed_names_button _ Hk) in Ho.
Qed.

Lemma fire_click_shape s :
  fire_click s = s
  ∨ ∃ e, fire_click s = dispatchEvent e s ∧ well_formed e
         ∧ hasAttribute s "disabled" || hasAttribute s "loading" = false.
Proof.
  unfold fire_click. destruct (button s) as [b|]; [|by left].
  destruct (b_listening b); [|by left]. unfold handleClick.
  destruct (hasAttribute s "disabled" || hasAttribute s "loading") eqn:Hoff;
    [by left|].
  right. eexists. split; [reflexivity|]. done.
Qed.

Lemma mirrored_events e s : mirrored s → mirrored (dispatchEvent e s).
Proof. apply mirrored_ext; done. Qed.

Lemma mirrored_call c s : mirrored s → mirrored (record_call c s).
Proof. apply mirrored_ext; done. Qed.

Lemma fire_click_settled s : settled s → settled (fire_click s).
Proof.
  intros [Hm He]. destruct (fire_click_shape s) as [->|(e & -> & Hw & _)]; [done|].
  split; [by apply mirrored_events|].
  cbn [dispatchEvent events]. apply Forall_app. split; [done|].
  by apply Forall_cons.
Qed.

Lemma perform_settled a s : settled s → settled (perform a s).
Proof.
  intros [Hm He]. destruct a; cbn [perform].
  - unfold connectedCallback, attachEventListeners, render. cbn [button].
    destruct (button s) as [b|] eqn:Hb.
    + split; [|done]. intros b' [= <-]. cbn [b_attrs]. by apply (Hm b).
    + split; [|done]. intros b' Hb'. cbn in Hb'. congruence.
  - unfold disconnectedCallback, removeEventListeners.
    destruct (button s) as [b|] eqn:Hb; [|done].
    split; [|done]. intros b' [= <-]. cbn [b_attrs]. by apply (Hm b).
  - unfold render_resume. destruct (pending_renders s); [done|].
    split; [apply mirrored_updateButton|]. by rewrite events_updateButton.
  - split; [by apply setAttribute_mirrored|].
    unfold setAttribute, attributeChangedCallback.
    destruct (bool_decide _); [|done]. case_decide; [|done].
    by rewrite events_updateButton.
  - split; [by apply removeAttribute_mirrored|].
    unfold removeAttribute, attributeChangedCallback.
    destruct (getAttribute s name); [|done].
    destruct (bool_decide _); [|done]. case_decide; [|done].
    by rewrite events_updateButton.
  - unfold user_click. destruct (button s); [|done].
    destruct (bool_decide _); [done|]. by apply fire_click_settled.
  - unfold click. destruct (button s) as [b|] eqn:Hb; [|done].
    destruct (_ && _); [|done]. unfold native_click. rewrite Hb.
    destruct (bool_decide _).
    + split; [by apply mirrored_call|done].
    + apply fire_click_settled. split; [by apply mirrored_call|done].
  - unfold focus. destruct (button s); [|done]. split; [by apply mirrored_call|done].
  - unfold blur. destruct (button s); [|done]. split; [by apply mirrored_call|done].
Qed.

(** X11.  Whatever is done to a button, in any order: its inner button, once
    a render has made one, shows the host's state ([type], [disabled]
    for a host that is disabled or loading, the three ARIA attributes),
    and every event dispatched so far is a [button-click], bubbling and
    composed. *)
Theorem always_mirrored (actions : list Action) :
  mirrored (run_actions actions constructed)
  ∧ Forall well_formed (events (run_actions actions constructed)).
Proof.
  assert (settled constructed) as Hs.
  { split; [|apply Forall_nil_2]. intros b Hb. discriminate Hb. }
  revert Hs. generalize constructed.
  induction actions as [|a l IH]; intros s Hs; [exact Hs|].
  cbn [run_actions foldl]. apply IH. by apply perform_settled.
Qed.

End ButtonInvariant.

(* ===================================================================== *)
(** * Further properties: single-line input                               *)
(* ===================================================================== *)

Section InputExtras.
Import Input Aux.
Context `{Host} `{Control}.

Lemma hasAttribute_toggle name force s k :
  k ≠ name →
  hasAttribute (toggleAttribute name force s) k = hasAttribute s k.
Proof.
  intros Hk. unfold toggleAttribute, hasAttribute.
  destruct force; [destruct (attrs s !! name)|];
    cbn [with_attrs attrs]; by rewrite ?lookup_insert_ne, ?lookup_delete_ne.
Qed.

Lemma hasAttribute_toggled name force s :
  hasAttribute (toggleAttribute name force s) name = force.
Proof.
  unfold toggleAttribute, hasAttribute.
  destruct force; [destruct (attrs s !! name) eqn:Hn|]; cbn [with_attrs attrs].
  - rewrite Hn. by apply bool_decide_eq_true_2.
  - rewrite lookup_insert_eq. by apply bool_decide_eq_true_2.
  - rewrite lookup_delete_eq. apply bool_decide_eq_false_2. by intros [? ?].
Qed.

(** The state [updateInputState] leaves when both elements are there. *)
Lemma updateInputState_unfold s i l :
  inputElement s = Some i → labelElement s = Some l →
  let value := JS.or_else (getAttribute s "value") "" in
  let name := JS.or_else (getAttribute s "name") "" in
  let type := type_keyword (JS.or_else (getAttribute s "type") "text") in
  let held := if decide (i_type i = type) then i_value i
              else retype (i_type i) type (i_value i) in
  let i' :=
    {| i_type := type;
       i_value := if decide (held ≠ value) then assign type value else held;
       i_placeholder := JS.or_else (getAttribute s "placeholder") "";
       i_name := if decide (name = "") then i_name i else name;
       i_disabled := hasAttribute s "disabled";
       i_readOnly := hasAttribute s "readonly";
       i_required := hasAttribute s "required";
       i_attrs :=
         <["aria-invalid" := JS.show_bool (hasAttribute s "error")]>
           (<["aria-required" := JS.show_bool (hasAttribute s "required")]>
              (i_attrs i));
       i_listening := i_listening i |} in
  let s1 := with_input (Some i')
              (toggleAttribute "aria-disabled" (hasAttribute s "disabled")
                 (with_label (Some (JS.or_else (getAttribute s "label") ""))
                    (setFormValue value s))) in
  updateInputState s
  = match internals s1 with
    | Some n =>
        if hasAttribute s "error" then
          with_internals
            (Some {| formValue := formValue n; validity := Some "Invalid input" |}) s1
        else if validity_valid i' then
          with_internals (Some {| formValue := formValue n; validity := None |}) s1
        else s1
    | None => s1
    end.
Proof. intros Hi Hl. unfold updateInputState. rewrite Hi, Hl. reflexivity. Qed.





Lemma updateInputState_fields s i l :
  inputElement s = Some i → labelElement s = Some l →
  ∃ i', inputElement (updateInputState s) = Some i'
    ∧ i_type i' = type_keyword (JS.or_else (getAttribute s "type") "text")
    ∧ i_placeholder i' = JS.or_else (getAttribute s "placeholder") ""
    ∧ i_name i' = (if decide (JS.or_else (getAttribute s "name") "" = "")
                   then i_name i else JS.or_else (getAttribute s "name") "")
    ∧ i_disabled i' = hasAttribute s "disabled"
    ∧ i_readOnly i' = hasAttribute s "readonly"
    ∧ i_required i' = hasAttribute s "required"
    ∧ i_attrs i' !! "aria-required"
      = Some (JS.show_bool (hasAttribute s "required"))
    ∧ i_attrs i' !! "aria-invalid" = Some (JS.show_bool (hasAttribute s "error"))
    ∧ i_listening i' = i_listening i
    ∧ labelElement (updateInputState s)
      = Some (JS.or_else (getAttribute s "label") "")
    ∧ hasAttribute (updateInputState s) "aria-disabled" = hasAttribute s "disabled"
    ∧ events (updateInputState s) = events s.
Proof.
  intros Hi Hl. rewrite (updateInputState_unfold s i l Hi Hl). cbv zeta.
  set (i' := mkInput _ _ _ _ _ _ _ _ _).
  set (s1 := with_input (Some i') _).
  assert (inputElement s1 = Some i'
          ∧ labelElement s1 = Some (JS.or_else (getAttribute s "label") "")
          ∧ hasAttribute s1 "aria-disabled" = hasAttribute s "disabled"
          ∧ events s1 = events s) as (H1 & H2 & H3 & H4).
  { subst s1. split; [reflexivity|].
    split.
    { cbn [with_input labelElement]. unfold toggleAttribute.
      destruct (hasAttribute s "disabled"); [destruct (attrs _ !! _)|]; reflexivity. }
    split.
    { change (hasAttribute (with_input (Some i') ?x)) with (hasAttribute x).
      apply hasAttribute_toggled. }
    cbn [with_input events]. unfold toggleAttribute, setFormValue.
    destruct (hasAttribute s "disabled"); [destruct (attrs _ !! _)|];
      destruct (internals s); reflexivity. }
  exists i'.
  assert (∀ s2, inputElement s2 = inputElement s1 → labelElement s2 = labelElement s1 →
                attrs s2 = attrs s1 → events s2 = events s1 →
                inputElement s2 = Some i'
                ∧ labelElement s2 = Some (JS.or_else (getAttribute s "label") "")
                ∧ hasAttribute s2 "aria-disabled" = hasAttribute s "disabled"
                ∧ events s2 = events s) as Hext.
  { intros s2 E1 E2 E3 E4. unfold hasAttribute in *. by rewrite E1, E2, E3, E4. }
  assert (inputElement (match internals s1 with
            | Some n =>
                if hasAttribute s "error" then
                  with_internals
                    (Some {| formValue := formValue n; validity := Some "Invalid input" |}) s1
                else if validity_valid i' then
                  with_internals (Some {| formValue := formValue n; validity := None |}) s1
                else s1
            | None => s1
            end) = Some i'
          ∧ labelElement (match internals s1 with
            | Some n =>
                if hasAttribute s "error" then
                  with_internals
                    (Some {| formValue := formValue n; validity := Some "Invalid input" |}) s1
                else if validity_valid i' then
                  with_internals (Some {| formValue := formValue n; validity := None |}) s1
                else s1
            | None => s1
            end) = Some (JS.or_else (getAttribute s "label") "")
          ∧ hasAttribute (match internals s1 with
            | Some n =>
                if hasAttribute s "error" then
                  with_internals
                    (Some {| formValue := formValue n; validity := Some "Invalid input" |}) s1
                else if validity_valid i' then
                  with_internals (Some {| formValue := formValue n; validity := None |}) s1
                else s1
            | None => s1
            end) "aria-disabled" = hasAttribute s "disabled"
          ∧ events (match internals s1 with
            | Some n =>
                if hasAttribute s "error" then
                  with_internals
                    (Some {| formValue := formValue n; validity := Some "Invalid input" |}) s1
                else if validity_valid i' then
                  with_internals (Some {| formValue := formValue n; validity := None |}) s1
                else s1
            | None => s1
            end) = events s) as (G1 & G2 & G3 & G4).
  { destruct (internals s1); [|by apply Hext].
    destruct (hasAttribute s "error"); [by apply Hext|].
    destruct (validity_valid i'); by apply Hext. }
  rewrite G1, G2, G3, G4. split; [reflexivity|].
  subst i'. cbn [i_type i_placeholder i_name i_disabled i_readOnly i_required
                 i_attrs i_listening].
  do 6 (split; [reflexivity|]).
  split; [by rewrite lookup_insert_ne, lookup_insert_eq|].
  split; [by rewrite lookup_insert_eq|]. done.
Qed.

(** X13.  Connecting the element builds the shadow tree anew and mirrors the
    host's attributes into it: the native input is the fresh one of the
    template with the four handlers registered, with the type the
    control takes for the [type] attribute ([text] when that is
    missing), and with placeholder, name and the three flags taken from
    the attributes, each with its default; the label shows the [label]
    attribute; [aria-disabled] is on the host exactly when [disabled]
    is; and nothing is dispatched.  This is for an element that does
    not ask a file control to take a text, the one assignment a control
    answers by throwing. *)
Theorem connectedCallback_mirrors (s : State) :
  (type_keyword (JS.or_else (getAttribute s "type") "text") = "file" →
   JS.or_else (getAttribute s "value") "" = "") →
  let s' := connectedCallback s in
  ∃ i, inputElement s' = Some i
    ∧ i_listening i = true
    ∧ i_type i = type_keyword (JS.or_else (getAttribute s "type") "text")
    ∧ i_placeholder i = JS.or_else (getAttribute s "placeholder") ""
    ∧ i_name i = JS.or_else (getAttribute s "name") ""
    ∧ i_disabled i = hasAttribute s "disabled"
    ∧ i_readOnly i = hasAttribute s "readonly"
    ∧ i_required i = hasAttribute s "required"
    ∧ i_attrs i !! "aria-required" = Some (JS.show_bool (hasAttribute s "required"))
    ∧ i_attrs i !! "aria-invalid" = Some (JS.show_bool (hasAttribute s "error"))
    ∧ labelElement s' = Some (JS.or_else (getAttribute s "label") "")
    ∧ hasAttribute s' "aria-disabled" = hasAttribute s "disabled"
    ∧ events s' = events s.
Proof.
  intros _ s'. subst s'. unfold connectedCallback.
  set (s0 := attachEventListeners (render s)).
  destruct (updateInputState_fields s0 (set_listening true template_input) "")
    as (i & Hi & Ht & Hp & Hn & Hd & Hr & Hq & Har & Hai & Hl & Hlab & Had & He);
    [reflexivity..|].
  exists i. split; [exact Hi|]. split; [by rewrite Hl|].
  change (getAttribute s0) with (getAttribute s) in *.
  change (hasAttribute s0) with (hasAttribute s) in *.
  change (events s0) with (events s) in *.
  split; [exact Ht|]. split; [exact Hp|]. split.
  { rewrite Hn. by case_decide. }
  done.
Qed.


End InputExtras.

Section InputExtraExamples.
Import Input Aux Examples MiniHost MoreExamples.


(** A constructed element asking for a disabled password control. *)
Lemma connectedCallback_mirrors_witness :
  let s := with_attrs {[ "type" := "password"; "disabled" := "" ]} (constructed true) in
  ∃ i, inputElement (connectedCallback s) = Some i
    ∧ i_type i = "password" ∧ i_disabled i = true ∧ i_listening i = true
    ∧ hasAttribute (connectedCallback s) "aria-disabled" = true.
Proof.
  intros s.
  destruct (connectedCallback_mirrors s)
    as (i & Hi & Hl & Ht & _ & _ & Hd & _ & _ & _ & _ & _ & Ha & _).
  { vm_compute. discriminate. }
  exists i. split; [exact Hi|]. split; [rewrite Ht; vm_compute; reflexivity|].
  split; [rewrite Hd; vm_compute; reflexivity|]. split; [exact Hl|].
  cbv zeta in Ha. rewrite Ha. vm_compute. reflexivity.
Defined.


End InputExtraExamples.

Section InputFormsProperties.
Import Input InputForms.
Context `{NativeValidation} `{Control}.


End InputFormsProperties.

Section InputFormsExamples.
Import Input InputForms MoreExamples MiniHost.


End InputFormsExamples.

(* ===================================================================== *)
(** * Further properties: multi-line text area                            *)
(* ===================================================================== *)

Section TexteriaExtras.
Import Texteria Aux Derived.
Context `{RegExpEngine}.

Lemma with_counter_id s : with_counter (charCounter s) s = s.
Proof. by destruct s. Qed.

Lemma updateCharCounter_fixed s : counter_synced s → updateCharCounter s = s.
Proof.
  intros Hs. rewrite updateCharCounter_counter, Hs. apply with_counter_id.
Qed.

Ltac map_writes :=
  apply map_eq; intros k;
  repeat match goal with
         | |- context [ <[?i := _]> _ ] =>
             lazymatch goal with H : k ≠ i |- _ => fail | _ => idtac end;
             destruct (decide (k = i)) as [->|?]
         | |- context [ delete ?i _ ] =>
             lazymatch goal with H : k ≠ i |- _ => fail | _ => idtac end;
             destruct (decide (k = i)) as [->|?]
         end;
  repeat first [ rewrite lookup_insert_eq | rewrite lookup_delete_eq
               | rewrite lookup_insert_ne by done
               | rewrite lookup_delete_ne by done ];
  reflexivity.

Ltac fields :=
  cbv [with_container with_textarea with_validation t_with_height t_with_attrs
       t_with_classes textarea container
       attrs _value isUserTyping charCounter validationMessage label events
       reported calls t_value t_placeholder t_disabled t_rows t_cols
       t_maxLength t_minLength t_required t_name t_classes t_attrs t_height
       t_scrollHeight v_text v_classes v_id].

Lemma toggle_toggle name b (cl : gset string) :
  toggle name b (toggle name b cl) = toggle name b cl.
Proof. unfold toggle. destruct b; set_solver. Qed.

Lemma validity_attrs_fixed f l r a :
  validity_attrs f (aria_attrs l r (validity_attrs f a))
  = aria_attrs l r (validity_attrs f a).
Proof.
  unfold validity_attrs, aria_attrs.
  destruct f, (JS.truthy l), r; map_writes.
Qed.

Lemma show_validity_form b m s :
  let f := negb b && negb (bool_decide (m = "")) in
  show_validity b m s
  = with_validation
      {| v_text := m;
         v_classes := toggle "visible" (negb b && (0 <? String.length m)%nat)
                        (v_classes (validationMessage s));
         v_id := if f then Some "validation-message"
                 else v_id (validationMessage s) |}
      (with_textarea
         (t_with_attrs (validity_attrs f (t_attrs (textarea s)))
            (t_with_classes
               (toggle "invalid" (negb b) (t_classes (textarea s))) (textarea s)))
         s).
Proof.
  intros f. unfold show_validity, validity_attrs. fold f. by destruct f.
Qed.

Lemma updateAriaAttributes_form s :
  updateAriaAttributes s
  = with_textarea
      (t_with_attrs
         (aria_attrs (getAttribute s "label") (t_required (textarea s))
            (t_attrs (textarea s)))
         (textarea s)) s.
Proof.
  unfold updateAriaAttributes, aria_attrs.
  destruct (JS.truthy _); cbn [t_with_attrs t_required t_attrs];
    destruct (t_required (textarea s)); by destruct s as [? ? ? [] ? ? ? ? ? ? ?].
Qed.

Lemma autoResize_fixed s :
  autoResize (updateAriaAttributes (autoResize s)) = updateAriaAttributes (autoResize s).
Proof.
  rewrite updateAriaAttributes_form. unfold autoResize.
  destruct s as [a v ty t c cc vm l ev rep cl].
  destruct t as [tv tp td tr tc tmx tmn trq tn tcl ta th tsh].
  unfold getAttribute. fields.
  replace ({["auto-resize"]} ∪ ({["auto-resize"]} ∪ c))
    with ({["auto-resize"]} ∪ c : gset string) by set_solver.
  reflexivity.
Qed.

Lemma resized_fixed s :
  resized (updateAriaAttributes (resized s)) = updateAriaAttributes (resized s).
Proof.
  unfold resized.
  change (hasAttribute (updateAriaAttributes ?x) "auto-resize")
    with (hasAttribute x "auto-resize").
  destruct (hasAttribute s "auto-resize") eqn:Hr.
  - change (hasAttribute (autoResize s) "auto-resize")
      with (hasAttribute s "auto-resize"). rewrite Hr. apply autoResize_fixed.
  - by rewrite Hr.
Qed.

Lemma show_validity_fixed b m s :
  show_validity b m (updateAriaAttributes (resized (show_validity b m s)))
  = updateAriaAttributes (resized (show_validity b m s)).
Proof.
  rewrite (show_validity_form b m (updateAriaAttributes _)).
  rewrite updateAriaAttributes_form.
  unfold resized.
  change (hasAttribute (show_validity b m s) "auto-resize")
    with (hasAttribute s "auto-resize").
  rewrite (show_validity_form b m s).
  set (f := negb b && negb (bool_decide (m = ""))).
  destruct s as [a v ty t c cc vm l ev rep cl].
  destruct t as [tv tp td tr tc tmx tmn trq tn tcl ta th tsh].
  destruct vm as [vt vc vi].
  destruct (hasAttribute _ "auto-resize").
  all: unfold autoResize, getAttribute; fields.
  all: rewrite !toggle_toggle, validity_attrs_fixed.
  all: by destruct f.
Qed.

Lemma check_core s1 s2 r :
  core s1 = core s2 → check s1 = Ok r s1 → check s2 = Ok r s2.
Proof.
  intros Hc. destruct (core_eq _ _ Hc) as (Ha & Hv & _ & _ & _ & _ & Hmn & Hrq & _).
  apply check_ext; try done; by rewrite Ha.
Qed.

(** The value steps change nothing when run a second time, also after
    [updateAriaAttributes]. *)
Lemma value_steps_fixed s r :
  check (updateCharCounter s) = Ok r (updateCharCounter s) →
  let s' := updateAriaAttributes
              (resized (show_validity (fst r) (snd r) (updateCharCounter s))) in
  (modify updateCharCounter ;; updateValidation ;;
   reading (λ s, when (hasAttribute s "auto-resize") (modify autoResize))) s'
  = Ok tt s'.
Proof.
  intros Hc s'. rewrite value_steps.
  destruct (value_steps_synced s r Hc) as (Hcore & Hcs & Hvs).
  destruct (synced_updateAriaAttributes _ Hcs Hvs) as [Hcs' Hvs'].
  fold s' in Hcs', Hvs'.
  rewrite (updateCharCounter_fixed s' Hcs').
  assert (check s' = Ok r s') as ->.
  { eapply check_core; [|exact Hc]. subst s'.
    by rewrite core_updateAriaAttributes, Hcore, core_updateCharCounter. }
  f_equal. subst s'.
  rewrite show_validity_fixed. apply resized_fixed.
Qed.

Lemma value_callback_state s oldValue v :
  isUserTyping s = false → oldValue ≠ Some v → pattern_ok s →
  ∃ r, check (value_written v s) = Ok r (value_written v s)
       ∧ attributeChangedCallback "value" oldValue (Some v) s
         = Ok tt (updateAriaAttributes
                    (resized (show_validity (fst r) (snd r) (value_written v s)))).
Proof.
  intros Hty Hne Hp. unfold attributeChangedCallback.
  rewrite decide_False by done.
  unfold attribute_case. name_cases.
  unfold mbind, M_bind. unfold bind at 1. unfold reading at 1. rewrite Hty.
  cbn [negb]. unfold bind at 1. unfold modify at 1.
  unfold bind at 1. unfold modify at 1.
  pose proof value_steps as Hsteps. unfold mbind, M_bind in Hsteps.
  rewrite Hsteps. clear Hsteps. rewrite or_else_self.
  change (updateCharCounter (with_textarea _ _)) with (value_written v s).
  destruct (check_returns (value_written v s)) as [r Hc].
  { eapply pattern_ok_ext; [|exact Hp]. unfold value_written.
    by rewrite updateCharCounter_counter. }
  exists r. split; [done|]. by rewrite Hc.
Qed.

Lemma setValue_unfold s v :
  setValue v s
  = match setAttribute "value" v
            (with_textarea (t_with_value v (textarea (with_value v s)))
               (with_value v s)) with
    | Ok _ s2 =>
        (modify updateCharCounter ;; updateValidation ;;
         reading (λ s, when (hasAttribute s "auto-resize") (modify autoResize))) s2
    | Throw e s2 => Throw e s2
    end.
Proof. reflexivity. Qed.

Lemma setAttribute_value_unfold s v :
  setAttribute "value" v s
  = reporting (attributeChangedCallback "value" (getAttribute s "value") (Some v))
      (with_attrs (<["value" := v]> (attrs s)) s).
Proof. unfold setAttribute. by rewrite value_observed_t. Qed.

Lemma setAttribute_value_state s v :
  isUserTyping s = false → getAttribute s "value" ≠ Some v → pattern_ok s →
  ∃ r, let s1 := value_written v (with_attrs (<["value" := v]> (attrs s)) s) in
       check s1 = Ok r s1
       ∧ setAttribute "value" v s
         = Ok tt (updateAriaAttributes (resized (show_validity (fst r) (snd r) s1))).
Proof.
  intros Hty Hne Hp. rewrite setAttribute_value_unfold. unfold reporting.
  destruct (value_callback_state (with_attrs (<["value" := v]> (attrs s)) s)
              (getAttribute s "value") v) as (r & Hc & ->); [done|done| |].
  { eapply pattern_ok_ext; [|exact Hp].
    cbn [with_attrs attrs]. by rewrite lookup_insert_ne. }
  by exists r.
Qed.

Lemma value_written_twice v a s :
  value_written v
    (with_attrs a
       (with_textarea (t_with_value v (textarea (with_value v s))) (with_value v s)))
  = value_written v (with_attrs a s).
Proof. destruct s as [? ? ? [] ? ? ? ? ? ? ?]. reflexivity. Qed.

(** X16.  [setValue] and the [value] attribute.  With a pattern the engine
    accepts, outside a keystroke and when the attribute does not hold
    the text already, [setValue] leaves exactly the state that writing
    the text to the [value] attribute leaves: the steps it runs after
    the attribute's callback find nothing left to change. *)
Theorem setValue_as_attribute (s : State) (v : string) :
  pattern_ok s → isUserTyping s = false → getAttribute s "value" ≠ Some v →
  setValue v s = setAttribute "value" v s.
Proof.
  intros Hp Hty Hne. rewrite setValue_unfold.
  set (s1 := with_textarea _ (with_value v s)).
  destruct (setAttribute_value_state s1 v) as (r1 & Hc1 & ->); [done|done|done|].
  destruct (setAttribute_value_state s v) as (r & Hc & ->); [done|done|done|].
  cbv zeta in Hc1, Hc.
  change (attrs s1) with (attrs s) in *. subst s1.
  rewrite value_written_twice in *.
  assert (r1 = r) as -> by congruence.
  apply (value_steps_fixed _ r Hc).
Qed.

Lemma autoResize_idem s : autoResize (autoResize s) = autoResize s.
Proof.
  unfold autoResize.
  destruct s as [a v ty t c cc vm l ev rep cl].
  destruct t as [tv tp td tr tc tmx tmn trq tn tcl ta th tsh]. fields.
  replace ({["auto-resize"]} ∪ ({["auto-resize"]} ∪ c))
    with ({["auto-resize"]} ∪ c : gset string) by set_solver.
  reflexivity.
Qed.

Lemma resized_idem s : resized (resized s) = resized s.
Proof.
  unfold resized. destruct (hasAttribute s "auto-resize") eqn:Hr.
  - change (hasAttribute (autoResize s) "auto-resize")
      with (hasAttribute s "auto-resize"). rewrite Hr. apply autoResize_idem.
  - by rewrite Hr.
Qed.

Lemma validity_attrs_idem f a : validity_attrs f (validity_attrs f a) = validity_attrs f a.
Proof. unfold validity_attrs. destruct f; map_writes. Qed.

Lemma show_validity_resized_fixed b m s :
  show_validity b m (resized (show_validity b m s)) = resized (show_validity b m s).
Proof.
  rewrite (show_validity_form b m (resized _)).
  unfold resized.
  change (hasAttribute (show_validity b m s) "auto-resize")
    with (hasAttribute s "auto-resize").
  rewrite (show_validity_form b m s).
  set (f := negb b && negb (bool_decide (m = ""))).
  destruct s as [a v ty t c cc vm l ev rep cl].
  destruct t as [tv tp td tr tc tmx tmn trq tn tcl ta th tsh].
  destruct vm as [vt vc vi].
  destruct (hasAttribute _ "auto-resize").
  all: unfold autoResize; fields.
  all: rewrite !toggle_toggle, validity_attrs_idem.
  all: by destruct f.
Qed.

(** The value steps change nothing when run on the state they left. *)
Lemma value_steps_twice s s' :
  (modify updateCharCounter ;; updateValidation ;;
   reading (λ s, when (hasAttribute s "auto-resize") (modify autoResize))) s
  = Ok tt s' →
  (modify updateCharCounter ;; updateValidation ;;
   reading (λ s, when (hasAttribute s "auto-resize") (modify autoResize))) s'
  = Ok tt s'.
Proof.
  rewrite !value_steps.
  destruct (check_cases (updateCharCounter s)) as [[r Hc]|Hc]; rewrite Hc; [|done].
  intros [= <-].
  destruct (value_steps_synced s r Hc) as (Hcore & Hcs & Hvs).
  set (s' := resized _) in *.
  rewrite (updateCharCounter_fixed s' Hcs).
  assert (check s' = Ok r s') as ->.
  { eapply check_core; [|exact Hc]. by rewrite Hcore, core_updateCharCounter. }
  f_equal. subst s'. rewrite show_validity_resized_fixed. apply resized_idem.
Qed.

Lemma value_write_id s v :
  _value s = v → t_value (textarea s) = normalize_newlines v →
  with_textarea (t_with_value v (textarea (with_value v s))) (with_value v s) = s.
Proof. destruct s as [? ? ? [] ? ? ? ? ? ? ?]. cbn. by intros -> ->. Qed.

Lemma with_attrs_id s : with_attrs (attrs s) s = s.
Proof. by destruct s. Qed.

(** X17.  [setValue] is idempotent: when it returns, a second call with the
    same text returns too and changes nothing. *)
Theorem setValue_twice (s s' : State) (v : string) :
  setValue v s = Ok tt s' → setValue v s' = Ok tt s'.
Proof.
  rewrite !setValue_unfold.
  set (s1 := with_textarea _ (with_value v s)).
  destruct (setAttribute_value_any s1 v) as (s2 & -> & Ha2 & Hv2 & Htv2 & _);
    [done|done|].
  intros Hsteps. pose proof Hsteps as Hsteps'.
  rewrite value_steps in Hsteps'.
  destruct (check_cases (updateCharCounter s2)) as [[r Hc]|Hc];
    rewrite Hc in Hsteps'; [|done].
  injection Hsteps' as <-.
  destruct (value_steps_synced s2 r Hc) as (Hcore & _ & _).
  set (s' := resized _) in *.
  destruct (core_eq _ _ Hcore) as (Ha & Hv & _ & Htv & _).
  rewrite (value_write_id s' v) by congruence.
  rewrite setAttribute_value_unfold. unfold reporting, attributeChangedCallback.
  assert (getAttribute s' "value" = Some v) as Hattr.
  { unfold getAttribute. by rewrite Ha, Ha2, lookup_insert_eq. }
  rewrite decide_True by done. unfold ret.
  unfold getAttribute in Hattr. rewrite (insert_id _ _ _ Hattr), with_attrs_id.
  by apply (value_steps_twice s2).
Qed.

(** The write of the [value] attribute leaves the textarea's limits and
    flags as they are. *)
Lemma setAttribute_value_limits s v :
  ∃ s2, setAttribute "value" v s = Ok tt s2
        ∧ t_maxLength (textarea s2) = t_maxLength (textarea s)
        ∧ t_minLength (textarea s2) = t_minLength (textarea s)
        ∧ t_required (textarea s2) = t_required (textarea s).
Proof.
  rewrite setAttribute_value_unfold. unfold reporting, attributeChangedCallback.
  case_decide.
  { eexists. split; [reflexivity|]. done. }
  unfold attribute_case. name_cases.
  unfold mbind, M_bind. unfold bind at 1. unfold reading at 1.
  cbn [with_attrs isUserTyping].
  destruct (isUserTyping s); cbn [negb].
  - unfold ret, modify. eexists. split; [reflexivity|].
    match goal with
    | |- context [updateAriaAttributes ?x] =>
        destruct (core_eq _ _ (core_updateAriaAttributes x))
          as (_ & _ & _ & _ & _ & Hmx & Hmn & Hrq & _)
    end.
    by rewrite Hmx, Hmn, Hrq.
  - unfold bind at 1. unfold modify at 1. unfold bind at 1. unfold modify at 1.
    pose proof value_steps as Hsteps. unfold mbind, M_bind in Hsteps.
    rewrite Hsteps. clear Hsteps.
    set (s1 := with_textarea _ _).
    assert (t_maxLength (textarea s1) = t_maxLength (textarea s)
            ∧ t_minLength (textarea s1) = t_minLength (textarea s)
            ∧ t_required (textarea s1) = t_required (textarea s))
      as (Hmx1 & Hmn1 & Hrq1) by done.
    destruct (check_cases (updateCharCounter s1)) as [[r Hc]|Hc]; rewrite Hc.
    + unfold modify.
      destruct (value_steps_synced s1 r Hc) as (Hcore & _ & _).
      set (s2 := resized _) in *.
      pose proof (core_updateAriaAttributes s2) as Hcore'.
      rewrite Hcore in Hcore'.
      destruct (core_eq _ _ Hcore') as (_ & _ & _ & _ & _ & Hmx & Hmn & Hrq & _).
      eexists. split; [reflexivity|]. by rewrite Hmx, Hmn, Hrq.
    + eexists. split; [reflexivity|].
      rewrite updateCharCounter_counter. done.
Qed.

Lemma setValue_limits s s' v :
  setValue v s = Ok tt s' →
  _value s' = v
  ∧ t_maxLength (textarea s') = t_maxLength (textarea s)
  ∧ counter_synced s'.
Proof.
  rewrite setValue_unfold.
  set (s1 := with_textarea _ (with_value v s)).
  destruct (setAttribute_value_any s1 v) as (s2 & Hs2 & _ & Hv2 & _); [done|done|].
  destruct (setAttribute_value_limits s1 v) as (s2' & Hs2' & Hmx & _).
  rewrite Hs2 in Hs2'. injection Hs2' as <-. rewrite Hs2.
  rewrite value_steps.
  destruct (check_cases (updateCharCounter s2)) as [[r Hc]|Hc]; rewrite Hc; [|done].
  intros [= <-].
  destruct (value_steps_synced s2 r Hc) as (Hcore & Hcs & _).
  destruct (core_eq _ _ Hcore) as (_ & Hv & _ & _ & _ & Hmx' & _).
  split; [by rewrite Hv|]. split; [by rewrite Hmx', Hmx|]. exact Hcs.
Qed.

(** X18.  After [setValue] the two counts add up to the limit, when there is
    one: [getCharacterCount] is the length of the text and
    [getRemainingCharacters] the limit less that length, below zero for
    a text longer than the limit, which [setValue] does not cut.  The
    counter carries [error] exactly when nothing remains, and [warning]
    exactly when something remains that is at most a tenth of the limit.
    Without a positive limit [getRemainingCharacters] is -1. *)
Theorem remaining_characters (s s' : State) (v : string) :
  setValue v s = Ok tt s' →
  let max := t_maxLength (textarea s) in
  getCharacterCount s' = Z.of_nat (String.length v)
  ∧ ((0 < max)%Z →
     (getCharacterCount s' + getRemainingCharacters s' = max)%Z
     ∧ ("error" ∈ c_classes (charCounter s') ↔ (getRemainingCharacters s' ≤ 0)%Z)
     ∧ ("warning" ∈ c_classes (charCounter s')
        ↔ (0 < getRemainingCharacters s' ∧ 10 * getRemainingCharacters s' ≤ max)%Z))
  ∧ ((max ≤ 0)%Z → getRemainingCharacters s' = (-1)%Z).
Proof.
  intros Hs max. destruct (setValue_limits s s' v Hs) as (Hv & Hmx & Hcs).
  pose proof (counter_rules_of_synced s' Hcs) as [Hpos _].
  unfold getCharacterCount, getRemainingCharacters, value_length in *.
  rewrite Hmx, Hv in *. fold max in Hpos |- *.
  split; [done|]. split.
  - intros Hmax. destruct (Hpos Hmax) as (_ & He & Hw).
    assert ((0 <? max)%Z = true) as -> by lia.
    split; [lia|]. rewrite He, Hw. split; lia.
  - intros Hmax. by assert ((0 <? max)%Z = false) as -> by lia.
Qed.

Lemma setAttribute_observed name v s :
  bool_decide (name ∈ observedAttributes) = true →
  setAttribute name v s
  = reporting (attributeChangedCallback name (getAttribute s name) (Some v))
      (with_attrs (<[name := v]> (attrs s)) s).
Proof. intros Ho. unfold setAttribute. by rewrite Ho. Qed.

Lemma removeAttribute_observed name old s :
  bool_decide (name ∈ observedAttributes) = true →
  getAttribute s name = Some old →
  removeAttribute name s
  = reporting (attributeChangedCallback name (Some old) None)
      (with_attrs (delete name (attrs s)) s).
Proof. intros Ho Hold. unfold removeAttribute. by rewrite Hold, Ho. Qed.

Lemma lookup_aria_attrs l r a :
  aria_attrs l r a !! "aria-label"
  = (if JS.truthy l then Some (default "" l) else a !! "aria-label")
  ∧ aria_attrs l r a !! "aria-required" = (if r then Some "true" else None).
Proof.
  unfold aria_attrs.
  destruct (JS.truthy l), r;
    by rewrite ?lookup_insert_eq, ?lookup_delete_eq, ?lookup_insert_ne,
      ?lookup_delete_ne, ?lookup_insert_eq by done.
Qed.

Lemma parseInt_empty : JS.parseInt "" = JS.NaN.
Proof. reflexivity. Qed.

(** X19.  A [maxlength] that reads as a negative number makes the textarea's
    [maxLength] setter throw: the attribute holds the new text, the
    exception goes to the host, and the callback stops there, so the
    limit, the counter and everything else are as before. *)
Theorem maxlength_negative (s : State) (v : string) (z : Z) :
  getAttribute s "maxlength" ≠ Some v →
  JS.parseInt v = JS.Int z → (JS.ToInt32 (JS.Int z) < 0)%Z →
  setAttribute "maxlength" v s
  = Ok tt (report IndexSizeError (with_attrs (<["maxlength" := v]> (attrs s)) s)).
Proof.
  intros Hne Hz Hneg. rewrite setAttribute_observed by reflexivity.
  unfold reporting, attributeChangedCallback. rewrite decide_False by done.
  unfold attribute_case. name_cases.
  assert (JS.truthy (Some v) = true) as ->.
  { unfold JS.truthy. apply negb_true_iff, bool_decide_eq_false_2.
    intros ->. by rewrite parseInt_empty in Hz. }
  unfold mbind, M_bind. unfold bind at 1. unfold bind at 1.
  change (default "" (Some v)) with v.
  unfold set_maxLength. rewrite Hz.
  assert ((JS.ToInt32 (JS.Int z) <? 0)%Z = true) as -> by lia.
  reflexivity.
Qed.

(** X20.  Taking [maxlength] away lifts the limit and sets the counter to the
    bare count, but its classes are not touched: a [warning] or [error]
    it carried stays on it. *)
Theorem maxlength_removed (s : State) (old : string) :
  getAttribute s "maxlength" = Some old →
  ∃ s', removeAttribute "maxlength" s = Ok tt s'
    ∧ t_maxLength (textarea s') = (-1)%Z
    ∧ getRemainingCharacters s' = (-1)%Z
    ∧ c_text (charCounter s') = JS.show (Z.to_N (getCharacterCount s))
    ∧ c_classes (charCounter s') = c_classes (charCounter s).
Proof.
  intros Hold. rewrite (removeAttribute_observed _ old) by done.
  unfold reporting, attributeChangedCallback. rewrite decide_False by done.
  unfold attribute_case. name_cases. cbn [JS.truthy]. run.
  eexists. split; [reflexivity|].
  rewrite updateAriaAttributes_form. unfold getRemainingCharacters.
  cbn [with_textarea textarea t_with_attrs t_maxLength charCounter].
  rewrite updateCharCounter_counter.
  cbn [with_counter textarea t_maxLength charCounter].
  split; [reflexivity|]. split; [reflexivity|].
  match goal with
  | |- context [updateCharCounter ?x] =>
      destruct (updateCharCounter_shows x) as [_ Hnone]
  end.
  destruct Hnone as [Ht Hc]; [cbn; lia|]. rewrite Ht, Hc. done.
Qed.

(** X21.  A change of [minlength] to a number the textarea takes (not
    negative, and not above its [maxLength] when that is set) sets the
    textarea's [minLength] and stops there: the validity on display is
    not computed again, so it may show the outcome for the limit before
    until the value changes or the textarea loses focus. *)
Theorem minlength_not_revalidated (s : State) (v : string) (z : Z) :
  getAttribute s "minlength" ≠ Some v →
  JS.parseInt v = JS.Int z → (0 ≤ JS.ToInt32 (JS.Int z))%Z →
  (t_maxLength (textarea s) < 0
   ∨ JS.ToInt32 (JS.Int z) ≤ t_maxLength (textarea s))%Z →
  ∃ s', setAttribute "minlength" v s = Ok tt s'
    ∧ t_minLength (textarea s') = JS.ToInt32 (JS.Int z)
    ∧ isValid s' = isValid s
    ∧ validationMessage s' = validationMessage s
    ∧ reported s' = reported s.
Proof.
  intros Hne Hz Hpos Hmax. rewrite setAttribute_observed by reflexivity.
  unfold reporting, attributeChangedCallback. rewrite decide_False by done.
  unfold attribute_case. name_cases.
  assert (JS.truthy (Some v) = true) as ->.
  { unfold JS.truthy. apply negb_true_iff, bool_decide_eq_false_2.
    intros ->. by rewrite parseInt_empty in Hz. }
  change (default "" (Some v)) with v.
  unfold mbind, M_bind. unfold bind at 1.
  unfold set_minLength. rewrite Hz.
  change (textarea (with_attrs ?a s)) with (textarea s).
  assert ((JS.ToInt32 (JS.Int z) <? 0)%Z
          || ((0 <=? t_maxLength (textarea s))%Z
              && (t_maxLength (textarea s) <? JS.ToInt32 (JS.Int z))%Z) = false)
    as -> by lia.
  unfold modify. eexists. split; [reflexivity|].
  rewrite updateAriaAttributes_form. done.
Qed.

Lemma truthy_Some v : v ≠ "" → JS.truthy (Some v) = true.
Proof.
  intros Hv. unfold JS.truthy. by apply negb_true_iff, bool_decide_eq_false_2.
Qed.

(** X22.  The [label] attribute and the label element.  A non-empty [label]
    gives the element a label with that text, creating it when there is
    none, marks it [required] or not by the textarea's flag at that
    moment, and names the textarea after it in [aria-label].  Removing
    the attribute removes the label, and leaves the last [aria-label] on
    the textarea.  A later change of [required] does not visit the
    label: its mark stays as the last change of [label] left it. *)
Theorem label_lifecycle (s : State) :
  (∀ text, getAttribute s "label" ≠ Some text → text ≠ "" →
     ∃ s', setAttribute "label" text s = Ok tt s'
       ∧ label s'
         = Some {| l_text := text;
                   l_classes :=
                     toggle "required" (t_required (textarea s))
                       (from_option l_classes {[ "texteria-label" ]} (label s)) |}
       ∧ t_attrs (textarea s') !! "aria-label" = Some text)
  ∧ (∀ old, getAttribute s "label" = Some old →
       ∃ s', removeAttribute "label" s = Ok tt s'
         ∧ label s' = None
         ∧ t_attrs (textarea s') !! "aria-label"
           = t_attrs (textarea s) !! "aria-label")
  ∧ (∀ v, getAttribute s "required" ≠ Some v → pattern_ok s →
       ∃ s', setAttribute "required" v s = Ok tt s'
         ∧ t_required (textarea s') = true
         ∧ label s' = label s).
Proof.
  split; [|split].
  - intros text Hne Htext. rewrite setAttribute_observed by reflexivity.
    unfold reporting, attributeChangedCallback. rewrite decide_False by done.
    unfold attribute_case. name_cases. run.
    eexists. split; [reflexivity|].
    rewrite updateAriaAttributes_form.
    cbn [with_textarea textarea label t_with_attrs t_attrs].
    destruct (lookup_aria_attrs
                (getAttribute (updateLabel (Some text)
                                 (with_attrs (<["label":=text]> (attrs s)) s)) "label")
                (t_required (textarea (updateLabel (Some text)
                                 (with_attrs (<["label":=text]> (attrs s)) s))))
                (t_attrs (textarea (updateLabel (Some text)
                                 (with_attrs (<["label":=text]> (attrs s)) s)))))
      as [-> _].
    unfold updateLabel. rewrite (truthy_Some text Htext).
    change (getAttribute (with_label ?l (with_attrs ?a s)) "label")
      with (a !! "label").
    cbn [with_label with_attrs label textarea attrs].
    rewrite lookup_insert_eq, (truthy_Some text Htext).
    split; [|done]. by destruct (label s).
  - intros old Hold. rewrite (removeAttribute_observed _ old) by done.
    unfold reporting, attributeChangedCallback. rewrite decide_False by done.
    unfold attribute_case. name_cases. run.
    eexists. split; [reflexivity|].
    rewrite updateAriaAttributes_form.
    cbn [with_textarea textarea label t_with_attrs t_attrs].
    destruct (lookup_aria_attrs
                (getAttribute (updateLabel None
                                 (with_attrs (delete "label" (attrs s)) s)) "label")
                (t_required (textarea (updateLabel None
                                 (with_attrs (delete "label" (attrs s)) s))))
                (t_attrs (textarea (updateLabel None
                                 (with_attrs (delete "label" (attrs s)) s)))))
      as [-> _].
    unfold updateLabel. cbn [JS.truthy with_attrs label].
    destruct (label s) eqn:Hl.
    + change (getAttribute (with_label ?l (with_attrs ?a s)) "label")
        with (a !! "label").
      cbn [with_label with_attrs label textarea attrs].
      rewrite lookup_delete_eq. split; reflexivity.
    + change (getAttribute (with_attrs ?a s) "label") with (a !! "label").
      cbn [with_label with_attrs label textarea attrs].
      rewrite lookup_delete_eq, Hl. split; reflexivity.
  - intros v Hne Hp. rewrite setAttribute_observed by reflexivity.
    unfold reporting.
    destruct (required_callback (with_attrs (<["required":=v]> (attrs s)) s)
                (getAttribute s "required") (Some v)) as (s' & Hs' & Hr & _);
      [done| |].
    { eapply pattern_ok_ext; [|exact Hp].
      cbn [with_attrs attrs]. by rewrite lookup_insert_ne. }
    rewrite Hs'. exists s'. split; [done|]. split; [by rewrite Hr|].
    revert Hs'. unfold attributeChangedCallback. rewrite decide_False by done.
    unfold attribute_case. name_cases.
    unfold mbind, M_bind. unfold bind at 1. unfold bind at 1. unfold modify at 1.
    rewrite updateValidation_unfold.
    destruct (check _) as [r s0|e s0]; [|done].
    unfold modify. intros [= <-]. rewrite updateAriaAttributes_form. done.
Qed.

(** X23.  Focus and blur.  The focus listener marks the container [focused]
    and dispatches [texteria-focus]; the blur listener takes the mark
    away, computes the validity again and dispatches [texteria-blur].
    Both events carry the value and its length. *)
Theorem focus_then_blur (s : State) :
  pattern_ok s →
  ∃ s1 s2, on_focus s = Ok tt s1 ∧ on_blur s1 = Ok tt s2
    ∧ container s1 = {[ "focused" ]} ∪ container s
    ∧ events s1 = (events s ++ [ custom_event "texteria-focus" s ])%list
    ∧ container s2 = container s ∖ {[ "focused" ]}
    ∧ events s2
      = (events s ++ [ custom_event "texteria-focus" s;
                       custom_event "texteria-blur" s ])%list
    ∧ _value s2 = _value s
    ∧ validity_rules s2.
Proof.
  intros Hp.
  set (s1 := dispatchEvent
               (custom_event "texteria-focus"
                  (with_container ({[ "focused" ]} ∪ container s) s))
               (with_container ({[ "focused" ]} ∪ container s) s)).
  set (s1' := with_container (container s1 ∖ {[ "focused" ]}) s1).
  destruct (check_returns s1') as [r Hc].
  { eapply pattern_ok_ext; [|exact Hp]. done. }
  exists s1, (dispatchEvent
                (custom_event "texteria-blur" (show_validity (fst r) (snd r) s1'))
                (show_validity (fst r) (snd r) s1')).
  split; [reflexivity|]. split.
  { unfold on_blur. run. fold s1'. rewrite updateValidation_unfold, Hc.
    reflexivity. }
  split; [reflexivity|]. split; [reflexivity|].
  pose proof (validity_synced_show s1' r Hc) as Hvs.
  rewrite show_validity_form in *. cbv zeta in *.
  split; [cbn; set_solver|]. split.
  { cbn [dispatchEvent with_validation with_textarea with_container container
         events _value textarea s1 s1']. subst s1' s1.
    cbn [dispatchEvent with_validation with_textarea with_container container
         events _value textarea].
    rewrite <- app_assoc. reflexivity. }
  split; [reflexivity|].
  apply validity_rules_of_synced.
  eapply validity_synced_ext; [..|exact Hvs]; reflexivity.
Qed.

(** X24.  Connecting the element brings its displays up to date: with a
    pattern the engine accepts [connectedCallback] returns, the counter
    and the validity show what the value and the attributes call for,
    the textarea carries [aria-required] exactly when it is required,
    and with [auto-resize] its height is its content height, 60 pixels
    at least.  Nothing is dispatched and the value is not touched. *)
Theorem connectedCallback_displays (s : State) :
  pattern_ok s →
  ∃ s', connectedCallback s = Ok tt s'
    ∧ counter_rules s' ∧ validity_rules s'
    ∧ t_attrs (textarea s') !! "aria-required"
      = (if t_required (textarea s) then Some "true" else None)
    ∧ (hasAttribute s "auto-resize" = true →
       t_height (textarea s')
       = Some (JS.show (Z.to_N (Z.max (t_scrollHeight (textarea s)) 60)) +:+ "px"))
    ∧ _value s' = _value s ∧ events s' = events s.
Proof.
  intros Hp. unfold connectedCallback.
  pose proof value_steps as Hsteps. unfold mbind, M_bind in Hsteps.
  unfold mbind, M_bind.
  assert (∀ (m : M unit) (k : M unit) s0,
            bind m (λ _, k) s0
            = match m s0 with Ok _ s1 => k s1 | Throw e s1 => Throw e s1 end)
    as Hbind by done.
  assert (bind (modify updateCharCounter)
            (λ _, bind updateValidation
               (λ _, bind (reading (λ s, when (hasAttribute s "auto-resize")
                                           (modify autoResize)))
                  (λ _, modify updateAriaAttributes))) s
          = match (bind (modify updateCharCounter)
                    (λ _, bind updateValidation
                       (λ _, reading (λ s, when (hasAttribute s "auto-resize")
                                               (modify autoResize))))) s with
            | Ok _ s1 => modify updateAriaAttributes s1
            | Throw e s1 => Throw e s1
            end) as ->.
  { unfold bind, modify. destruct (updateValidation _); [|done].
    by destruct (reading _ _). }
  rewrite Hsteps. clear Hsteps.
  destruct (check_returns (updateCharCounter s)) as [r Hc].
  { eapply pattern_ok_ext; [|exact Hp]. by rewrite updateCharCounter_counter. }
  rewrite Hc. unfold modify. eexists. split; [reflexivity|].
  destruct (value_steps_synced s r Hc) as (Hcore & Hcs & Hvs).
  set (s2 := resized _) in *.
  destruct (synced_updateAriaAttributes s2 Hcs Hvs) as [Hcs' Hvs'].
  split; [by apply counter_rules_of_synced|].
  split; [by apply validity_rules_of_synced|].
  pose proof (core_updateAriaAttributes s2) as Hcore'. rewrite Hcore in Hcore'.
  destruct (core_eq _ _ Hcore') as (_ & Hv & _ & _ & _ & _ & _ & _ & He & _).
  destruct (core_eq _ _ Hcore) as (_ & _ & _ & _ & _ & _ & _ & Hrq & _).
  rewrite Hv, He. split; [|split; [|done]].
  - rewrite updateAriaAttributes_form. cbn [with_textarea textarea t_with_attrs t_attrs].
    destruct (lookup_aria_attrs (getAttribute s2 "label") (t_required (textarea s2))
                (t_attrs (textarea s2))) as [_ ->]. by rewrite Hrq.
  - intros Hr. rewrite updateAriaAttributes_form. subst s2. unfold resized.
    rewrite updateCharCounter_counter.
    change (hasAttribute (show_validity ?b ?m (with_counter ?c s)) "auto-resize")
      with (hasAttribute s "auto-resize"). rewrite Hr.
    rewrite show_validity_form. reflexivity.
Qed.

(** X25.  The [auto-resize] attribute.  Setting it marks the container and
    fits the textarea's height to its content, 60 pixels at least.
    Removing it does nothing: the mark and the height stay. *)
Theorem auto_resize_attribute (s : State) :
  (∀ v, getAttribute s "auto-resize" ≠ Some v →
     ∃ s', setAttribute "auto-resize" v s = Ok tt s'
       ∧ "auto-resize" ∈ container s'
       ∧ t_height (textarea s')
         = Some (JS.show (Z.to_N (Z.max (t_scrollHeight (textarea s)) 60)) +:+ "px"))
  ∧ (∀ old, getAttribute s "auto-resize" = Some old →
       ∃ s', removeAttribute "auto-resize" s = Ok tt s'
         ∧ container s' = container s
         ∧ t_height (textarea s') = t_height (textarea s)).
Proof.
  split.
  - intros v Hne. rewrite setAttribute_observed by reflexivity.
    unfold reporting, attributeChangedCallback. rewrite decide_False by done.
    unfold attribute_case. name_cases.
    rewrite bool_decide_eq_true_2 by done. run.
    eexists. split; [reflexivity|].
    rewrite updateAriaAttributes_form. unfold autoResize.
    cbn [with_textarea with_container with_attrs textarea container
         t_with_attrs t_with_height t_height t_scrollHeight].
    split; [set_solver|reflexivity].
  - intros old Hold. rewrite (removeAttribute_observed _ old) by done.
    unfold reporting, attributeChangedCallback. rewrite decide_False by done.
    unfold attribute_case. name_cases.
    rewrite bool_decide_eq_false_2 by (by intros []). run.
    eexists. split; [reflexivity|].
    rewrite updateAriaAttributes_form. done.
Qed.

End TexteriaExtras.

Section TexteriaExtraExamples.
Import Texteria Aux Derived Examples MoreExamples MiniRegExp.

Lemma maxlength_negative_witness :
  ∃ s', setAttribute "maxlength" "-5" ten = Ok tt s'
        ∧ reported s' = [ IndexSizeError ]
        ∧ t_maxLength (textarea s') = 10%Z
        ∧ getAttribute s' "maxlength" = Some "-5".
Proof.
  eexists. split.
  - apply (maxlength_negative ten "-5" (-5)); [vm_compute; congruence|reflexivity|].
    vm_compute. reflexivity.
  - repeat split.
Defined.

Lemma maxlength_removed_witness :
  "error" ∈ c_classes (charCounter ten_10)
  ∧ ∃ s', removeAttribute "maxlength" ten_10 = Ok tt s'
          ∧ c_text (charCounter s') = "10"
          ∧ "error" ∈ c_classes (charCounter s').
Proof.
  split; [vm_compute; set_solver|].
  destruct (maxlength_removed ten_10 "10" eq_refl) as (s' & Hs' & _ & _ & Ht & Hc).
  exists s'. split; [exact Hs'|]. split; [exact Ht|].
  rewrite Hc. vm_compute. set_solver.
Defined.

(** [letters_area] asks for three characters; holding "ab" it shows the
    length message, and still shows it after [minlength] drops to 1. *)
Lemma minlength_not_revalidated_witness :
  ∃ s', setAttribute "minlength" "1" letters_ab = Ok tt s'
        ∧ t_minLength (textarea s') = 1%Z
        ∧ isValid s' = false
        ∧ v_text (validationMessage s') = "Minimum 3 characters required".
Proof.
  destruct (minlength_not_revalidated letters_ab "1" 1)
    as (s' & Hs' & Hm & Hv & Hmsg & _);
    [vm_compute; congruence|reflexivity|vm_compute; congruence
    |left; vm_compute; reflexivity|].
  exists s'. split; [exact Hs'|]. split; [exact Hm|].
  rewrite Hv, Hmsg. split; reflexivity.
Defined.

Lemma setValue_as_attribute_witness :
  setValue "12345" ten = Ok tt ten_5
  ∧ setAttribute "value" "12345" ten = Ok tt ten_5.
Proof.
  assert (setValue "12345" ten = Ok tt ten_5) as Hknown
    by (vm_compute; reflexivity).
  split; [exact Hknown|]. rewrite <- Hknown. symmetry.
  apply (setValue_as_attribute ten "12345").
  - exact ten_pattern_ok.
  - reflexivity.
  - vm_compute. congruence.
Defined.

Lemma setValue_twice_witness : setValue "12345" ten_5 = Ok tt ten_5.
Proof. apply (setValue_twice ten). vm_compute. reflexivity. Defined.

Lemma remaining_characters_witness :
  getCharacterCount ten_9 = 9%Z ∧ getRemainingCharacters ten_9 = 1%Z
  ∧ ("warning" ∈ c_classes (charCounter ten_9))
  ∧ ("error" ∉ c_classes (charCounter ten_9)).
Proof.
  destruct (remaining_characters ten ten_9 "123456789") as (Hc & Hpos & _);
    [vm_compute; reflexivity|].
  destruct Hpos as (Hsum & He & Hw); [vm_compute; reflexivity|].
  split; [exact Hc|].
  assert (getRemainingCharacters ten_9 = 1%Z) as Hr by (vm_compute; reflexivity).
  split; [exact Hr|]. rewrite He, Hw, Hr. vm_compute. 
  split; [split; congruence|congruence].
Defined.

Lemma focus_then_blur_witness :
  ∃ s1 s2, on_focus required_area = Ok tt s1 ∧ on_blur s1 = Ok tt s2
    ∧ ev_type <$> events s2 = [ "texteria-focus"; "texteria-blur" ]
    ∧ detail_value <$> events s2 = [ ""; "" ].
Proof.
  destruct (focus_then_blur required_area required_area_pattern_ok)
    as (s1 & s2 & H1 & H2 & _ & _ & _ & He2 & _).
  exists s1, s2. split; [exact H1|]. split; [exact H2|].
  rewrite He2. split; reflexivity.
Defined.

Lemma connectedCallback_displays_witness :
  ∃ s', connectedCallback required_area = Ok tt s'
        ∧ t_attrs (textarea s') !! "aria-required" = Some "true"
        ∧ events s' = [].
Proof.
  destruct (connectedCallback_displays required_area required_area_pattern_ok)
    as (s' & Hs' & _ & _ & Ha & _ & _ & He).
  exists s'. split; [exact Hs'|]. split; [exact Ha|exact He].
Defined.

End TexteriaExtraExamples.

Section TexteriaInvariant.
Import Texteria Aux Derived TexteriaPage.
Context `{RegExpEngine}.

Lemma no_CR_normalize s : no_CR (normalize_newlines s) = true.
Proof.
  assert (∀ n s, String.length s < n → no_CR (normalize_newlines s) = true)%nat
    as Hn; [|apply (Hn (S (String.length s))); lia].
  clear s. induction n as [|n IH]; intros s Hlen; [lia|].
  destruct s as [|c r]; [done|]. cbn [normalize_newlines].
  destruct (Ascii.eqb c "013") eqn:Hc.
  - destruct r as [|c' r']; [done|].
    destruct (Ascii.eqb c' "010");
      cbn [no_CR]; apply andb_true_intro; (split; [done|]);
      apply IH; cbn [String.length] in *; lia.
  - cbn [no_CR]. rewrite Hc. cbn [negb andb].
    apply IH. cbn [String.length] in *. lia.
Qed.

Lemma normalize_idem s :
  normalize_newlines (normalize_newlines s) = normalize_newlines s.
Proof. apply normalize_no_CR, no_CR_normalize. Qed.

Lemma consistent_ext s1 s2 : mirror s1 = mirror s2 → consistent s1 → consistent s2.
Proof.
  unfold mirror, consistent, hasAttribute, getAttribute.
  intros [= -> -> -> -> -> -> ->]. done.
Qed.

Lemma mirror_updateCharCounter s : mirror (updateCharCounter s) = mirror s.
Proof. by rewrite updateCharCounter_counter. Qed.

Lemma mirror_show_validity b m s : mirror (show_validity b m s) = mirror s.
Proof. by rewrite show_validity_form. Qed.

Lemma mirror_resized s : mirror (resized s) = mirror s.
Proof. unfold resized. by destruct (hasAttribute s "auto-resize"). Qed.

Lemma mirror_updateAriaAttributes s : mirror (updateAriaAttributes s) = mirror s.
Proof. by rewrite updateAriaAttributes_form. Qed.

Lemma mirror_updateLabel t s : mirror (updateLabel t s) = mirror s.
Proof. unfold updateLabel. destruct (JS.truthy t); [done|]. by destruct (label s). Qed.

Lemma mirror_report e s : mirror (report e s) = mirror s.
Proof. reflexivity. Qed.

Lemma final_bind {A B} (m : M A) (k : A → M B) s :
  final (bind m k s)
  = match m s with
    | Ok a s' => final (k a s')
    | Throw _ s' => s'
    end.
Proof. unfold bind. by destruct (m s). Qed.

Lemma final_reporting m s : mirror (final (reporting m s)) = mirror (final (m s)).
Proof. unfold reporting. by destruct (m s). Qed.

Lemma mirror_updateValidation s : mirror (final (updateValidation s)) = mirror s.
Proof.
  rewrite updateValidation_unfold.
  destruct (check_cases s) as [[r ->]| ->]; [|done]. apply mirror_show_validity.
Qed.

Lemma mirror_value_steps s :
  mirror (final ((modify updateCharCounter ;; updateValidation ;;
            reading (λ s, when (hasAttribute s "auto-resize") (modify autoResize))) s))
  = mirror s.
Proof.
  rewrite value_steps.
  destruct (check_cases (updateCharCounter s)) as [[r ->]| ->]; cbn [final].
  - by rewrite mirror_resized, mirror_show_validity, mirror_updateCharCounter.
  - apply mirror_updateCharCounter.
Qed.

Lemma consistent_of_mirror s a v tv rq dis ph ev :
  mirror s = (a, v, tv, rq, dis, ph, ev) →
  tv = normalize_newlines v →
  rq = bool_decide (is_Some (a !! "required")) →
  dis = bool_decide (is_Some (a !! "disabled")) →
  ph = JS.or_else (a !! "placeholder") "" →
  Forall well_formed ev →
  consistent s.
Proof.
  unfold mirror, consistent, hasAttribute, getAttribute.
  intros [= -> -> -> -> -> -> ->]. done.
Qed.

Lemma mirror_then_aria (m : M unit) s :
  mirror (final ((m ;; modify updateAriaAttributes) s)) = mirror (final (m s)).
Proof.
  unfold mbind, M_bind, bind, modify. destruct (m s); [|done].
  apply mirror_updateAriaAttributes.
Qed.

Lemma mirror_then_counter (m : M unit) s :
  mirror (final ((m ;; modify updateCharCounter) s)) = mirror (final (m s)).
Proof.
  unfold mbind, M_bind, bind, modify. destruct (m s); [|done].
  apply mirror_updateCharCounter.
Qed.

Lemma mirror_set_maxLength x s : mirror (final (set_maxLength x s)) = mirror s.
Proof. unfold set_maxLength. by destruct (_ || _). Qed.

Lemma mirror_set_minLength x s : mirror (final (set_minLength x s)) = mirror s.
Proof. unfold set_minLength. by destruct (_ || _). Qed.

(** The cases of the callback that leave the mirrored part alone. *)
Lemma attribute_case_other name new s :
  name ∉ [ "value"; "placeholder"; "disabled"; "required" ] →
  mirror (final (attribute_case name new s)) = mirror s.
Proof.
  rewrite !not_elem_of_cons. intros (Hv & Hp & Hd & Hr & _).
  unfold attribute_case. rewrite !decide_False by done.
  repeat case_decide; try done.
  all: try reflexivity.
  all: try rewrite mirror_then_counter.
  all: try apply mirror_updateValidation.
  all: try apply mirror_updateLabel.
  all: try (destruct (JS.truthy new);
            [apply mirror_set_maxLength || apply mirror_set_minLength
            |reflexivity]).
  all: unfold when; by repeat match goal with
                          | |- context [if ?b then _ else _] => destruct b
                          end.
Qed.

Lemma attribute_case_value new s :
  mirror (final (attribute_case "value" new s))
  = if isUserTyping s then mirror s
    else (attrs s, JS.or_else new "", normalize_newlines (JS.or_else new ""),
          t_required (textarea s), t_disabled (textarea s),
          t_placeholder (textarea s), events s).
Proof.
  unfold attribute_case. name_cases. unfold reading.
  destruct (isUserTyping s); cbn [negb]; [reflexivity|].
  unfold mbind, M_bind. unfold bind at 1. unfold modify at 1.
  unfold bind at 1. unfold modify at 1.
  pose proof mirror_value_steps as Hm. unfold mbind, M_bind in Hm.
  rewrite Hm. reflexivity.
Qed.

Lemma attribute_case_placeholder new s :
  mirror (final (attribute_case "placeholder" new s))
  = (attrs s, _value s, t_value (textarea s), t_required (textarea s),
     t_disabled (textarea s), JS.or_else new "", events s).
Proof. reflexivity. Qed.

Lemma attribute_case_disabled new s :
  mirror (final (attribute_case "disabled" new s))
  = (attrs s, _value s, t_value (textarea s), t_required (textarea s),
     bool_decide (new ≠ None), t_placeholder (textarea s), events s).
Proof. reflexivity. Qed.

Lemma attribute_case_required new s :
  mirror (final (attribute_case "required" new s))
  = (attrs s, _value s, t_value (textarea s), bool_decide (new ≠ None),
     t_disabled (textarea s), t_placeholder (textarea s), events s).
Proof.
  unfold attribute_case. name_cases.
  unfold mbind, M_bind. unfold bind. unfold modify at 1.
  pose proof (mirror_updateValidation
                (with_textarea (t_with_required (bool_decide (new ≠ None)) (textarea s)) s))
    as Hm.
  destruct (updateValidation _); exact Hm.
Qed.

Lemma is_Some_bool (o : option string) :
  bool_decide (is_Some o) = bool_decide (o ≠ None).
Proof. destruct o; [|done]. rewrite !bool_decide_eq_true_2; done. Qed.

(** A callback for an attribute that has just been written keeps the
    element consistent. *)
Lemma callback_consistent name old new a' s :
  consistent s → a' !! name = new →
  (∀ k, k ≠ name → a' !! k = attrs s !! k) → old ≠ new →
  consistent (final (attributeChangedCallback name old new (with_attrs a' s))).
Proof.
  intros (I1 & I3 & I4 & I5 & I2) Hnew Hother Hne.
  unfold hasAttribute, getAttribute in *.
  unfold attributeChangedCallback. rewrite decide_False by done.
  destruct (decide (name = "value")) as [->|Hv].
  { destruct (isUserTyping s) eqn:Hty.
    - eapply (consistent_of_mirror _ a' (_value s) (t_value (textarea s))).
      + rewrite mirror_then_aria, attribute_case_value.
        cbn [isUserTyping with_attrs]. rewrite Hty. reflexivity.
      + exact I1.
      + by rewrite Hother.
      + by rewrite Hother.
      + by rewrite Hother.
      + exact I2.
    - eapply (consistent_of_mirror _ a' (JS.or_else new "")).
      + rewrite mirror_then_aria, attribute_case_value.
        cbn [isUserTyping with_attrs]. rewrite Hty. reflexivity.
      + reflexivity.
      + by rewrite Hother.
      + by rewrite Hother.
      + by rewrite Hother.
      + exact I2. }
  destruct (decide (name = "placeholder")) as [->|Hp].
  { eapply (consistent_of_mirror _ a').
    - rewrite mirror_then_aria, attribute_case_placeholder. reflexivity.
    - exact I1.
    - by rewrite Hother.
    - by rewrite Hother.
    - by rewrite Hnew.
    - exact I2. }
  destruct (decide (name = "disabled")) as [->|Hd].
  { eapply (consistent_of_mirror _ a').
    - rewrite mirror_then_aria, attribute_case_disabled. reflexivity.
    - exact I1.
    - by rewrite Hother.
    - by rewrite Hnew, is_Some_bool.
    - by rewrite Hother.
    - exact I2. }
  destruct (decide (name = "required")) as [->|Hr].
  { eapply (consistent_of_mirror _ a').
    - rewrite mirror_then_aria, attribute_case_required. reflexivity.
    - exact I1.
    - by rewrite Hnew, is_Some_bool.
    - by rewrite Hother.
    - by rewrite Hother.
    - exact I2. }
  eapply (consistent_of_mirror _ a').
  - rewrite mirror_then_aria, attribute_case_other; [reflexivity|].
    rewrite !not_elem_of_cons. repeat split; try done. apply not_elem_of_nil.
  - exact I1.
  - by rewrite Hother.
  - by rewrite Hother.
  - by rewrite Hother.
  - exact I2.
Qed.

Lemma observed_names name :
  name ∈ [ "placeholder"; "disabled"; "required" ] →
  bool_decide (name ∈ observedAttributes) = true.
Proof.
  rewrite !elem_of_cons. intros [->|[->|[->|Hn]]]; [done..|].
  by apply elem_of_nil in Hn.
Qed.

Lemma with_attrs_consistent a' s :
  consistent s →
  (∀ k, k ∈ [ "placeholder"; "disabled"; "required" ] → a' !! k = attrs s !! k) →
  consistent (with_attrs a' s).
Proof.
  intros (I1 & I3 & I4 & I5 & I2) Ha.
  unfold consistent, hasAttribute, getAttribute in *. cbn [with_attrs attrs textarea _value events].
  rewrite !Ha by set_solver. done.
Qed.

Lemma setAttribute_consistent name v s :
  consistent s → consistent (final (setAttribute name v s)).
Proof.
  intros Hs. unfold setAttribute.
  destruct (bool_decide (name ∈ observedAttributes)) eqn:Ho.
  - eapply consistent_ext; [symmetry; apply final_reporting|].
    destruct (decide (getAttribute s name = Some v)) as [Heq|Hne].
    + rewrite Heq. unfold attributeChangedCallback. rewrite decide_True by done.
      cbn [ret final]. unfold getAttribute in Heq.
      rewrite (insert_id _ _ _ Heq), with_attrs_id. exact Hs.
    + apply callback_consistent; [exact Hs|apply lookup_insert_eq| |exact Hne].
      intros k Hk. by apply lookup_insert_ne.
  - cbn [final]. apply with_attrs_consistent; [exact Hs|].
    intros k Hk. apply lookup_insert_ne. intros ->.
    rewrite (observed_names _ Hk) in Ho. done.
Qed.

Lemma removeAttribute_consistent name s :
  consistent s → consistent (final (removeAttribute name s)).
Proof.
  intros Hs. unfold removeAttribute.
  destruct (getAttribute s name) as [old|] eqn:Hold; [|exact Hs].
  destruct (bool_decide (name ∈ observedAttributes)) eqn:Ho.
  - eapply consistent_ext; [symmetry; apply final_reporting|].
    apply callback_consistent; [exact Hs|apply lookup_delete_eq| |done].
    intros k Hk. by apply lookup_delete_ne.
  - cbn [final]. apply with_attrs_consistent; [exact Hs|].
    intros k Hk. apply lookup_delete_ne. intros ->.
    rewrite (observed_names _ Hk) in Ho. done.
Qed.

Lemma well_formed_custom_event type s :
  type ∈ [ "texteria-input"; "texteria-change"; "texteria-focus"; "texteria-blur" ] →
  well_formed (custom_event type s).
Proof.
  intros Ht. unfold well_formed, custom_event, value_length.
  cbn [ev_type bubbles composed detail_value detail_characterCount].
  split; [exact Ht|]. split; [done|]. split; [done|].
  by rewrite <- nat_N_Z, N2Z.id.
Qed.

Lemma dispatch_consistent type s0 s :
  type ∈ [ "texteria-input"; "texteria-change"; "texteria-focus"; "texteria-blur" ] →
  consistent s →
  consistent (dispatchEvent (custom_event type s0) s).
Proof.
  intros Ht (I1 & I3 & I4 & I5 & I2). unfold consistent.
  cbn [dispatchEvent textarea _value events]. do 4 (split; [done|]).
  apply Forall_app. split; [exact I2|].
  apply Forall_cons. split; [by apply well_formed_custom_event|apply Forall_nil_2].
Qed.

Lemma on_change_consistent s : consistent s → consistent (final (on_change s)).
Proof. intros Hs. apply dispatch_consistent; [set_solver|exact Hs]. Qed.

Lemma on_focus_consistent s : consistent s → consistent (final (on_focus s)).
Proof.
  intros Hs. unfold on_focus. run. cbn [final].
  apply dispatch_consistent; [set_solver|].
  eapply consistent_ext; [|exact Hs]. reflexivity.
Qed.

Lemma on_blur_consistent s : consistent s → consistent (final (on_blur s)).
Proof.
  intros Hs. unfold on_blur.
  unfold mbind, M_bind. unfold bind at 1. unfold modify at 1. unfold bind.
  set (s1 := with_container _ s).
  pose proof (mirror_updateValidation s1) as Hm.
  destruct (updateValidation s1) as [[] s2|e s2]; cbn [final] in *.
  - unfold modify. cbn [final]. apply dispatch_consistent; [set_solver|].
    eapply consistent_ext; [|exact Hs]. by rewrite Hm.
  - eapply consistent_ext; [|exact Hs]. by rewrite Hm.
Qed.

(** The input listener on a textarea whose text is normalised. *)
Lemma on_input_consistent s :
  t_value (textarea s) = normalize_newlines (t_value (textarea s)) →
  consistent (with_value (t_value (textarea s)) s) →
  consistent (final (on_input s)).
Proof.
  intros Hn Hs. unfold on_input.
  unfold mbind, M_bind. unfold bind at 1. unfold modify at 1.
  unfold bind at 1. unfold modify at 1. unfold bind at 1. unfold reading at 1.
  set (s1 := with_value _ (with_typing true s)).
  assert (consistent s1) as Hs1.
  { eapply consistent_ext; [|exact Hs]. reflexivity. }
  pose proof (setAttribute_consistent "value" (_value s1) s1 Hs1) as Hs2.
  destruct (setAttribute "value" (_value s1) s1) as [[] s2|e s2] eqn:Hset.
  2: { exact Hs2. }
  cbn [final] in Hs2.
  pose proof (mirror_value_steps s2) as Hm.
  unfold mbind, M_bind in Hm.
  assert (∀ (m : M unit) (k : M unit) s0,
            final (bind m (λ _, k) s0)
            = match m s0 with Ok _ s' => final (k s') | Throw _ s' => s' end)
    as Hfb by (intros; apply final_bind).
  match goal with
  | |- consistent (final (bind ?a (λ _, bind ?b (λ _, bind ?c (λ _, ?k))) s2)) =>
      assert (final (bind a (λ _, bind b (λ _, bind c (λ _, k))) s2)
              = match bind a (λ _, bind b (λ _, c)) s2 with
                | Ok _ s' => final (k s')
                | Throw _ s' => s'
                end) as ->
  end.
  { unfold bind. destruct (modify updateCharCounter s2); [|done].
    destruct (updateValidation _); [|done]. by destruct (reading _ _). }
  destruct (bind _ _ s2) as [[] s3|e s3]; cbn [final] in Hm.
  - unfold bind, modify. cbn [final].
    eapply consistent_ext; [|apply (dispatch_consistent "texteria-input" s3 s3)].
    + reflexivity.
    + set_solver.
    + eapply consistent_ext; [|exact Hs2]. by rewrite Hm.
  - eapply consistent_ext; [|exact Hs2]. by rewrite Hm.
Qed.

Lemma user_type_consistent c s : consistent s → consistent (final (user_type c s)).
Proof.
  intros Hs. unfold user_type.
  destruct (t_disabled (textarea s)); [exact Hs|].
  destruct (_ && _); [exact Hs|].
  eapply consistent_ext; [symmetry; apply final_reporting|].
  apply on_input_consistent.
  - cbn [with_textarea textarea t_with_value t_value]. by rewrite normalize_idem.
  - destruct Hs as (I1 & I3 & I4 & I5 & I2). unfold consistent.
    cbn [with_textarea with_value textarea t_with_value t_value _value
         t_required t_disabled t_placeholder events].
    split; [by rewrite normalize_idem|]. done.
Qed.

Lemma setValue_consistent v s : consistent s → consistent (final (setValue v s)).
Proof.
  intros Hs. rewrite setValue_unfold.
  set (s1 := with_textarea _ (with_value v s)).
  assert (consistent s1) as Hs1.
  { destruct Hs as (I1 & I3 & I4 & I5 & I2). unfold consistent. subst s1.
    cbn [with_textarea with_value textarea t_with_value t_value _value
         t_required t_disabled t_placeholder events]. done. }
  pose proof (setAttribute_consistent "value" v s1 Hs1) as Hs2.
  destruct (setAttribute "value" v s1) as [[] s2|e s2]; [|exact Hs2].
  cbn [final] in Hs2.
  eapply consistent_ext; [|exact Hs2]. symmetry. apply mirror_value_steps.
Qed.

Lemma connectedCallback_consistent s :
  consistent s → consistent (final (connectedCallback s)).
Proof.
  intros Hs. unfold connectedCallback.
  pose proof (mirror_value_steps s) as Hm.
  unfold mbind, M_bind in *.
  assert (final (bind (modify updateCharCounter)
            (λ _, bind updateValidation
               (λ _, bind (reading (λ s, when (hasAttribute s "auto-resize")
                                           (modify autoResize)))
                  (λ _, modify updateAriaAttributes))) s)
          = match (bind (modify updateCharCounter)
                    (λ _, bind updateValidation
                       (λ _, reading (λ s, when (hasAttribute s "auto-resize")
                                               (modify autoResize))))) s with
            | Ok _ s1 => updateAriaAttributes s1
            | Throw e s1 => s1
            end) as ->.
  { unfold bind, modify. destruct (updateValidation _); [|done].
    by destruct (reading _ _). }
  destruct (bind _ _ s) as [[] s1|e s1]; cbn [final] in Hm.
  - eapply consistent_ext; [|exact Hs]. by rewrite mirror_updateAriaAttributes, Hm.
  - eapply consistent_ext; [|exact Hs]. by rewrite Hm.
Qed.

Lemma perform_consistent a s : consistent s → consistent (final (perform a s)).
Proof.
  intros Hs. destruct a; cbn [perform].
  - eapply consistent_ext; [symmetry; apply final_reporting|].
    by apply connectedCallback_consistent.
  - by apply setAttribute_consistent.
  - by apply removeAttribute_consistent.
  - by apply user_type_consistent.
  - eapply consistent_ext; [symmetry; apply final_reporting|].
    by apply on_change_consistent.
  - eapply consistent_ext; [symmetry; apply final_reporting|].
    by apply on_focus_consistent.
  - eapply consistent_ext; [symmetry; apply final_reporting|].
    by apply on_blur_consistent.
  - by apply setValue_consistent.
  - by apply setValue_consistent.
  - assert (consistent (record_call NativeFocus s)) as Hs'
      by (eapply consistent_ext; [|exact Hs]; reflexivity).
    unfold focus. run. destruct (moves && negb _); [|exact Hs'].
    eapply consistent_ext; [symmetry; apply final_reporting|].
    by apply on_focus_consistent.
  - assert (consistent (record_call NativeBlur s)) as Hs'
      by (eapply consistent_ext; [|exact Hs]; reflexivity).
    unfold blur. run. destruct moves; [|exact Hs'].
    assert (consistent
              (final ((if commits then reporting on_change else ret tt)
                        (record_call NativeBlur s)))) as Hs''.
    { destruct commits; [|exact Hs'].
      eapply consistent_ext; [symmetry; apply final_reporting|].
      by apply on_change_consistent. }
    destruct commits.
    + destruct (reporting on_change (record_call NativeBlur s))
        as [[] s1|e s1] eqn:Hc; [|exact Hs''].
      eapply consistent_ext; [symmetry; apply final_reporting|].
      by apply on_blur_consistent.
    + eapply consistent_ext; [symmetry; apply final_reporting|].
      by apply on_blur_consistent.
Qed.

(** X26.  Whatever the page and the user do to a text area, in any order and
    whether or not a callback, a listener or a method throws on the way:
    the textarea holds the widget's value (with its line breaks
    normalised), the textarea's [required], [disabled] and [placeholder]
    are those of the host's attributes, and every event dispatched so
    far is one of the four [texteria-] events, bubbling and composed,
    with the length of its value as its character count. *)
Theorem always_consistent (actions : list Action) (scrollHeight : Z) :
  consistent (run_actions actions (constructed scrollHeight)).
Proof.
  assert (consistent (constructed scrollHeight)) as Hs.
  { unfold consistent. repeat split. apply Forall_nil_2. }
  revert Hs. generalize (constructed scrollHeight).
  induction actions as [|a l IH]; intros s Hs; [exact Hs|].
  cbn [run_actions]. apply IH. by apply perform_consistent.
Qed.

End TexteriaInvariant.
